(** * crypto-tracker-backend/app.py: DCA simulator, valuator and analytics

    A shallow embedding of the computational core of [app.py] and the
    properties its specification states about it.

    Conventions of the embedding.
    - Python numbers ([int] and [float]) are exact rationals [Q]; equality of
      computed amounts is [==] ([Qeq]).  Floating-point rounding error is not
      modelled; [round(x, n)] is [py_round], round-half-to-even on the exact
      value.
    - A [datetime] is a whole number of days since 1970-01-01.  Every datetime
      the modelled functions compare is either midnight ([START_DATE] plus
      whole days) or [datetime.now()], and the time of day of the latter does
      not change [<=] against a midnight value.  The date of a ledger
      transaction is kept as the text it is ([date_text]), since the code
      parses it with two functions that accept different texts.
    - The module globals the functions read and write ([TODAY],
      [price_cache]) are the state of a state-and-exception monad [M]; the
      outside world (CoinGecko, the transaction file, the clock) is a record
      [env] of oracles, fixed for the duration of one request.
    - A Python exception is a value of [exn]; [try/except Exception] is
      [catch]. *)

From Stdlib Require Import ZArith QArith Qround Lqa List Sorted Permutation.
From stdpp Require Import strings gmap.

Open Scope Z_scope.
Open Scope Q_scope.

(** ** Exceptions *)

Inductive exn : Type :=
| ZeroDivisionError
| NameError (name : string)
| UnboundLocalError (name : string)
| TypeError
| IndexError
| StatisticsError
| ValueError
| FuelExhausted. (* a bounded unrolling of a [while] loop ran out: no Python
                    counterpart, shown unreachable for every loop below *)

Inductive result (A : Type) : Type :=
| Ok (a : A)
| Raise (e : exn).
Arguments Ok {A} a.
Arguments Raise {A} e.

Definition rbind {A B} (r : result A) (f : A -> result B) : result B :=
  match r with
  | Ok a => f a
  | Raise e => Raise e
  end.

(** ** Module globals and the state monad *)

Record price_data : Type := { bitcoin : Q; ethereum : Q }.

Record globals : Type := {
  TODAY : Z;                          (* TODAY = datetime.now() at import *)
  price_cache : gmap Z price_data     (* price_cache, keyed by calendar day *)
}.

Definition M (A : Type) : Type := globals -> result A * globals.

Definition ret {A} (a : A) : M A := fun g => (Ok a, g).
Definition raise {A} (e : exn) : M A := fun g => (Raise e, g).
Definition bind {A B} (m : M A) (f : A -> M B) : M B :=
  fun g => match m g with
           | (Ok a, g') => f a g'
           | (Raise e, g') => (Raise e, g')
           end.
Definition lift {A} (r : result A) : M A := fun g => (r, g).
(* try: m except Exception as e: h e *)
Definition catch {A} (m : M A) (h : exn -> M A) : M A :=
  fun g => match m g with
           | (Ok a, g') => (Ok a, g')
           | (Raise e, g') => h e g'
           end.

Notation "'do' x <- m ; k" := (bind m (fun x => k))
  (at level 10, x pattern, m at level 100, k at level 200).
Notation "'dor' x <- m ; k" := (rbind m (fun x => k))
  (at level 10, x pattern, m at level 100, k at level 200).

Definition get_TODAY : M Z := fun g => (Ok (TODAY g), g).
Definition set_TODAY (d : Z) : M unit :=
  fun g => (Ok tt, {| TODAY := d; price_cache := price_cache g |}).

(** ** Numbers *)

Definition Qltb (a b : Q) : bool :=
  match a ?= b with Lt => true | _ => false end.

(* a / b *)
Definition py_div (a b : Q) : result Q :=
  if Qeq_bool b 0 then Raise ZeroDivisionError else Ok (a / b).

(* max(a, b): the first argument wins ties *)
Definition py_max (a b : Q) : Q := if Qltb a b then b else a.

Definition round_half_even (x : Q) : Z :=
  let f := Qfloor x in
  match (x - inject_Z f ?= 1 # 2)%Q with
  | Lt => f
  | Gt => (f + 1)%Z
  | Eq => if Z.even f then f else (f + 1)%Z
  end.

(* round(x, ndigits) *)
Definition py_round (x : Q) (ndigits : nat) : Q :=
  inject_Z (round_half_even (x * inject_Z (10 ^ Z.of_nat ndigits)))
  / inject_Z (10 ^ Z.of_nat ndigits).

(** ** Calendar *)

(* datetime(y, m, d) as days since 1970-01-01 (proleptic Gregorian) *)
Definition days_from_civil (y m d : Z) : Z :=
  (let y' := if m <=? 2 then y - 1 else y in
   let era := y' / 400 in
   let yoe := y' - era * 400 in
   let doy := (153 * (if m <=? 2 then m + 9 else m - 3) + 2) / 5 + d - 1 in
   let doe := yoe * 365 + yoe / 4 - yoe / 100 + doy in
   era * 146097 + doe - 719468)%Z.

Definition START_DATE : Z := days_from_civil 2025 1 25.

(** ** Constants *)

Definition DEFAULT_BTC_INVEST : Q := 100.
Definition DEFAULT_ETH_INVEST : Q := 50.
Definition DEFAULT_BTC_TOTAL : Q := 102.
Definition DEFAULT_ETH_TOTAL : Q := 518 # 10.

(** ** The outside world *)

(* tx['date'], a text.  [add_transaction] admits every text that
   datetime.strptime(text, '%Y-%m-%d') reads, which includes dates written
   without zero padding such as '2025-6-1'; a ledger file edited by hand can
   hold any text. *)
Inductive date_text : Type :=
| Iso (day : Z)             (* 'YYYY-MM-DD', zero padded *)
| Unpadded (day : Z)        (* a date that strptime reads, not in that form *)
| NoDate (text : string).   (* any other text *)

(* datetime.fromisoformat *)
Definition fromisoformat (d : date_text) : result Z :=
  match d with
  | Iso day => Ok day
  | Unpadded _ => Raise ValueError
  | NoDate _ => Raise ValueError
  end.

Record transaction : Type := {
  tx_date : date_text;
  tx_coin : string;
  tx_amount : Q;
  tx_price : Q;
  tx_type : option string          (* absent in old records *)
}.

Record env : Type := {
  (* GET /coins/{coin_id}/history?date=...: [None] on a non-200 status, an
     exception or a body without market_data.current_price.usd.  One run of
     the simulator asks for each date at most once, so a function of the
     date covers every sequence of answers it can get. *)
  history_api : string -> Z -> option Q;
  (* GET /simple/price: [None] on a non-200 status or an exception *)
  spot_api : option price_data;
  (* cache.get('current_prices') *)
  cached_spot : option price_data;
  (* datetime.now() *)
  now : Z;
  (* json.load of MANUAL_TX_FILE, [[]] when the file is absent *)
  manual_transactions : list transaction;
  (* real-valued x ** y for x > 0, and math.sqrt *)
  float_pow : Q -> Q -> Q;
  float_sqrt : Q -> Q
}.

(** ** Price source and cache: [get_price_on_date] *)

(* truth value of a fetched price: [None] and [0] are falsy *)
Definition truthy (p : option Q) : bool :=
  match p with
  | Some x => negb (Qeq_bool x 0)
  | None => false
  end.

Definition fetch_price (e : env) (date : Z) (coin_id : string) : option Q :=
  history_api e coin_id date.

(* The two one-second sleeps have no counterpart here, and the rewrite of
   CACHE_FILE after a successful fetch is the update of [price_cache]. *)
Definition get_price_on_date (e : env) (date : Z) : M (option price_data) :=
  fun g =>
    match price_cache g !! date with
    | Some pd => (Ok (Some pd), g)
    | None =>
        let btc_price := fetch_price e date "bitcoin" in
        let eth_price := fetch_price e date "ethereum" in
        match btc_price, eth_price with
        | Some b, Some et =>
            if truthy btc_price && truthy eth_price then
              let pd := {| bitcoin := b; ethereum := et |} in
              (Ok (Some pd),
               {| TODAY := TODAY g; price_cache := <[date := pd]> (price_cache g) |})
            else (Ok None, g)
        | _, _ => (Ok None, g)
        end
    end.

(** ** DCA simulator: [simulate_investments] *)

Record sim_state : Type := {
  btc_total_usd : Q;
  eth_total_usd : Q;
  btc_held : Q;
  eth_held : Q;
  current_date : Z;
  weeks : Z
}.

Definition interval_of (frequency : string) : Z :=
  if String.eqb frequency "daily" then 1
  else if String.eqb frequency "weekly" then 7
  else if String.eqb frequency "monthly" then 30
  else 7.

(* the part of the loop body after a successful price lookup *)
Definition credit (interval : Z) (btc_amount eth_amount : Q)
    (pd : price_data) (st : sim_state) : result sim_state :=
  dor btc_units <- py_div btc_amount (bitcoin pd);
  let btc_held' := btc_held st + btc_units in
  let btc_total' := btc_total_usd st + DEFAULT_BTC_TOTAL in
  if (weeks st mod 2 =? 0)%Z then
    dor eth_units <- py_div eth_amount (ethereum pd);
    Ok {| btc_total_usd := btc_total';
          eth_total_usd := eth_total_usd st + DEFAULT_ETH_TOTAL;
          btc_held := btc_held';
          eth_held := eth_held st + eth_units;
          current_date := (current_date st + interval)%Z;
          weeks := (weeks st + 1)%Z |}
  else
    Ok {| btc_total_usd := btc_total';
          eth_total_usd := eth_total_usd st;
          btc_held := btc_held';
          eth_held := eth_held st;
          current_date := (current_date st + interval)%Z;
          weeks := (weeks st + 1)%Z |}.

(* the [if not price_data: ...; continue] branch *)
Definition skip (interval : Z) (st : sim_state) : sim_state :=
  {| btc_total_usd := btc_total_usd st;
     eth_total_usd := eth_total_usd st;
     btc_held := btc_held st;
     eth_held := eth_held st;
     current_date := (current_date st + interval)%Z;
     weeks := (weeks st + 1)%Z |}.

(* one iteration of the [while] body *)
Definition simulate_step (e : env) (interval : Z) (btc_amount eth_amount : Q)
    (st : sim_state) : M sim_state :=
  do price_data <- get_price_on_date e (current_date st);
  match price_data with
  | None => ret (skip interval st)
  | Some pd => lift (credit interval btc_amount eth_amount pd st)
  end.

Fixpoint simulate_loop (fuel : nat) (e : env) (interval : Z)
    (btc_amount eth_amount : Q) (st : sim_state) : M sim_state :=
  match fuel with
  | O => raise FuelExhausted
  | S fuel' =>
      do today <- get_TODAY;
      if (current_date st <=? today)%Z then
        do st' <- simulate_step e interval btc_amount eth_amount st;
        simulate_loop fuel' e interval btc_amount eth_amount st'
      else ret st
  end.

Definition sim_init : sim_state :=
  {| btc_total_usd := 0; eth_total_usd := 0; btc_held := 0; eth_held := 0;
     current_date := START_DATE; weeks := 0 |}.

(* the loop visits at most one date per day between START_DATE and TODAY *)
Definition sim_fuel (today : Z) : nat := S (Z.to_nat (today - START_DATE + 1)%Z).

Definition simulate_investments (e : env) (frequency : string)
    (btc_amount eth_amount : Q) : M (Q * Q * Q * Q) :=
  do today <- get_TODAY;
  do st <- simulate_loop (sim_fuel today) e (interval_of frequency)
             btc_amount eth_amount sim_init;
  ret (btc_total_usd st, eth_total_usd st, btc_held st, eth_held st).

(** ** Manual ledger merge: [apply_manual_transactions] *)

(* tx.get('type', 'buy') *)
Definition tx_kind (tx : transaction) : string := default "buy" (tx_type tx).

Definition apply_tx (acc : Q * Q * Q * Q) (tx : transaction) : Q * Q * Q * Q :=
  let '(btc_held, eth_held, btc_total_usd, eth_total_usd) := acc in
  let amount := tx_amount tx in
  let price := tx_price tx in
  let transaction_type := tx_kind tx in
  if String.eqb (tx_coin tx) "bitcoin" then
    if String.eqb transaction_type "buy" then
      (btc_held + amount, eth_held, btc_total_usd + amount * price, eth_total_usd)
    else if String.eqb transaction_type "sell" then
      (btc_held - amount, eth_held, btc_total_usd - amount * price, eth_total_usd)
    else acc
  else if String.eqb (tx_coin tx) "ethereum" then
    if String.eqb transaction_type "buy" then
      (btc_held, eth_held + amount, btc_total_usd, eth_total_usd + amount * price)
    else if String.eqb transaction_type "sell" then
      (btc_held, eth_held - amount, btc_total_usd, eth_total_usd - amount * price)
    else acc
  else acc.

Definition apply_manual_transactions (e : env)
    (btc_held eth_held btc_total_usd eth_total_usd : Q) : Q * Q * Q * Q :=
  fold_left apply_tx (manual_transactions e)
    (btc_held, eth_held, btc_total_usd, eth_total_usd).

(** ** Spot prices *)

Definition get_current_prices (e : env) : option price_data := spot_api e.

Definition get_current_prices_cached (e : env) : price_data :=
  match cached_spot e with
  | Some prices => prices
  | None =>
      match spot_api e with
      | Some prices => prices
      | None =>
          match cached_spot e with
          | Some cached_prices => cached_prices
          | None => {| bitcoin := 50000; ethereum := 3000 |}
          end
      end
  end.

(** ** HTTP responses *)

Inductive error_body : Type :=
| Message (s : string)                 (* {'error': s} *)
| Failure (pre : string) (e : exn).    (* {'error': pre + str(e)} *)

Inductive response (A : Type) : Type :=
| Jsonify (body : A) (status : Z)
| JsonError (err : error_body) (status : Z).
Arguments Jsonify {A} body status.
Arguments JsonError {A} err status.

(** ** Portfolio valuator: [portfolio] *)

(* num / den if den > 0 else 0 *)
Definition ratio_of (num den : Q) : result Q :=
  if Qltb 0 den then py_div num den else Ok 0.

(* (num / den * 100) if den > 0 else 0 *)
Definition percent_of (num den : Q) : result Q :=
  if Qltb 0 den then dor q <- py_div num den; Ok (q * 100) else Ok 0.

Record portfolio_data : Type := {
  p_btc_invested : Q;
  p_eth_invested : Q;
  p_btc_held : Q;
  p_eth_held : Q;
  p_btc_value : Q;
  p_eth_value : Q;
  p_total_value : Q;
  p_total_invested : Q;
  p_profit_loss : Q;
  p_btc_percent_change : Q;
  p_eth_percent_change : Q;
  p_total_percent_change : Q
}.

(* the assignments between the price fetch and the return statement *)
Definition portfolio_values (btc_invested eth_invested btc_held eth_held : Q)
    (current_prices : price_data) : result portfolio_data :=
  let btc_price := bitcoin current_prices in
  let eth_price := ethereum current_prices in
  let btc_value := btc_held * btc_price in
  let eth_value := eth_held * eth_price in
  let total_value := btc_value + eth_value in
  let total_invested := btc_invested + eth_invested in
  let profit_loss := total_value - total_invested in
  dor btc_percent <- percent_of (btc_value - btc_invested) btc_invested;
  dor eth_percent <- percent_of (eth_value - eth_invested) eth_invested;
  dor total_percent <- percent_of profit_loss total_invested;
  Ok {| p_btc_invested := btc_invested;
        p_eth_invested := eth_invested;
        p_btc_held := btc_held;
        p_eth_held := eth_held;
        p_btc_value := btc_value;
        p_eth_value := eth_value;
        p_total_value := total_value;
        p_total_invested := total_invested;
        p_profit_loss := profit_loss;
        p_btc_percent_change := btc_percent;
        p_eth_percent_change := eth_percent;
        p_total_percent_change := total_percent |}.

(* the dictionary handed to jsonify *)
Definition portfolio_json (v : portfolio_data) : portfolio_data :=
  {| p_btc_invested := py_round (p_btc_invested v) 2;
     p_eth_invested := py_round (p_eth_invested v) 2;
     p_btc_held := py_round (p_btc_held v) 6;
     p_eth_held := py_round (p_eth_held v) 6;
     p_btc_value := py_round (p_btc_value v) 2;
     p_eth_value := py_round (p_eth_value v) 2;
     p_total_value := py_round (p_total_value v) 2;
     p_total_invested := py_round (p_total_invested v) 2;
     p_profit_loss := py_round (p_profit_loss v) 2;
     p_btc_percent_change := py_round (p_btc_percent_change v) 2;
     p_eth_percent_change := py_round (p_eth_percent_change v) 2;
     p_total_percent_change := py_round (p_total_percent_change v) 2 |}.

Definition portfolio_body (e : env) (frequency : string)
    : M (response portfolio_data) :=
  do (btc_invested, eth_invested, btc_held, eth_held) <-
    simulate_investments e frequency DEFAULT_BTC_INVEST DEFAULT_ETH_INVEST;
  let '(btc_held, eth_held, btc_invested, eth_invested) :=
    apply_manual_transactions e btc_held eth_held btc_invested eth_invested in
  let current_prices := get_current_prices_cached e in
  do v <- lift (portfolio_values btc_invested eth_invested btc_held eth_held
                  current_prices);
  ret (Jsonify (portfolio_json v) 200).

(* the handler under its decorators (rate limit, timing, response cache) *)
Definition portfolio (e : env) (frequency : string)
    : M (response portfolio_data) :=
  catch (portfolio_body e frequency)
        (fun ex => ret (JsonError (Failure "" ex) 500)).

(** ** The other places that report a percentage *)

(* live_profit_loss: profit_percent *)
Definition live_profit_percent (btc_invested eth_invested btc_held eth_held : Q)
    (btc_price eth_price : Q) : result Q :=
  let btc_value := btc_held * btc_price in
  let eth_value := eth_held * eth_price in
  let total_value := btc_value + eth_value in
  let total_invested := btc_invested + eth_invested in
  let profit_loss := total_value - total_invested in
  percent_of profit_loss total_invested.

(* portfolio_history and export_history, for each sampled date: roi_percent *)
Definition history_roi_percent (btc_invested eth_invested btc_held eth_held : Q)
    (price_data : price_data) : result Q :=
  let btc_value := btc_held * bitcoin price_data in
  let eth_value := eth_held * ethereum price_data in
  let total_value := btc_value + eth_value in
  let total_invested := btc_invested + eth_invested in
  let profit_loss := total_value - total_invested in
  percent_of profit_loss total_invested.

(* export_portfolio_csv: (btc_roi, eth_roi, total_roi) *)
Definition export_portfolio_roi (btc_invested eth_invested btc_held eth_held : Q)
    (current_prices : price_data) : result (Q * Q * Q) :=
  let btc_value := btc_held * bitcoin current_prices in
  let eth_value := eth_held * ethereum current_prices in
  let btc_profit_loss := btc_value - btc_invested in
  dor btc_roi <- percent_of btc_profit_loss btc_invested;
  let eth_profit_loss := eth_value - eth_invested in
  dor eth_roi <- percent_of eth_profit_loss eth_invested;
  let total_invested := btc_invested + eth_invested in
  let total_value := btc_value + eth_value in
  let total_profit_loss := total_value - total_invested in
  dor total_roi <- percent_of total_profit_loss total_invested;
  Ok (btc_roi, eth_roi, total_roi).

(** ** Realized profit and loss: [calculate_transaction_profit_loss] *)

Record profit_loss_data : Type := {
  profit_loss : Q;
  profit_loss_percent : Q;
  average_buy_price : Q
}.

Definition no_profit_loss : profit_loss_data :=
  {| profit_loss := 0; profit_loss_percent := 0; average_buy_price := 0 |}.

(* sum(xs) *)
Definition py_sum (xs : list Q) : Q := fold_left Qplus xs 0.

(* the condition of the loop; [and] reads the date of an entry only when its
   coin and type have matched *)
Definition is_buy_before (tx : transaction) (coin : string) (sell_date : Z)
    : result bool :=
  if String.eqb (tx_coin tx) coin && String.eqb (tx_kind tx) "buy" then
    dor date <- fromisoformat (tx_date tx);
    Ok (date <=? sell_date)%Z
  else Ok false.

(* the buys of [coin] dated on or before [sell_date], in ledger order *)
Fixpoint buy_transactions_before (transactions : list transaction)
    (coin : string) (sell_date : Z) : result (list transaction) :=
  match transactions with
  | [] => Ok []
  | tx :: rest =>
      dor keep <- is_buy_before tx coin sell_date;
      dor buy_transactions <- buy_transactions_before rest coin sell_date;
      Ok (if keep then tx :: buy_transactions else buy_transactions)
  end.

Definition calculate_transaction_profit_loss_body (e : env)
    (sell_tx : transaction) : result profit_loss_data :=
  let transactions := manual_transactions e in
  let coin := tx_coin sell_tx in
  let sell_amount := tx_amount sell_tx in
  let sell_price := tx_price sell_tx in
  dor sell_date <- fromisoformat (tx_date sell_tx);
  dor buy_transactions <- buy_transactions_before transactions coin sell_date;
  let total_bought := py_sum (map tx_amount buy_transactions) in
  if Qeq_bool total_bought 0 then Ok no_profit_loss
  else
    dor weighted_buy_price <-
      py_div (py_sum (map (fun tx => tx_amount tx * tx_price tx) buy_transactions))
             total_bought;
    let profit_loss := (sell_price - weighted_buy_price) * sell_amount in
    dor profit_loss_percent <-
      percent_of (sell_price - weighted_buy_price) weighted_buy_price;
    Ok {| profit_loss := py_round profit_loss 2;
          profit_loss_percent := py_round profit_loss_percent 2;
          average_buy_price := py_round weighted_buy_price 2 |}.

Definition calculate_transaction_profit_loss (e : env) (sell_tx : transaction)
    : profit_loss_data :=
  match calculate_transaction_profit_loss_body e sell_tx with
  | Ok d => d
  | Raise _ => no_profit_loss
  end.

(** ** Weekly performance: [calculate_weekly_performance] *)

Record weekly_point : Type := {
  wp_date : Z;
  wp_total_value : Q;
  weekly_return : Q
}.

Record weekly_state : Type := {
  performance_data : list weekly_point;
  wk_current_date : Z;
  previous_value : option Q;
  temp_today : option Z            (* unbound before the first iteration *)
}.

Definition weekly_step (e : env) (ws : weekly_state) : M weekly_state :=
  let current_date := wk_current_date ws in
  do temp_today <- get_TODAY;
  do _ <- set_TODAY current_date;
  do (btc_invested, eth_invested, btc_held, eth_held) <-
    simulate_investments e "weekly" DEFAULT_BTC_INVEST DEFAULT_ETH_INVEST;
  let '(btc_held, eth_held, btc_invested, eth_invested) :=
    apply_manual_transactions e btc_held eth_held btc_invested eth_invested in
  do price_data <- get_price_on_date e current_date;
  match price_data with
  | Some pd =>
      let total_value := btc_held * bitcoin pd + eth_held * ethereum pd in
      do performance_data' <-
        lift (match previous_value ws with
              | Some pv =>
                  if negb (Qeq_bool pv 0) && Qltb 0 pv then
                    dor q <- py_div (total_value - pv) pv;
                    Ok (performance_data ws ++
                        [{| wp_date := current_date;
                            wp_total_value := py_round total_value 2;
                            weekly_return := q * 100 |}])
                  else Ok (performance_data ws)
              | None => Ok (performance_data ws)
              end);
      ret {| performance_data := performance_data';
             wk_current_date := (current_date + 7)%Z;
             previous_value := Some total_value;
             temp_today := Some temp_today |}
  | None =>
      ret {| performance_data := performance_data ws;
             wk_current_date := (current_date + 7)%Z;
             previous_value := previous_value ws;
             temp_today := Some temp_today |}
  end.

Fixpoint weekly_loop (fuel : nat) (e : env) (ws : weekly_state)
    : M weekly_state :=
  match fuel with
  | O => raise FuelExhausted
  | S fuel' =>
      if (wk_current_date ws <=? now e)%Z then
        do ws' <- weekly_step e ws;
        weekly_loop fuel' e ws'
      else ret ws
  end.

Definition calculate_weekly_performance_body (e : env)
    : M (list weekly_point) :=
  do ws <- weekly_loop (sim_fuel (now e)) e
             {| performance_data := []; wk_current_date := START_DATE;
                previous_value := None; temp_today := None |};
  match temp_today ws with
  | Some t => do _ <- set_TODAY t; ret (performance_data ws)
  | None => raise (UnboundLocalError "temp_today")
  end.

Definition calculate_weekly_performance (e : env) : M (list weekly_point) :=
  catch (calculate_weekly_performance_body e) (fun _ => ret []).

(* max(xs, key=weekly_return) and min(...): the first extremal element *)
Fixpoint max_by_return (best : weekly_point) (xs : list weekly_point)
    : weekly_point :=
  match xs with
  | [] => best
  | x :: xs' =>
      max_by_return
        (if Qltb (weekly_return best) (weekly_return x) then x else best) xs'
  end.

Fixpoint min_by_return (best : weekly_point) (xs : list weekly_point)
    : weekly_point :=
  match xs with
  | [] => best
  | x :: xs' =>
      min_by_return
        (if Qltb (weekly_return x) (weekly_return best) then x else best) xs'
  end.

(** ** Performance metrics: [calculate_performance_metrics] *)

(* a float, or the complex number that [**] gives for a negative base and a
   fractional exponent *)
Inductive pynum : Type :=
| Real (q : Q)
| Complex.

Definition is_integer (q : Q) : bool := Qeq_bool q (inject_Z (Qfloor q)).

(* x ** y; a result outside the range of a double (OverflowError) is not
   modelled *)
Definition py_pow (e : env) (x y : Q) : result pynum :=
  if Qeq_bool x 0 && Qltb y 0 then Raise ZeroDivisionError
  else if Qltb x 0 && negb (is_integer y) then Ok Complex
  else Ok (Real (float_pow e x y)).

(* round(x, ndigits) of a value that may be complex *)
Definition py_round_num (x : pynum) (ndigits : nat) : result Q :=
  match x with
  | Real q => Ok (py_round q ndigits)
  | Complex => Raise TypeError
  end.

Record performance_locals : Type := {
  btc_current_value : Q;
  eth_current_value : Q;
  total_invested : Q;
  total_current_value : Q;
  total_profit_loss : Q;
  total_roi_percent : Q;
  btc_profit_loss : Q;
  eth_profit_loss : Q;
  btc_roi_percent : Q;
  eth_roi_percent : Q;
  days_invested : Z;
  annualized_return : pynum;
  btc_allocation : Q;
  eth_allocation : Q;
  avg_btc_price : Q;
  avg_eth_price : Q
}.

(* (((value / invested) ** (1 / years)) - 1) * 100
   if years > 0 and invested > 0 else 0 *)
Definition annualized_return_of (e : env)
    (total_current_value total_invested years_invested : Q) : result pynum :=
  if Qltb 0 years_invested && Qltb 0 total_invested then
    dor growth <- py_div total_current_value total_invested;
    dor exponent <- py_div 1 years_invested;
    dor p <- py_pow e growth exponent;
    Ok (match p with
        | Real q => Real ((q - 1) * 100)
        | Complex => Complex
        end)
  else Ok (Real 0).

(* the assignments from btc_current_value to avg_eth_price *)
Definition performance_values (e : env)
    (btc_invested eth_invested btc_held eth_held : Q)
    (current_prices : price_data) : result performance_locals :=
  let btc_current_value := btc_held * bitcoin current_prices in
  let eth_current_value := eth_held * ethereum current_prices in
  let total_invested := btc_invested + eth_invested in
  let total_current_value := btc_current_value + eth_current_value in
  let total_profit_loss := total_current_value - total_invested in
  dor total_roi_percent <- percent_of total_profit_loss total_invested;
  let btc_profit_loss := btc_current_value - btc_invested in
  let eth_profit_loss := eth_current_value - eth_invested in
  dor btc_roi_percent <- percent_of btc_profit_loss btc_invested;
  dor eth_roi_percent <- percent_of eth_profit_loss eth_invested;
  let days_invested := (now e - START_DATE)%Z in
  let years_invested := inject_Z days_invested / (36525 # 100) in
  dor annualized_return <-
    annualized_return_of e total_current_value total_invested years_invested;
  dor btc_allocation <- percent_of btc_current_value total_current_value;
  dor eth_allocation <- percent_of eth_current_value total_current_value;
  dor avg_btc_price <- ratio_of btc_invested btc_held;
  dor avg_eth_price <- ratio_of eth_invested eth_held;
  Ok {| btc_current_value := btc_current_value;
        eth_current_value := eth_current_value;
        total_invested := total_invested;
        total_current_value := total_current_value;
        total_profit_loss := total_profit_loss;
        total_roi_percent := total_roi_percent;
        btc_profit_loss := btc_profit_loss;
        eth_profit_loss := eth_profit_loss;
        btc_roi_percent := btc_roi_percent;
        eth_roi_percent := eth_roi_percent;
        days_invested := days_invested;
        annualized_return := annualized_return;
        btc_allocation := btc_allocation;
        eth_allocation := eth_allocation;
        avg_btc_price := avg_btc_price;
        avg_eth_price := avg_eth_price |}.

(* DCA efficiency against a 67/33 lump sum bought at START_DATE *)
Definition dca_vs_lump_sum_of (v : performance_locals)
    (start_prices : option price_data) (current_prices : price_data)
    : result Q :=
  match start_prices with
  | Some sp =>
      dor lump_sum_btc <- py_div (total_invested v * (67 # 100)) (bitcoin sp);
      dor lump_sum_eth <- py_div (total_invested v * (33 # 100)) (ethereum sp);
      let lump_sum_value :=
        lump_sum_btc * bitcoin current_prices
        + lump_sum_eth * ethereum current_prices in
      percent_of (total_current_value v - lump_sum_value) lump_sum_value
  | None => Ok 0
  end.

Record total_metrics_t : Type := {
  tm_invested : Q;
  tm_current_value : Q;
  tm_profit_loss : Q;
  tm_roi_percent : Q;
  tm_annualized_return : Q;
  tm_days_invested : Z
}.

Record asset_metrics_t : Type := {
  am_invested : Q;
  am_current_value : Q;
  am_profit_loss : Q;
  am_roi_percent : Q;
  am_allocation_percent : Q;
  am_avg_purchase_price : Q;
  am_current_price : Q;
  am_holdings : Q
}.

Record dca_analysis_t : Type := {
  dca_vs_lump_sum_percent : Q;
  weekly_avg_investment : Q;
  total_weeks_invested : Q
}.

Record week_summary : Type := {
  week_date : option Z;
  return_percent : Q
}.

Record performance_metrics_t : Type := {
  total_metrics : total_metrics_t;
  btc_metrics : asset_metrics_t;
  eth_metrics : asset_metrics_t;
  dca_analysis : dca_analysis_t;
  best_week : week_summary;
  worst_week : week_summary
}.

Definition week_summary_of (w : option weekly_point) : week_summary :=
  match w with
  | Some x => {| week_date := Some (wp_date x);
                 return_percent := py_round (weekly_return x) 2 |}
  | None => {| week_date := None; return_percent := 0 |}
  end.

(* the returned dictionary, its entries evaluated in source order *)
Definition performance_dict (v : performance_locals)
    (btc_invested eth_invested btc_held eth_held : Q)
    (current_prices : price_data) (dca_vs_lump_sum : Q)
    (best worst : option weekly_point) : result performance_metrics_t :=
  dor annualized <- py_round_num (annualized_return v) 2;
  let days := days_invested v in
  (* round(total_invested / (days_invested / 7), 2) if days_invested > 0 else 0 *)
  dor weekly_avg <-
    (if (0 <? days)%Z then
       dor q <- py_div (total_invested v) (inject_Z days / 7);
       Ok (py_round q 2)
     else Ok 0);
  Ok {| total_metrics :=
          {| tm_invested := py_round (total_invested v) 2;
             tm_current_value := py_round (total_current_value v) 2;
             tm_profit_loss := py_round (total_profit_loss v) 2;
             tm_roi_percent := py_round (total_roi_percent v) 2;
             tm_annualized_return := annualized;
             tm_days_invested := days |};
        btc_metrics :=
          {| am_invested := py_round btc_invested 2;
             am_current_value := py_round (btc_current_value v) 2;
             am_profit_loss := py_round (btc_profit_loss v) 2;
             am_roi_percent := py_round (btc_roi_percent v) 2;
             am_allocation_percent := py_round (btc_allocation v) 2;
             am_avg_purchase_price := py_round (avg_btc_price v) 2;
             am_current_price := py_round (bitcoin current_prices) 2;
             am_holdings := py_round btc_held 6 |};
        eth_metrics :=
          {| am_invested := py_round eth_invested 2;
             am_current_value := py_round (eth_current_value v) 2;
             am_profit_loss := py_round (eth_profit_loss v) 2;
             am_roi_percent := py_round (eth_roi_percent v) 2;
             am_allocation_percent := py_round (eth_allocation v) 2;
             am_avg_purchase_price := py_round (avg_eth_price v) 2;
             am_current_price := py_round (ethereum current_prices) 2;
             am_holdings := py_round eth_held 6 |};
        dca_analysis :=
          {| dca_vs_lump_sum_percent := py_round dca_vs_lump_sum 2;
             weekly_avg_investment := weekly_avg;
             total_weeks_invested := py_round (inject_Z days / 7) 1 |};
        best_week := week_summary_of best;
        worst_week := week_summary_of worst |}.

Definition calculate_performance_metrics_body (e : env)
    : M (option performance_metrics_t) :=
  do (btc_invested, eth_invested, btc_held, eth_held) <-
    simulate_investments e "weekly" DEFAULT_BTC_INVEST DEFAULT_ETH_INVEST;
  let '(btc_held, eth_held, btc_invested, eth_invested) :=
    apply_manual_transactions e btc_held eth_held btc_invested eth_invested in
  match get_current_prices e with
  | None => ret None
  | Some current_prices =>
      do v <- lift (performance_values e btc_invested eth_invested
                      btc_held eth_held current_prices);
      do start_prices <- get_price_on_date e START_DATE;
      do dca_vs_lump_sum <-
        lift (dca_vs_lump_sum_of v start_prices current_prices);
      do (best, worst) <-
        catch
          (do weekly_performance <- calculate_weekly_performance e;
           ret (match weekly_performance with
                | [] => (None, None)
                | x :: xs => (Some (max_by_return x xs),
                              Some (min_by_return x xs))
                end))
          (fun _ =>
             ret (Some {| wp_date := days_from_civil 2025 4 26;
                          wp_total_value := 0;
                          weekly_return := 1564 # 100 |},
                  Some {| wp_date := days_from_civil 2025 3 1;
                          wp_total_value := 0;
                          weekly_return := - (809 # 100) |}));
      do d <- lift (performance_dict v btc_invested eth_invested
                      btc_held eth_held current_prices dca_vs_lump_sum
                      best worst);
      ret (Some d)
  end.

Definition calculate_performance_metrics (e : env)
    : M (option performance_metrics_t) :=
  catch (calculate_performance_metrics_body e) (fun _ => ret None).

(** ** Name resolution *)

(* every name app.py binds at module level: imports, assignments, defs *)
Definition app_namespace : list string :=
  [ "Flask"; "jsonify"; "request"; "g"; "Response"; "stream_with_context";
    "CORS"; "Cache"; "Limiter"; "get_remote_address"; "requests"; "json";
    "os"; "time"; "logging"; "csv"; "io"; "threading"; "smtplib"; "datetime";
    "timedelta"; "wraps"; "MIMEText"; "MIMEMultipart"; "load_dotenv"; "app";
    "cache"; "limiter"; "logger"; "cors_origins"; "cors_origins_list";
    "START_DATE"; "TODAY"; "DEFAULT_BTC_INVEST"; "DEFAULT_ETH_INVEST";
    "DEFAULT_BTC_TOTAL"; "DEFAULT_ETH_TOTAL"; "CACHE_FILE"; "MANUAL_TX_FILE";
    "ALERTS_FILE"; "EMAIL_CONFIG"; "price_cache"; "f";
    "load_manual_transactions"; "load_price_alerts"; "save_price_alerts";
    "send_email_alert"; "check_price_alerts"; "start_price_alert_monitor";
    "get_price_on_date"; "simulate_investments"; "apply_manual_transactions";
    "calculate_performance_metrics"; "calculate_weekly_performance";
    "monitor_performance"; "get_current_prices_cached"; "portfolio";
    "portfolio_history"; "daily_profit_loss"; "live_profit_loss";
    "add_transaction"; "get_current_prices";
    "calculate_transaction_profit_loss"; "current_prices";
    "transaction_analysis"; "get_transactions"; "performance_metrics";
    "validation"; "log_request_info"; "log_response_info";
    "get_price_alerts"; "create_price_alert"; "delete_price_alert";
    "test_price_alert"; "manually_check_alerts"; "export_portfolio_csv";
    "export_transactions_csv"; "export_history_csv"; "health_check";
    "cache_stats"; "clear_cache"; "get_portfolio_metrics";
    "get_benchmark_comparison" ].

(* reading a free name inside a function: the module namespace is searched
   (the name is no builtin either), and a miss raises NameError *)
Definition load_global (name : string) : M unit :=
  if existsb (String.eqb name) app_namespace then ret tt
  else raise (NameError name).

(** ** Risk analytics: [get_portfolio_metrics] *)

(* the keys of a history entry that the analytics read *)
Record snapshot : Type := {
  total_value : Q;
  btc_price : Q;
  eth_price : Q
}.

(* xs[i] *)
Definition py_index {A} (xs : list A) (i : Z) : result A :=
  let i' := if (i <? 0)%Z then (Z.of_nat (length xs) + i)%Z else i in
  if (i' <? 0)%Z then Raise IndexError
  else match nth_error xs (Z.to_nat i') with
       | Some x => Ok x
       | None => Raise IndexError
       end.

(* int(x): truncation towards zero *)
Definition py_int (x : Q) : Z := Z.quot (Qnum x) (Z.pos (Qden x)).

(* sorted(xs): ascending and stable *)
Fixpoint insert_sorted (x : Q) (xs : list Q) : list Q :=
  match xs with
  | [] => [x]
  | y :: ys => if Qle_bool x y then x :: y :: ys else y :: insert_sorted x ys
  end.

Fixpoint py_sorted (xs : list Q) : list Q :=
  match xs with
  | [] => []
  | x :: xs' => insert_sorted x (py_sorted xs')
  end.

(* statistics.mean *)
Definition statistics_mean (xs : list Q) : result Q :=
  match xs with
  | [] => Raise StatisticsError
  | _ => py_div (py_sum xs) (inject_Z (Z.of_nat (length xs)))
  end.

(* statistics.stdev: the square root of the sample variance *)
Definition statistics_stdev (e : env) (xs : list Q) : result Q :=
  if (length xs <? 2)%nat then Raise StatisticsError
  else
    dor m <- statistics_mean xs;
    dor variance <-
      py_div (py_sum (map (fun x => (x - m) * (x - m)) xs))
             (inject_Z (Z.of_nat (length xs) - 1));
    Ok (float_sqrt e variance).

(* for i in range(1, len(history)): ... daily_returns.append(...) *)
Fixpoint daily_returns_of (history : list snapshot) : result (list Q) :=
  match history with
  | prev :: ((curr :: _) as rest) =>
      let prev_value := total_value prev in
      let curr_value := total_value curr in
      if Qltb 0 prev_value then
        dor daily_return <- py_div (curr_value - prev_value) prev_value;
        dor tl <- daily_returns_of rest;
        Ok (daily_return :: tl)
      else daily_returns_of rest
  | _ => Ok []
  end.

(* one iteration of the drawdown loop, on (peak, max_drawdown) *)
Definition drawdown_step (acc : Q * Q) (point : snapshot) : result (Q * Q) :=
  let '(peak, max_drawdown) := acc in
  let peak := if Qltb peak (total_value point) then total_value point else peak in
  dor drawdown <- ratio_of (peak - total_value point) peak;
  Ok (peak, py_max max_drawdown drawdown).

Fixpoint drawdown_loop (points : list snapshot) (acc : Q * Q)
    : result (Q * Q) :=
  match points with
  | [] => Ok acc
  | point :: points' =>
      dor acc' <- drawdown_step acc point;
      drawdown_loop points' acc'
  end.

Definition max_drawdown_of (history : list snapshot) : result Q :=
  dor first <- py_index history 0;
  dor r <- drawdown_loop history (total_value first, 0);
  Ok (snd r).

(* (var_95, var_95_dollar) *)
Definition value_at_risk (daily_returns : list Q) (portfolio_value : Q)
    : result (Q * Q) :=
  if (20 <=? length daily_returns)%nat then
    dor var_95 <-
      py_index (py_sorted daily_returns)
        (py_int (inject_Z (Z.of_nat (length daily_returns)) * (5 # 100)));
    Ok (var_95, var_95 * portfolio_value)
  else Ok (0, 0).

Record portfolio_summary : Type := {
  ps_btc_invested : Q;
  ps_eth_invested : Q;
  ps_total_value : Q;
  ps_total_profit_loss : Q;
  ps_total_profit_loss_percent : Q
}.

Record analytics_t : Type := {
  (* risk_metrics *)
  volatility : Q;
  annualized_volatility : Q;
  sharpe_ratio : Q;
  max_drawdown : Q;
  value_at_risk_95 : Q;
  value_at_risk_dollar : Q;
  (* performance_metrics *)
  daily_return_avg : Q;
  an_annualized_return : Q;
  total_return : Q;
  days_tracked : nat;
  (* portfolio_composition *)
  an_btc_allocation : Q;
  an_eth_allocation : Q;
  diversification_score : Q;
  (* market_data *)
  portfolio_value : Q;
  an_total_invested : Q;
  unrealized_pnl : Q
}.

(* the part of the handler before historical data is requested *)
Definition portfolio_summary_of (btc_invested eth_invested btc_held eth_held : Q)
    (current_prices : price_data) : result portfolio_summary :=
  let btc_value := btc_held * bitcoin current_prices in
  let eth_value := eth_held * ethereum current_prices in
  let total_value := btc_value + eth_value in
  let total_invested := btc_invested + eth_invested in
  let total_profit_loss := total_value - total_invested in
  dor total_profit_loss_percent <- percent_of total_profit_loss total_invested;
  Ok {| ps_btc_invested := btc_invested;
        ps_eth_invested := eth_invested;
        ps_total_value := total_value;
        ps_total_profit_loss := total_profit_loss;
        ps_total_profit_loss_percent := total_profit_loss_percent |}.

(* the part of the handler after historical data has arrived *)
Definition risk_analytics (e : env) (portfolio_data : portfolio_summary)
    (history : list snapshot) : result (response analytics_t) :=
  match history with
  | [] => Ok (JsonError (Message "Historical data not available") 500)
  | _ =>
  if (length history <? 2)%nat then
    Ok (JsonError (Message "Insufficient historical data for analysis") 400)
  else
    dor daily_returns <- daily_returns_of history;
    match daily_returns with
    | [] =>
        Ok (JsonError (Message "Cannot calculate returns with current data") 400)
    | _ =>
        dor avg_return <-
          (if (0 <? length daily_returns)%nat
           then statistics_mean daily_returns else Ok 0);
        dor volatility <-
          (if (1 <? length daily_returns)%nat
           then statistics_stdev e daily_returns else Ok 0);
        let annualized_return := avg_return * 365 in
        let annualized_volatility := volatility * float_sqrt e 365 in
        let risk_free_rate := 2 # 100 in
        dor sharpe_ratio <-
          ratio_of (annualized_return - risk_free_rate) annualized_volatility;
        dor max_drawdown <- max_drawdown_of history;
        let total_invested :=
          ps_btc_invested portfolio_data + ps_eth_invested portfolio_data in
        dor btc_allocation <-
          ratio_of (ps_btc_invested portfolio_data) total_invested;
        dor eth_allocation <-
          ratio_of (ps_eth_invested portfolio_data) total_invested;
        dor var <- value_at_risk daily_returns (ps_total_value portfolio_data);
        let '(var_95, var_95_dollar) := var in
        Ok (Jsonify
              {| volatility := py_round (volatility * 100) 2;
                 annualized_volatility := py_round (annualized_volatility * 100) 2;
                 sharpe_ratio := py_round sharpe_ratio 3;
                 max_drawdown := py_round (max_drawdown * 100) 2;
                 value_at_risk_95 := py_round (var_95 * 100) 2;
                 value_at_risk_dollar := py_round var_95_dollar 2;
                 daily_return_avg := py_round (avg_return * 100) 3;
                 an_annualized_return := py_round (annualized_return * 100) 2;
                 total_return :=
                   py_round (ps_total_profit_loss_percent portfolio_data) 2;
                 days_tracked := length history;
                 an_btc_allocation := py_round (btc_allocation * 100) 1;
                 an_eth_allocation := py_round (eth_allocation * 100) 1;
                 diversification_score :=
                   py_round (1 - (btc_allocation * btc_allocation
                                  + eth_allocation * eth_allocation)) 3;
                 portfolio_value := ps_total_value portfolio_data;
                 an_total_invested := total_invested;
                 unrealized_pnl := ps_total_profit_loss portfolio_data |}
              200)
    end
  end.

(* [generate_portfolio_history] stands for whatever object a caller would
   find under that name; the handlers first have to resolve the name *)
Definition get_portfolio_metrics_body (e : env)
    (generate_portfolio_history : Z -> M (list snapshot))
    : M (response analytics_t) :=
  do (btc_invested, eth_invested, btc_held, eth_held) <-
    simulate_investments e "weekly" DEFAULT_BTC_INVEST DEFAULT_ETH_INVEST;
  let '(btc_held, eth_held, btc_invested, eth_invested) :=
    apply_manual_transactions e btc_held eth_held btc_invested eth_invested in
  match get_current_prices e with
  | None => raise TypeError           (* current_prices['bitcoin'] on None *)
  | Some current_prices =>
      do portfolio_data <-
        lift (portfolio_summary_of btc_invested eth_invested btc_held eth_held
                current_prices);
      do _ <- load_global "generate_portfolio_history";
      do historical_data <- generate_portfolio_history 30%Z;
      lift (risk_analytics e portfolio_data historical_data)
  end.

Definition get_portfolio_metrics (e : env)
    (generate_portfolio_history : Z -> M (list snapshot))
    : M (response analytics_t) :=
  catch (get_portfolio_metrics_body e generate_portfolio_history)
        (fun ex => ret (JsonError (Failure "Analytics calculation failed: " ex) 500)).

(** ** Benchmarks: [get_benchmark_comparison] *)

Record benchmarks_t : Type := {
  bm_portfolio_return_percent : Q;
  bm_start_value : Q;
  bm_end_value : Q;
  bm_period_days : nat;
  bm_btc_return_percent : Q;
  bm_btc_outperformance : Q;
  bm_eth_return_percent : Q;
  bm_eth_outperformance : Q;
  bm_balanced_return_percent : Q;
  bm_balanced_outperformance : Q
}.

(* (b - a) / a if a > 0 else 0 *)
Definition return_of (a b : Q) : result Q := ratio_of (b - a) a.

Definition benchmark_comparison (history : list snapshot)
    : result (response benchmarks_t) :=
  match history with
  | [] => Ok (JsonError (Message "Historical data not available") 500)
  | _ =>
  if (length history <? 2)%nat then
    Ok (JsonError (Message "Insufficient data for benchmark comparison") 400)
  else
    dor first <- py_index history 0;
    dor last <- py_index history (-1);
    let start_value := total_value first in
    let end_value := total_value last in
    dor portfolio_return <- return_of start_value end_value;
    let start_btc := btc_price first in
    let end_btc := btc_price last in
    dor btc_return <- return_of start_btc end_btc;
    let start_eth := eth_price first in
    let end_eth := eth_price last in
    dor eth_return <- return_of start_eth end_eth;
    let benchmark_return := (btc_return + eth_return) / 2 in
    Ok (Jsonify
          {| bm_portfolio_return_percent := py_round (portfolio_return * 100) 2;
             bm_start_value := py_round start_value 2;
             bm_end_value := py_round end_value 2;
             bm_period_days := length history;
             bm_btc_return_percent := py_round (btc_return * 100) 2;
             bm_btc_outperformance :=
               py_round ((portfolio_return - btc_return) * 100) 2;
             bm_eth_return_percent := py_round (eth_return * 100) 2;
             bm_eth_outperformance :=
               py_round ((portfolio_return - eth_return) * 100) 2;
             bm_balanced_return_percent := py_round (benchmark_return * 100) 2;
             bm_balanced_outperformance :=
               py_round ((portfolio_return - benchmark_return) * 100) 2 |}
          200)
  end.

Definition get_benchmark_comparison_body
    (generate_portfolio_history : Z -> M (list snapshot))
    : M (response benchmarks_t) :=
  do _ <- load_global "generate_portfolio_history";
  do historical_data <- generate_portfolio_history 30%Z;
  lift (benchmark_comparison historical_data).

Definition get_benchmark_comparison
    (generate_portfolio_history : Z -> M (list snapshot))
    : M (response benchmarks_t) :=
  catch (get_benchmark_comparison_body generate_portfolio_history)
        (fun ex => ret (JsonError (Failure "Benchmark calculation failed: " ex) 500)).

(** * Specification-level definitions *)

(** ** Lookups and the cache invariant *)

(* what a lookup of [date] returns when the cache is [c]: the function
   computed by [get_price_on_date], without its write to the cache *)
Definition price_at (e : env) (c : gmap Z price_data) (date : Z)
    : option price_data :=
  match c !! date with
  | Some pd => Some pd
  | None =>
      match history_api e "bitcoin" date, history_api e "ethereum" date with
      | Some b, Some et =>
          if truthy (Some b) && truthy (Some et)
          then Some {| bitcoin := b; ethereum := et |} else None
      | _, _ => None
      end
  end.

Definition nonzero (pd : price_data) : Prop :=
  ~ bitcoin pd == 0 /\ ~ ethereum pd == 0.

(* every cached price is non-zero: true of the empty cache and kept by every
   write of [get_price_on_date] *)
Definition cache_ok (g : globals) : Prop :=
  forall date pd, price_cache g !! date = Some pd -> nonzero pd.

Definition prices_ok (P : Z -> option price_data) : Prop :=
  forall date pd, P date = Some pd -> nonzero pd.

(* the lookups of state [g] are those of [P] *)
Definition agrees (e : env) (P : Z -> option price_data) (g : globals) : Prop :=
  forall d, price_at e (price_cache g) d = P d.

(** ** The simulator as a pure iteration *)

Definition pure_step (P : Z -> option price_data) (interval : Z)
    (btc_amount eth_amount : Q) (st : sim_state) : result sim_state :=
  match P (current_date st) with
  | None => Ok (skip interval st)
  | Some pd => credit interval btc_amount eth_amount pd st
  end.

Fixpoint steps (P : Z -> option price_data) (interval : Z)
    (btc_amount eth_amount : Q) (m : nat) (st : sim_state)
    : result sim_state :=
  match m with
  | O => Ok st
  | S m' =>
      dor st' <- pure_step P interval btc_amount eth_amount st;
      steps P interval btc_amount eth_amount m' st'
  end.

(* the number of loop iterations: the dates START_DATE + k * interval that
   are <= today *)
Definition periods (today interval : Z) : nat :=
  if (START_DATE <=? today)%Z
  then Z.to_nat ((today - START_DATE) / interval + 1)
  else O.

Definition totals (st : sim_state) : Q * Q * Q * Q :=
  (btc_total_usd st, eth_total_usd st, btc_held st, eth_held st).

(* the purchases the specification describes: step [k] with price data [pd]
   buys the primary asset, and the secondary asset when [k] is even *)
Definition credit_totals (btc_amount eth_amount : Q) (acc : Q * Q * Q * Q)
    (kp : Z * price_data) : Q * Q * Q * Q :=
  let '(btc_total, eth_total, btc, eth) := acc in
  let '(k, pd) := kp in
  if (k mod 2 =? 0)%Z then
    (btc_total + DEFAULT_BTC_TOTAL, eth_total + DEFAULT_ETH_TOTAL,
     btc + btc_amount / bitcoin pd, eth + eth_amount / ethereum pd)
  else
    (btc_total + DEFAULT_BTC_TOTAL, eth_total,
     btc + btc_amount / bitcoin pd, eth).

(* the steps that have price data among [m] steps from [date], numbered
   from [k], each with its price data *)
Fixpoint data_steps (P : Z -> option price_data) (interval : Z) (m : nat)
    (date k : Z) : list (Z * price_data) :=
  match m with
  | O => []
  | S m' =>
      match P date with
      | Some pd => (k, pd) :: data_steps P interval m' (date + interval) (k + 1)
      | None => data_steps P interval m' (date + interval) (k + 1)
      end
  end.

(* the number of even period indices among w, w+1, ..., w+m-1 *)
Fixpoint evens (w : Z) (m : nat) : Z :=
  match m with
  | O => 0
  | S m' => (if w mod 2 =? 0 then 1 else 0) + evens (w + 1) m'
  end.

(* purchase counts, read off the invested totals: every primary purchase adds
   DEFAULT_BTC_TOTAL and every secondary purchase DEFAULT_ETH_TOTAL *)
Definition primary_purchases (btc_total : Q) : Q := btc_total / DEFAULT_BTC_TOTAL.
Definition secondary_purchases (eth_total : Q) : Q := eth_total / DEFAULT_ETH_TOTAL.

(* the totality of C6 as stated, for one run: the simulation returns its
   four totals *)
Definition always_returns (e : env) (frequency : string)
    (btc_amount eth_amount : Q) (g : globals) : Prop :=
  exists totals g',
    simulate_investments e frequency btc_amount eth_amount g = (Ok totals, g').

(* the cadence as the specification states it, for one run *)
Definition cadence_as_stated (e : env) (frequency : string)
    (btc_amount eth_amount : Q) (g : globals) : Prop :=
  forall btc_total eth_total btc eth g',
    simulate_investments e frequency btc_amount eth_amount g
      = (Ok (btc_total, eth_total, btc, eth), g') ->
    secondary_purchases eth_total
    == inject_Z (Qceiling (primary_purchases btc_total / 2)).

(** ** Ledger dates *)






(** ** Valuation and analytics *)

(* what the specification asks of a percentage reported for [value] against
   [invested] *)
Definition percent_change_spec (value invested reported : Q) : Prop :=
  (0 < invested -> reported == (value - invested) / invested * 100) /\
  (invested <= 0 -> reported = 0).

Definition nondecreasing (history : list snapshot) : Prop :=
  Sorted (fun a b => total_value a <= total_value b) history.

(* C10 as stated, for /analytics/portfolio-metrics: the handler raises
   NameError *)
Definition raises_name_error (e : env)
    (generate_portfolio_history : Z -> M (list snapshot)) (g : globals) : Prop :=
  exists g',
    get_portfolio_metrics_body e generate_portfolio_history g
    = (Raise (NameError "generate_portfolio_history"), g').

(* the exception that ends [get_portfolio_metrics]: the first of a failing
   simulation, a failed spot price request and the unbound name *)
Definition portfolio_metrics_failure (e : env) (g : globals) : exn :=
  match fst (simulate_investments e "weekly" DEFAULT_BTC_INVEST
               DEFAULT_ETH_INVEST g) with
  | Raise ex => ex
  | Ok _ =>
      match get_current_prices e with
      | None => TypeError
      | Some _ => NameError "generate_portfolio_history"
      end
  end.

(** ** Division safety *)

(* a result that is not a division by zero, and satisfies [Q] when it is a
   value *)
Definition rpost {A} (Q : A -> Prop) (r : result A) : Prop :=
  match r with
  | Ok a => Q a
  | Raise ex => ex <> ZeroDivisionError
  end.

(* a computation that, from a cache of non-zero prices, does not raise a
   division by zero and leaves a cache of non-zero prices *)
Definition mpost {A} (Q : A -> Prop) (m : M A) : Prop :=
  forall g, cache_ok g -> rpost Q (fst (m g)) /\ cache_ok (snd (m g)).

Definition any {A} : A -> Prop := fun _ => True.

(* the outcome of running [m] from [g] is not a division by zero, and the
   cache still holds non-zero prices only *)
Definition no_zero_division {A} (m : M A) (g : globals) : Prop :=
  fst (m g) <> Raise ZeroDivisionError /\ cache_ok (snd (m g)).

(** ** Scenarios *)

Definition scenario_prices : price_data :=
  {| bitcoin := 50000; ethereum := 3000 |}.

Definition ledger_one_sell_side : env :=
  {| history_api := fun _ _ => None; spot_api := None; cached_spot := None;
     now := START_DATE; float_pow := fun x _ => x; float_sqrt := fun x => x;
     manual_transactions :=
       [ {| tx_date := Iso 20200; tx_coin := "ethereum"; tx_amount := 2;
            tx_price := 3000; tx_type := Some "buy" |};
         {| tx_date := Iso 20300; tx_coin := "bitcoin"; tx_amount := 1;
            tx_price := 60000; tx_type := None |} ] |}.

Definition ledger_two_buys : env :=
  {| history_api := fun _ _ => None; spot_api := None; cached_spot := None;
     now := START_DATE; float_pow := fun x _ => x; float_sqrt := fun x => x;
     manual_transactions :=
       [ {| tx_date := Iso 20200; tx_coin := "bitcoin"; tx_amount := 1;
            tx_price := 40000; tx_type := Some "buy" |};
         {| tx_date := Iso 20210; tx_coin := "ethereum"; tx_amount := 5;
            tx_price := 2500; tx_type := Some "buy" |};
         {| tx_date := Iso 20220; tx_coin := "bitcoin"; tx_amount := 3;
            tx_price := 60000; tx_type := None |};
         {| tx_date := Iso 20400; tx_coin := "bitcoin"; tx_amount := 7;
            tx_price := 90000; tx_type := Some "buy" |} ] |}.

Definition sell_two_btc : transaction :=
  {| tx_date := Iso 20250; tx_coin := "bitcoin"; tx_amount := 2;
     tx_price := 70000; tx_type := Some "sell" |}.


Definition snap (v : Q) : snapshot :=
  {| total_value := v; btc_price := 50000; eth_price := 3000 |}.

Definition twenty_returns : list Q :=
  [ 3 # 100; - (1 # 100); 2 # 100; - (4 # 100); 1 # 100;
    0; 5 # 100; - (2 # 100); 1 # 100; 2 # 100;
    - (3 # 100); 4 # 100; 1 # 100; - (1 # 100); 2 # 100;
    0; 3 # 100; - (2 # 100); 1 # 100; 2 # 100 ].

(* CoinGecko has prices for the first and third week only *)
Definition env_gap : env :=
  {| history_api := fun coin date =>
       if (date =? START_DATE + 7)%Z then None
       else if String.eqb coin "bitcoin" then Some 50000 else Some 3000;
     spot_api := None; cached_spot := None; now := (START_DATE + 14)%Z;
     manual_transactions := []; float_pow := fun x _ => x;
     float_sqrt := fun x => x |}.

Definition globals_gap : globals :=
  {| TODAY := (START_DATE + 14)%Z; price_cache := ∅ |}.

(* CoinGecko has prices for the second week only *)
Definition env_late : env :=
  {| history_api := fun coin date =>
       if (date =? START_DATE + 7)%Z
       then (if String.eqb coin "bitcoin" then Some 50000 else Some 3000)
       else None;
     spot_api := None; cached_spot := None; now := (START_DATE + 7)%Z;
     manual_transactions := []; float_pow := fun x _ => x;
     float_sqrt := fun x => x |}.

Definition globals_late : globals :=
  {| TODAY := (START_DATE + 7)%Z; price_cache := ∅ |}.

(* CoinGecko has prices for every date *)
Definition env_full : env :=
  {| history_api := fun coin date =>
       if String.eqb coin "bitcoin" then Some 50000 else Some 3000;
     spot_api := None; cached_spot := None; now := (START_DATE + 20)%Z;
     manual_transactions := []; float_pow := fun x _ => x;
     float_sqrt := fun x => x |}.

Definition globals_three_weeks : globals :=
  {| TODAY := (START_DATE + 20)%Z; price_cache := ∅ |}.

(* ten cached weeks at constant prices *)
Definition ten_weeks_cache : gmap Z price_data :=
  list_to_map
    (map (fun j => ((START_DATE + 7 * j)%Z, scenario_prices))
         [0; 1; 2; 3; 4; 5; 6; 7; 8; 9]%Z).

Definition env_offline : env :=
  {| history_api := fun _ _ => None; spot_api := None; cached_spot := None;
     now := (START_DATE + 65)%Z; manual_transactions := [];
     float_pow := fun x _ => x; float_sqrt := fun x => x |}.

Definition globals_ten_weeks : globals :=
  {| TODAY := (START_DATE + 65)%Z; price_cache := ten_weeks_cache |}.

(* a cache file holding a zero bitcoin price for the start date *)
Definition globals_zero_price : globals :=
  {| TODAY := START_DATE;
     price_cache := {[ START_DATE := {| bitcoin := 0; ethereum := 3000 |} ]} |}.

(** * Further definitions *)

(** ** State invariants *)

(* running [m] keeps the state property [I] *)
Definition preserves {A} (I : globals -> Prop) (m : M A) : Prop :=
  forall g, I g -> I (snd (m g)).

(* the cache holds [pd] for [date] *)
Definition cached (date : Z) (pd : price_data) (g : globals) : Prop :=
  price_cache g !! date = Some pd.

(* every price the lookups of [P] return is positive *)
Definition prices_positive (P : Z -> option price_data) : Prop :=
  forall date pd, P date = Some pd -> 0 < bitcoin pd /\ 0 < ethereum pd.

(** ** Ledgers *)

Definition with_ledger (ledger : list transaction) : env :=
  {| history_api := fun _ _ => None; spot_api := None; cached_spot := None;
     now := START_DATE; manual_transactions := ledger;
     float_pow := fun x _ => x; float_sqrt := fun x => x |}.

Definition buy_one_btc : transaction :=
  {| tx_date := Iso 20200; tx_coin := "bitcoin"; tx_amount := 1;
     tx_price := 40000; tx_type := Some "buy" |}.

Definition buy_five_eth : transaction :=
  {| tx_date := Iso 20210; tx_coin := "ethereum"; tx_amount := 5;
     tx_price := 2500; tx_type := None |}.

Definition sell_half_btc : transaction :=
  {| tx_date := Iso 20220; tx_coin := "bitcoin"; tx_amount := 1 # 2;
     tx_price := 60000; tx_type := Some "sell" |}.

(** ** Transaction analysis: [transaction_analysis] *)

(* a record of MANUAL_TX_FILE with the fields [add_transaction] adds to a
   sell: profit_loss and profit_loss_percent *)
Record ledger_entry : Type := {
  entry_tx : transaction;
  entry_profit_loss : option Q;
  entry_profit_loss_percent : option Q
}.

Record tx_data : Type := {
  td_date : date_text;
  td_type : string;
  td_amount : Q;
  td_price : Q;
  td_value : Q;
  (* profit_loss and profit_loss_percent, present together *)
  td_profit_loss : option (Q * Q)
}.

Record coin_analysis : Type := {
  total_bought : Q;
  total_sold : Q;
  net_amount : Q;
  ca_total_invested : Q;
  total_received : Q;
  realized_profit_loss : Q;
  unrealized_profit_loss : Q;
  transactions : list tx_data
}.

Definition empty_analysis : coin_analysis :=
  {| total_bought := 0; total_sold := 0; net_amount := 0;
     ca_total_invested := 0; total_received := 0; realized_profit_loss := 0;
     unrealized_profit_loss := 0; transactions := [] |}.

(* the body of the first loop for an entry of a known coin, on that coin's
   part of the analysis *)
Definition analyse_entry (a : coin_analysis) (entry : ledger_entry)
    : coin_analysis :=
  let tx := entry_tx entry in
  let amount := tx_amount tx in
  let price := tx_price tx in
  let tx_type := tx_kind tx in
  let data :=
    {| td_date := tx_date tx; td_type := tx_type; td_amount := amount;
       td_price := price; td_value := amount * price;
       td_profit_loss :=
         match entry_profit_loss entry with
         | Some pl => Some (pl, default 0 (entry_profit_loss_percent entry))
         | None => None
         end |} in
  let listed := transactions a ++ [data] in
  if String.eqb tx_type "buy" then
    {| total_bought := total_bought a + amount;
       total_sold := total_sold a;
       net_amount := net_amount a + amount;
       ca_total_invested := ca_total_invested a + amount * price;
       total_received := total_received a;
       realized_profit_loss := realized_profit_loss a;
       unrealized_profit_loss := unrealized_profit_loss a;
       transactions := listed |}
  else if String.eqb tx_type "sell" then
    {| total_bought := total_bought a;
       total_sold := total_sold a + amount;
       net_amount := net_amount a - amount;
       ca_total_invested := ca_total_invested a;
       total_received := total_received a + amount * price;
       realized_profit_loss :=
         match entry_profit_loss entry with
         | Some pl => realized_profit_loss a + pl
         | None => realized_profit_loss a
         end;
       unrealized_profit_loss := unrealized_profit_loss a;
       transactions := listed |}
  else
    {| total_bought := total_bought a;
       total_sold := total_sold a;
       net_amount := net_amount a;
       ca_total_invested := ca_total_invested a;
       total_received := total_received a;
       realized_profit_loss := realized_profit_loss a;
       unrealized_profit_loss := unrealized_profit_loss a;
       transactions := listed |}.

(* the first loop; [inr coin] is the KeyError of analysis[coin] *)
Fixpoint analyse_entries (entries : list ledger_entry)
    (btc eth : coin_analysis) : (coin_analysis * coin_analysis) + string :=
  match entries with
  | [] => inl (btc, eth)
  | entry :: rest =>
      let coin := tx_coin (entry_tx entry) in
      if String.eqb coin "bitcoin" then
        analyse_entries rest (analyse_entry btc entry) eth
      else if String.eqb coin "ethereum" then
        analyse_entries rest btc (analyse_entry eth entry)
      else inr coin
  end.

(* the second loop, for one coin *)
Definition with_unrealized (a : coin_analysis) (current_price : Q)
    : coin_analysis :=
  if Qltb 0 (net_amount a) then
    let current_value := net_amount a * current_price in
    let remaining_cost := ca_total_invested a - total_received a in
    {| total_bought := total_bought a;
       total_sold := total_sold a;
       net_amount := net_amount a;
       ca_total_invested := ca_total_invested a;
       total_received := total_received a;
       realized_profit_loss := realized_profit_loss a;
       unrealized_profit_loss := current_value - remaining_cost;
       transactions := transactions a |}
  else a.

(* the handler: the analysis of both coins with status 200, or the key that
   was missing with status 500 *)
Definition transaction_analysis (e : env) (entries : list ledger_entry)
    : ((coin_analysis * coin_analysis) + string) * Z :=
  let current_prices := get_current_prices_cached e in
  match analyse_entries entries empty_analysis empty_analysis with
  | inl (btc, eth) =>
      (inl (with_unrealized btc (bitcoin current_prices),
            with_unrealized eth (ethereum current_prices)), 200%Z)
  | inr coin => (inr coin, 500%Z)
  end.

(* every entry is about one of the two coins *)
Definition known_coins (entries : list ledger_entry) : Prop :=
  Forall (fun entry => tx_coin (entry_tx entry) = "bitcoin"
                       \/ tx_coin (entry_tx entry) = "ethereum") entries.

Definition entries_three : list ledger_entry :=
  [ {| entry_tx := buy_one_btc; entry_profit_loss := None;
       entry_profit_loss_percent := None |};
    {| entry_tx := buy_five_eth; entry_profit_loss := None;
       entry_profit_loss_percent := None |};
    {| entry_tx := sell_half_btc; entry_profit_loss := Some 10000;
       entry_profit_loss_percent := Some 50 |} ].

(* the net amounts of the analysis are the holdings of the ledger merge, as
   the same expression: the same additions and subtractions in the same
   order *)
Definition analysis_matches (btc eth : coin_analysis) (merged : Q * Q * Q * Q)
    : Prop :=
  net_amount btc = fst (fst (fst merged)) /\
  net_amount eth = snd (fst (fst merged)).

Definition buy_one_doge : transaction :=
  {| tx_date := Iso 20215; tx_coin := "dogecoin"; tx_amount := 1000;
     tx_price := 1 # 10; tx_type := Some "buy" |}.

Definition entries_with_doge : list ledger_entry :=
  [ {| entry_tx := buy_one_btc; entry_profit_loss := None;
       entry_profit_loss_percent := None |};
    {| entry_tx := buy_one_doge; entry_profit_loss := None;
       entry_profit_loss_percent := None |};
    {| entry_tx := buy_five_eth; entry_profit_loss := None;
       entry_profit_loss_percent := None |} ].

(** ** Portfolio history: [portfolio_history] *)

Record history_point : Type := {
  hp_date : Z;
  hp_total_value : Q;
  hp_total_invested : Q;
  hp_profit_loss : Q;
  hp_roi_percent : Q;
  hp_btc_value : Q;
  hp_eth_value : Q;
  hp_btc_price : Q;
  hp_eth_price : Q
}.

(* period_mapping.get(period, period_mapping['30d']) as (days, interval);
   [period] is the query argument in lower case *)
Definition period_mapping (period : string) : Z * Z :=
  if String.eqb period "7d" then (7, 1)%Z
  else if String.eqb period "30d" then (30, 1)%Z
  else if String.eqb period "90d" then (90, 2)%Z
  else if String.eqb period "6m" then (180, 4)%Z
  else if String.eqb period "1y" then (365, 7)%Z
  else (30, 1)%Z.

Definition history_interval (period aggregation : string) : Z :=
  let interval :=
    if String.eqb aggregation "auto" then snd (period_mapping period) else 1%Z in
  if String.eqb aggregation "daily" then 1
  else if String.eqb aggregation "weekly" then 7
  else if String.eqb aggregation "monthly" then 30
  else interval.

Record history_state : Type := {
  hs_history : list history_point;
  hs_current_date : Z;
  hs_data_points : nat
}.

(* the body of the inner [try]: the entry appended for [current_date], if
   there is price data for it *)
Definition history_point_at (e : env) (current_date : Z)
    : M (option history_point) :=
  do (btc_invested, eth_invested, btc_held, eth_held) <-
    simulate_investments e "weekly" DEFAULT_BTC_INVEST DEFAULT_ETH_INVEST;
  let '(btc_held, eth_held, btc_invested, eth_invested) :=
    apply_manual_transactions e btc_held eth_held btc_invested eth_invested in
  do price_data <- get_price_on_date e current_date;
  match price_data with
  | Some pd =>
      let btc_value := btc_held * bitcoin pd in
      let eth_value := eth_held * ethereum pd in
      let total_value := btc_value + eth_value in
      let total_invested := btc_invested + eth_invested in
      let profit_loss := total_value - total_invested in
      do roi_percent <- lift (percent_of profit_loss total_invested);
      ret (Some {| hp_date := current_date;
                   hp_total_value := py_round total_value 2;
                   hp_total_invested := py_round total_invested 2;
                   hp_profit_loss := py_round profit_loss 2;
                   hp_roi_percent := py_round roi_percent 2;
                   hp_btc_value := py_round btc_value 2;
                   hp_eth_value := py_round eth_value 2;
                   hp_btc_price := py_round (bitcoin pd) 2;
                   hp_eth_price := py_round (ethereum pd) 2 |})
  | None => ret None
  end.

(* one iteration of the [while] body; an exception inside the [try] is
   logged and the date is passed over *)
Definition history_step (e : env) (interval : Z) (hs : history_state)
    : M history_state :=
  do _ <- set_TODAY (hs_current_date hs);
  do point <- catch (history_point_at e (hs_current_date hs))
                    (fun _ => ret None);
  ret match point with
      | Some p =>
          {| hs_history := hs_history hs ++ [p];
             hs_current_date := (hs_current_date hs + interval)%Z;
             hs_data_points := S (hs_data_points hs) |}
      | None =>
          {| hs_history := hs_history hs;
             hs_current_date := (hs_current_date hs + interval)%Z;
             hs_data_points := hs_data_points hs |}
      end.

Definition max_data_points : nat := 200.

Definition history_continues (e : env) (hs : history_state) : bool :=
  (hs_current_date hs <=? now e)%Z && (hs_data_points hs <? max_data_points)%nat.

Fixpoint history_loop (fuel : nat) (e : env) (interval : Z)
    (hs : history_state) : M history_state :=
  match fuel with
  | O => raise FuelExhausted
  | S fuel' =>
      if history_continues e hs then
        do hs' <- history_step e interval hs;
        history_loop fuel' e interval hs'
      else ret hs
  end.

(* the loop visits at most one date per day of the period *)
Definition history_fuel (days : Z) : nat := S (Z.to_nat (days + 1)%Z).

Record history_response : Type := {
  hr_period : string;
  hr_interval : Z;                  (* f"{interval}-day interval" *)
  hr_data_points : nat;
  hr_start : option Z;
  hr_end : option Z;
  hr_history : list history_point
}.

(* [temp_today] is bound before anything in the handler can raise, so the
   [except] clause always finds it in locals() *)
Definition portfolio_history (e : env) (period aggregation : string)
    : M (response history_response) :=
  let days := fst (period_mapping period) in
  let interval := history_interval period aggregation in
  do temp_today <- get_TODAY;
  catch
    (do hs <- history_loop (history_fuel days) e interval
                {| hs_history := []; hs_current_date := (now e - days)%Z;
                   hs_data_points := O |};
     do _ <- set_TODAY temp_today;
     let history := hs_history hs in
     ret (Jsonify
            {| hr_period := period;
               hr_interval := interval;
               hr_data_points := length history;
               hr_start := option_map hp_date (head history);
               hr_end := option_map hp_date (head (rev history));
               hr_history := history |}
            200))
    (fun ex =>
       do _ <- set_TODAY temp_today;
       ret (JsonError (Failure "" ex) 500)).

(* the dates now - days + k * interval for k < n *)
Definition sample_dates (e : env) (period aggregation : string) (n : nat)
    : list Z :=
  map (fun k => (now e - fst (period_mapping period)
                 + Z.of_nat k * history_interval period aggregation)%Z)
      (seq 0 n).

(* the number of sample dates of the period up to now, capped *)
Definition sample_count (period aggregation : string) : nat :=
  Nat.min max_data_points
    (Z.to_nat (fst (period_mapping period)
               / history_interval period aggregation + 1)).

(* the invariant of the history loop started at [c0] from lookups [P] *)
Definition history_inv (e : env) (interval c0 : Z)
    (P : Z -> option price_data) (full : Prop)
    (hs : history_state) (g : globals) : Prop :=
  agrees e P g /\
  exists n : nat,
    hs_current_date hs = (c0 + Z.of_nat n * interval)%Z /\
    (n = O \/ (c0 + (Z.of_nat n - 1) * interval <= now e)%Z) /\
    hs_data_points hs = length (hs_history hs) /\
    (hs_data_points hs <= max_data_points)%nat /\
    (hs_data_points hs <= n)%nat /\
    Forall (fun p => (c0 <= hp_date p < hs_current_date hs)%Z /\
                     (hp_date p <= now e)%Z /\
                     ((hp_date p - c0) mod interval = 0)%Z /\
                     P (hp_date p) <> None) (hs_history hs) /\
    StronglySorted (fun p q => (hp_date p < hp_date q)%Z) (hs_history hs) /\
    (full ->
     cache_ok g /\ hs_data_points hs = n /\
     map hp_date (hs_history hs)
     = map (fun k => (c0 + Z.of_nat k * interval)%Z) (seq 0 n)).

(* prices for every date, fixed clock *)
Definition env_year : env :=
  {| history_api := fun coin date =>
       if String.eqb coin "bitcoin" then Some 50000 else Some 3000;
     spot_api := None; cached_spot := None; now := (START_DATE + 400)%Z;
     manual_transactions := []; float_pow := fun x _ => x;
     float_sqrt := fun x => x |}.

(* every price on offer, spot prices included *)
Definition env_online : env :=
  {| history_api := fun coin date =>
       if String.eqb coin "bitcoin" then Some 50000 else Some 3000;
     spot_api := Some {| bitcoin := 60000; ethereum := 3500 |};
     cached_spot := None; now := (START_DATE + 20)%Z;
     manual_transactions := []; float_pow := fun x _ => x;
     float_sqrt := fun x => x |}.

(** ** Drawdown as a relative decline *)

(* the relative decline from a value [a] to a later value [b] *)
Definition decline (a b : Q) : Q := (a - b) / a.

(* the values at positions [i <= j] of a history *)
Definition value_pair (history : list snapshot) (i j : nat) (a b : Q) : Prop :=
  (i <= j)%nat /\
  exists pi pj,
    nth_error history i = Some pi /\ nth_error history j = Some pj /\
    a = total_value pi /\ b = total_value pj.

Definition all_positive (history : list snapshot) : Prop :=
  Forall (fun p => 0 < total_value p) history.

(** ** Outcomes of the risk analytics *)

(* the entries, the last one apart, whose value is positive: each gives one
   daily return *)
Definition positive_predecessors (history : list snapshot) : list snapshot :=
  List.filter (fun p => Qltb 0 (total_value p)) (removelast history).

Definition status_of {A} (r : response A) : Z :=
  match r with
  | Jsonify _ status => status
  | JsonError _ status => status
  end.

(** ** Price alerts: [check_price_alerts] *)

Record price_alert : Type := {
  alert_id : string;
  alert_coin : string;
  (* float(alert['target_price']), [None] when the conversion raises *)
  alert_target_price : option Q;
  alert_condition : string;
  alert_email : string
}.

(* EMAIL_CONFIG and the outcome of the SMTP exchange for the alert at a
   position of the list *)
Record mailer : Type := {
  email_enabled : bool;
  email_user : string;
  smtp_delivers : nat -> price_alert -> bool
}.

Definition send_email_alert (m : mailer) (position : nat) (alert : price_alert)
    : bool :=
  if negb (email_enabled m) || String.eqb (email_user m) "" then false
  else smtp_delivers m position alert.

(* current_prices.get(coin, 0) *)
Definition price_of (current_prices : price_data) (coin : string) : Q :=
  if String.eqb coin "bitcoin" then bitcoin current_prices
  else if String.eqb coin "ethereum" then ethereum current_prices
  else 0.

(* alert_triggered, for a target price that could be read *)
Definition alert_triggered (current_prices : price_data) (alert : price_alert)
    (target_price : Q) : bool :=
  let current_price := price_of current_prices (alert_coin alert) in
  if String.eqb (alert_condition alert) "above"
     && Qle_bool target_price current_price then true
  else if String.eqb (alert_condition alert) "below"
          && Qle_bool current_price target_price then true
  else false.

(* one iteration of the [for] loop, on
   (alerts_triggered, alerts_to_keep, position) *)
Definition check_alert (m : mailer) (current_prices : price_data)
    (acc : list price_alert * list price_alert * nat) (alert : price_alert)
    : list price_alert * list price_alert * nat :=
  let '(alerts_triggered, alerts_to_keep, position) := acc in
  match alert_target_price alert with
  | Some target_price =>
      if alert_triggered current_prices alert target_price then
        if send_email_alert m position alert
        then (alerts_triggered ++ [alert], alerts_to_keep, S position)
        else (alerts_triggered, alerts_to_keep ++ [alert], S position)
      else (alerts_triggered, alerts_to_keep ++ [alert], S position)
  | None => (alerts_triggered, alerts_to_keep ++ [alert], S position)
  end.

(* the alerts file after the check, and the alerts a mail went out for *)
Definition check_price_alerts (e : env) (m : mailer)
    (alerts : list price_alert) : list price_alert * list price_alert :=
  match alerts with
  | [] => (alerts, [])
  | _ =>
      let current_prices := get_current_prices_cached e in
      let '(alerts_triggered, alerts_to_keep, _) :=
        fold_left (check_alert m current_prices) alerts ([], [], O) in
      match alerts_triggered with
      | [] => (alerts, [])
      | _ => (alerts_to_keep, alerts_triggered)
      end
  end.

(* the target of the alert has been reached at the given prices *)
Definition alert_reached (current_prices : price_data) (alert : price_alert)
    : Prop :=
  exists target_price,
    alert_target_price alert = Some target_price /\
    alert_triggered current_prices alert target_price = true.

(* a notification for the alert was handed to the mail server *)
Definition alert_mailed (m : mailer) (alert : price_alert) : Prop :=
  exists position, send_email_alert m position alert = true.

Definition btc_above_55000 : price_alert :=
  {| alert_id := "a1"; alert_coin := "bitcoin";
     alert_target_price := Some 55000; alert_condition := "above";
     alert_email := "a@b.c" |}.

Definition eth_below_2000 : price_alert :=
  {| alert_id := "a2"; alert_coin := "ethereum";
     alert_target_price := Some 2000; alert_condition := "below";
     alert_email := "a@b.c" |}.

Definition mail_off : mailer :=
  {| email_enabled := false; email_user := "";
     smtp_delivers := fun _ _ => true |}.

(* a ledger that sells ten bitcoin it never bought *)
Definition env_oversold : env :=
  {| history_api := fun coin date =>
       if String.eqb coin "bitcoin" then Some 50000 else Some 3000;
     spot_api := Some {| bitcoin := 60000; ethereum := 3500 |};
     cached_spot := None; now := (START_DATE + 20)%Z;
     manual_transactions :=
       [ {| tx_date := Iso 20120; tx_coin := "bitcoin"; tx_amount := 10;
            tx_price := 1; tx_type := Some "sell" |} ];
     float_pow := fun x _ => x; float_sqrt := fun x => x |}.

(** * Properties *)

(** ** Numbers *)

Lemma Qltb_lt (a b : Q) : Qltb a b = true <-> a < b.
Proof.
  unfold Qltb. rewrite Qlt_alt. destruct (a ?= b); split; congruence.
Qed.

Lemma Qltb_ge (a b : Q) : Qltb a b = false <-> b <= a.
Proof.
  rewrite <- Bool.not_true_iff_false, Qltb_lt. split.
  - apply Qnot_lt_le.
  - apply Qle_not_lt.
Qed.

Lemma py_div_ok (a b : Q) : ~ b == 0 -> py_div a b = Ok (a / b).
Proof.
  intros Hb. unfold py_div.
  destruct (Qeq_bool b 0) eqn:E; [|reflexivity].
  apply Qeq_bool_iff in E. contradiction.
Qed.

Lemma py_div_pos (a b : Q) : 0 < b -> py_div a b = Ok (a / b).
Proof. intros Hb. apply py_div_ok. intros E. rewrite E in Hb. lra. Qed.

Lemma percent_of_pos (num den : Q) :
  0 < den -> percent_of num den = Ok (num / den * 100).
Proof.
  intros H. unfold percent_of.
  rewrite (proj2 (Qltb_lt 0 den) H), py_div_pos by assumption.
  reflexivity.
Qed.

Lemma percent_of_nonpos (num den : Q) : den <= 0 -> percent_of num den = Ok 0.
Proof. intros H. unfold percent_of. apply Qltb_ge in H as ->. reflexivity. Qed.

Lemma percent_of_total (num den : Q) : exists q, percent_of num den = Ok q.
Proof.
  destruct (Qlt_le_dec 0 den).
  - rewrite percent_of_pos by assumption. eauto.
  - rewrite percent_of_nonpos by assumption. eauto.
Qed.

Lemma ratio_of_pos (num den : Q) : 0 < den -> ratio_of num den = Ok (num / den).
Proof.
  intros H. unfold ratio_of.
  rewrite (proj2 (Qltb_lt 0 den) H). apply py_div_pos, H.
Qed.

Lemma ratio_of_nonpos (num den : Q) : den <= 0 -> ratio_of num den = Ok 0.
Proof. intros H. unfold ratio_of. apply Qltb_ge in H as ->. reflexivity. Qed.

Lemma ratio_of_total (num den : Q) : exists q, ratio_of num den = Ok q.
Proof.
  destruct (Qlt_le_dec 0 den).
  - rewrite ratio_of_pos by assumption. eauto.
  - rewrite ratio_of_nonpos by assumption. eauto.
Qed.

(** ** The percentage convention *)

Lemma percent_of_spec (value invested q : Q) :
  percent_of (value - invested) invested = Ok q ->
  percent_change_spec value invested q.
Proof.
  intros H. split; intros Hi.
  - rewrite percent_of_pos in H by assumption. injection H as <-. reflexivity.
  - rewrite percent_of_nonpos in H by assumption. congruence.
Qed.

Lemma py_pow_positive_exponent (e : env) (x y : Q) :
  0 < y -> exists p, py_pow e x y = Ok p.
Proof.
  intros Hy. unfold py_pow.
  assert (Qltb y 0 = false) as -> by (apply Qltb_ge; lra).
  rewrite Bool.andb_false_r.
  destruct (Qltb x 0 && negb (is_integer y)); eauto.
Qed.

Lemma annualized_return_of_total (e : env) (value invested years : Q) :
  exists r, annualized_return_of e value invested years = Ok r.
Proof.
  unfold annualized_return_of.
  destruct (Qltb 0 years) eqn:Hy; [|simpl; eauto].
  destruct (Qltb 0 invested) eqn:Hi; [|simpl; eauto].
  apply Qltb_lt in Hy, Hi. simpl.
  rewrite !py_div_pos by assumption. simpl.
  destruct (py_pow_positive_exponent e (value / invested) (1 / years)) as [p ->].
  - apply Qlt_shift_div_l; lra.
  - simpl. eauto.
Qed.

Lemma portfolio_values_ok (btc_invested eth_invested btc_held eth_held : Q)
    (prices : price_data) :
  let btc_value := btc_held * bitcoin prices in
  let eth_value := eth_held * ethereum prices in
  exists v,
    portfolio_values btc_invested eth_invested btc_held eth_held prices = Ok v /\
    percent_change_spec btc_value btc_invested (p_btc_percent_change v) /\
    percent_change_spec eth_value eth_invested (p_eth_percent_change v) /\
    percent_change_spec (btc_value + eth_value) (btc_invested + eth_invested)
      (p_total_percent_change v).
Proof.
  intros btc_value eth_value. unfold portfolio_values.
  fold btc_value eth_value.
  destruct (percent_of_total (btc_value - btc_invested) btc_invested) as [pb Hb].
  destruct (percent_of_total (eth_value - eth_invested) eth_invested) as [pe He].
  destruct (percent_of_total (btc_value + eth_value - (btc_invested + eth_invested))
              (btc_invested + eth_invested)) as [pt Ht].
  rewrite Hb, He, Ht. simpl. eexists. split; [reflexivity|]. simpl.
  do 2 (split; [apply percent_of_spec; assumption|]).
  apply percent_of_spec; assumption.
Qed.

Lemma performance_values_ok (e : env)
    (btc_invested eth_invested btc_held eth_held : Q) (prices : price_data) :
  let btc_value := btc_held * bitcoin prices in
  let eth_value := eth_held * ethereum prices in
  exists w,
    performance_values e btc_invested eth_invested btc_held eth_held prices
      = Ok w /\
    percent_change_spec btc_value btc_invested (btc_roi_percent w) /\
    percent_change_spec eth_value eth_invested (eth_roi_percent w) /\
    percent_change_spec (btc_value + eth_value) (btc_invested + eth_invested)
      (total_roi_percent w) /\
    days_invested w = (now e - START_DATE)%Z.
Proof.
  intros btc_value eth_value. unfold performance_values.
  fold btc_value eth_value.
  set (total := btc_value + eth_value).
  set (invested := btc_invested + eth_invested).
  destruct (percent_of_total (btc_value - btc_invested) btc_invested) as [pb Hb].
  destruct (percent_of_total (eth_value - eth_invested) eth_invested) as [pe He].
  destruct (percent_of_total (total - invested) invested) as [pt Ht].
  destruct (annualized_return_of_total e total invested
              (inject_Z (now e - START_DATE) / (36525 # 100))) as [ar Har].
  destruct (percent_of_total btc_value total) as [ab Hab].
  destruct (percent_of_total eth_value total) as [ae Hae].
  destruct (ratio_of_total btc_invested btc_held) as [vb Hvb].
  destruct (ratio_of_total eth_invested eth_held) as [ve Hve].
  rewrite Hb, He, Ht, Har, Hab, Hae, Hvb, Hve. simpl.
  eexists. split; [reflexivity|]. simpl.
  do 3 (split; [apply percent_of_spec; assumption|]). reflexivity.
Qed.

Lemma portfolio_summary_ok (btc_invested eth_invested btc_held eth_held : Q)
    (prices : price_data) :
  exists s,
    portfolio_summary_of btc_invested eth_invested btc_held eth_held prices
      = Ok s /\
    percent_change_spec (btc_held * bitcoin prices + eth_held * ethereum prices)
      (btc_invested + eth_invested) (ps_total_profit_loss_percent s).
Proof.
  unfold portfolio_summary_of.
  destruct (percent_of_total
              (btc_held * bitcoin prices + eth_held * ethereum prices
               - (btc_invested + eth_invested))
              (btc_invested + eth_invested)) as [pt Ht].
  rewrite Ht. simpl. eexists. split; [reflexivity|].
  apply percent_of_spec; assumption.
Qed.

Lemma other_percentages_ok (btc_invested eth_invested btc_held eth_held : Q)
    (prices : price_data) :
  let btc_value := btc_held * bitcoin prices in
  let eth_value := eth_held * ethereum prices in
  let total := btc_value + eth_value in
  let invested := btc_invested + eth_invested in
  exists live roi csv_btc csv_eth csv_total,
    live_profit_percent btc_invested eth_invested btc_held eth_held
      (bitcoin prices) (ethereum prices) = Ok live /\
    history_roi_percent btc_invested eth_invested btc_held eth_held prices
      = Ok roi /\
    export_portfolio_roi btc_invested eth_invested btc_held eth_held prices
      = Ok (csv_btc, csv_eth, csv_total) /\
    percent_change_spec total invested live /\
    percent_change_spec total invested roi /\
    percent_change_spec btc_value btc_invested csv_btc /\
    percent_change_spec eth_value eth_invested csv_eth /\
    percent_change_spec total invested csv_total.
Proof.
  intros btc_value eth_value total invested.
  unfold live_profit_percent, history_roi_percent, export_portfolio_roi.
  fold btc_value eth_value. fold total invested.
  destruct (percent_of_total (btc_value - btc_invested) btc_invested) as [pb Hb].
  destruct (percent_of_total (eth_value - eth_invested) eth_invested) as [pe He].
  destruct (percent_of_total (total - invested) invested) as [pt Ht].
  rewrite Hb, He, Ht. simpl.
  exists pt, pt, pb, pe, pt.
  do 3 (split; [reflexivity|]).
  pose proof (percent_of_spec _ _ _ Hb). pose proof (percent_of_spec _ _ _ He).
  pose proof (percent_of_spec _ _ _ Ht). auto.
Qed.

(** C2.  Percent-change convention.  Wherever app.py computes a percentage
    from a value [held * spot_price] and an amount [invested] (the per-asset
    and total percent changes of [portfolio], the ROI of
    [calculate_performance_metrics], [portfolio_history], [export_history]
    and [export_portfolio_csv], the total return of [get_portfolio_metrics]
    and the profit percent of [live_profit_loss]), the computation succeeds
    and, before the presentation rounding, yields
    [(held * spot_price - invested) / invested * 100] when [invested > 0] and
    exactly [0] when [invested <= 0]. *)
Theorem percent_change_convention (e : env)
    (btc_invested eth_invested btc_held eth_held : Q) (prices : price_data) :
  let btc_value := btc_held * bitcoin prices in
  let eth_value := eth_held * ethereum prices in
  let total := btc_value + eth_value in
  let invested := btc_invested + eth_invested in
  exists v w s live roi csv_btc csv_eth csv_total,
    portfolio_values btc_invested eth_invested btc_held eth_held prices = Ok v /\
    performance_values e btc_invested eth_invested btc_held eth_held prices = Ok w /\
    portfolio_summary_of btc_invested eth_invested btc_held eth_held prices = Ok s /\
    live_profit_percent btc_invested eth_invested btc_held eth_held
      (bitcoin prices) (ethereum prices) = Ok live /\
    history_roi_percent btc_invested eth_invested btc_held eth_held prices
      = Ok roi /\
    export_portfolio_roi btc_invested eth_invested btc_held eth_held prices
      = Ok (csv_btc, csv_eth, csv_total) /\
    percent_change_spec btc_value btc_invested (p_btc_percent_change v) /\
    percent_change_spec eth_value eth_invested (p_eth_percent_change v) /\
    percent_change_spec total invested (p_total_percent_change v) /\
    percent_change_spec btc_value btc_invested (btc_roi_percent w) /\
    percent_change_spec eth_value eth_invested (eth_roi_percent w) /\
    percent_change_spec total invested (total_roi_percent w) /\
    percent_change_spec total invested (ps_total_profit_loss_percent s) /\
    percent_change_spec total invested live /\
    percent_change_spec total invested roi /\
    percent_change_spec btc_value btc_invested csv_btc /\
    percent_change_spec eth_value eth_invested csv_eth /\
    percent_change_spec total invested csv_total.
Proof.
  intros btc_value eth_value total invested.
  destruct (portfolio_values_ok btc_invested eth_invested btc_held eth_held prices)
    as (v & Hv & Hvb & Hve & Hvt).
  destruct (performance_values_ok e btc_invested eth_invested btc_held eth_held
              prices) as (w & Hw & Hwb & Hwe & Hwt & _).
  destruct (portfolio_summary_ok btc_invested eth_invested btc_held eth_held
              prices) as (s & Hs & Hst).
  destruct (other_percentages_ok btc_invested eth_invested btc_held eth_held
              prices)
    as (live & roi & cb & ce & ct & Hl & Hr & Hx & Hlive & Hroi & Hcb & Hce & Hct).
  exists v, w, s, live, roi, cb, ce, ct. auto 20.
Qed.

(** The convention at concrete inputs: 0.02 BTC and 1/12 ETH bought for 1020
    and 259 USD, and the same holdings with nothing invested. *)
Lemma percent_change_convention_witness :
  (exists v, portfolio_values 1020 259 (2 # 100) (1 # 12)
               {| bitcoin := 50000; ethereum := 3000 |} = Ok v /\
             p_btc_percent_change v == ((2 # 100) * 50000 - 1020) / 1020 * 100 /\
             p_total_percent_change v == - (2900 # 1279)) /\
  (exists v, portfolio_values 0 (-5) (2 # 100) (1 # 12)
               {| bitcoin := 50000; ethereum := 3000 |} = Ok v /\
             p_btc_percent_change v = 0 /\ p_eth_percent_change v = 0 /\
             p_total_percent_change v = 0).
Proof.
  split.
  - destruct (percent_change_convention
                {| history_api := fun _ _ => None; spot_api := None;
                   cached_spot := None; now := START_DATE;
                   manual_transactions := []; float_pow := fun x _ => x;
                   float_sqrt := fun x => x |}
                1020 259 (2 # 100) (1 # 12)
                {| bitcoin := 50000; ethereum := 3000 |})
      as (v & w & s & live & roi & cb & ce & ct
          & Hv & _ & _ & _ & _ & _ & [Hb _] & _ & [Ht _] & _).
    exists v. split; [exact Hv|]. split.
    + apply Hb. reflexivity.
    + rewrite Ht by reflexivity. reflexivity.
  - destruct (percent_change_convention
                {| history_api := fun _ _ => None; spot_api := None;
                   cached_spot := None; now := START_DATE;
                   manual_transactions := []; float_pow := fun x _ => x;
                   float_sqrt := fun x => x |}
                0 (-5) (2 # 100) (1 # 12)
                {| bitcoin := 50000; ethereum := 3000 |})
      as (v & w & s & live & roi & cb & ce & ct
          & Hv & _ & _ & _ & _ & _ & [_ Hb] & [_ He] & [_ Ht] & _).
    exists v. split; [exact Hv|]. repeat split.
    + apply Hb. discriminate.
    + apply He. discriminate.
    + apply Ht. discriminate.
Defined.

(** ** Realized profit and loss *)









(** The sale of the witness raises nothing. *)
Example sell_without_prior_buys_no_exception :
  calculate_transaction_profit_loss_body ledger_one_sell_side
    {| tx_date := Iso 20250; tx_coin := "bitcoin"; tx_amount := 1 # 2;
       tx_price := 70000; tx_type := Some "sell" |} = Ok no_profit_loss.
Proof. reflexivity. Qed.




(** The same sale in numbers: average buy price 55000, profit 30000, i.e.
    27.27 percent. *)
Example fifo_realized_profit_loss_numbers :
  let d := calculate_transaction_profit_loss ledger_two_buys sell_two_btc in
  average_buy_price d == 55000 /\ profit_loss d == 30000 /\
  profit_loss_percent d == 2727 # 100.
Proof. vm_compute. repeat split; reflexivity. Qed.

(** ** Maximum drawdown *)

Lemma py_max_ge_l (a b : Q) : a <= py_max a b.
Proof.
  unfold py_max. destruct (Qltb a b) eqn:E.
  - apply Qltb_lt in E. lra.
  - lra.
Qed.

Lemma py_max_zero (b : Q) : b == 0 -> py_max 0 b = 0.
Proof.
  intros Hb. unfold py_max.
  assert (Qltb 0 b = false) as -> by (apply Qltb_ge; lra). reflexivity.
Qed.

Lemma drawdown_loop_lower_bound (points : list snapshot) :
  forall peak md, exists peak' md',
    drawdown_loop points (peak, md) = Ok (peak', md') /\ md <= md'.
Proof.
  induction points as [|point points IH]; intros peak md; simpl.
  - exists peak, md. split; [reflexivity | lra].
  - set (pk := if Qltb peak (total_value point) then total_value point else peak).
    destruct (ratio_of_total (pk - total_value point) pk) as [dd ->]. simpl.
    destruct (IH pk (py_max md dd)) as (peak' & md' & -> & Hle).
    exists peak', md'. split; [reflexivity|].
    pose proof (py_max_ge_l md dd). lra.
Qed.

Lemma ratio_of_zero_num (num den : Q) :
  num == 0 -> exists q, ratio_of num den = Ok q /\ q == 0.
Proof.
  intros Hn. destruct (Qlt_le_dec 0 den) as [Hd|Hd].
  - rewrite ratio_of_pos by assumption. eexists. split; [reflexivity|].
    rewrite Hn. field. lra.
  - rewrite ratio_of_nonpos by assumption. exists 0. split; reflexivity.
Qed.

Lemma drawdown_loop_nondecreasing (points : list snapshot) :
  forall peak,
    nondecreasing points ->
    (forall x, head points = Some x -> peak <= total_value x) ->
    exists peak', drawdown_loop points (peak, 0) = Ok (peak', 0).
Proof.
  induction points as [|point points IH]; intros peak Hs Hpeak; simpl.
  - eauto.
  - specialize (Hpeak point eq_refl).
    set (pk := if Qltb peak (total_value point) then total_value point else peak).
    assert (Hpk : pk == total_value point).
    { unfold pk. destruct (Qltb peak (total_value point)) eqn:E.
      - reflexivity.
      - apply Qltb_ge in E. lra. }
    destruct (ratio_of_zero_num (pk - total_value point) pk) as (dd & -> & Hdd).
    { rewrite Hpk. ring. }
    simpl. rewrite (py_max_zero dd Hdd).
    apply IH.
    + inversion Hs; assumption.
    + intros x Hx. inversion Hs as [|? ? _ Hrel]; subst.
      destruct points as [|y ys]; [discriminate|].
      injection Hx as <-. inversion Hrel; subst. rewrite Hpk. assumption.
Qed.

(** C7.  Max drawdown bounds.  For every non-empty value series the
    running-peak computation succeeds with a result [>= 0] (whatever the sign
    of the first value, so in particular when it is positive), and for every
    non-decreasing series the result is exactly 0. *)
Theorem max_drawdown_bounds (first : snapshot) (rest : list snapshot) :
  (exists d, max_drawdown_of (first :: rest) = Ok d /\ 0 <= d) /\
  (nondecreasing (first :: rest) -> max_drawdown_of (first :: rest) = Ok 0).
Proof.
  unfold max_drawdown_of.
  change (py_index (first :: rest) 0) with (Ok first). cbn [rbind].
  split.
  - destruct (drawdown_loop_lower_bound (first :: rest) (total_value first) 0)
      as (peak' & md' & -> & Hle).
    exists md'. split; [reflexivity | exact Hle].
  - intros Hs.
    destruct (drawdown_loop_nondecreasing (first :: rest) (total_value first) Hs)
      as (peak' & ->).
    + intros x Hx. injection Hx as <-. lra.
    + reflexivity.
Qed.

(** A rising series has no drawdown. *)
Lemma max_drawdown_bounds_witness :
  max_drawdown_of [snap 100; snap 100; snap 120; snap 150] = Ok 0.
Proof.
  apply (max_drawdown_bounds (snap 100) [snap 100; snap 120; snap 150]).
  repeat constructor; discriminate.
Defined.

(** A series that falls from its peak of 200 to 150: drawdown 25 percent. *)
Example max_drawdown_example :
  exists d, max_drawdown_of [snap 100; snap 200; snap 150; snap 180] = Ok d
            /\ d == 1 # 4.
Proof. eexists. split; [vm_compute; reflexivity | reflexivity]. Qed.

(** ** Value at risk *)

Lemma insert_sorted_perm (x : Q) (xs : list Q) :
  Permutation (insert_sorted x xs) (x :: xs).
Proof.
  induction xs as [|y ys IH]; simpl.
  - reflexivity.
  - destruct (Qle_bool x y).
    + reflexivity.
    + rewrite IH. apply perm_swap.
Qed.

Lemma py_sorted_perm (xs : list Q) : Permutation (py_sorted xs) xs.
Proof.
  induction xs as [|x xs IH]; simpl.
  - reflexivity.
  - rewrite insert_sorted_perm. constructor. exact IH.
Qed.

Lemma insert_sorted_hdrel (a x : Q) (xs : list Q) :
  a <= x -> HdRel Qle a xs -> HdRel Qle a (insert_sorted x xs).
Proof.
  intros Hax Hrel. destruct xs as [|y ys]; simpl.
  - constructor. exact Hax.
  - destruct (Qle_bool x y); constructor.
    + exact Hax.
    + inversion Hrel; assumption.
Qed.

Lemma insert_sorted_sorted (x : Q) (xs : list Q) :
  Sorted Qle xs -> Sorted Qle (insert_sorted x xs).
Proof.
  induction xs as [|y ys IH]; intros Hs; simpl.
  - repeat constructor.
  - destruct (Qle_bool x y) eqn:E.
    + constructor; [exact Hs|]. constructor. apply Qle_bool_iff, E.
    + inversion Hs as [|? ? Hs' Hrel]; subst.
      constructor; [apply IH, Hs'|].
      apply insert_sorted_hdrel; [|exact Hrel].
      destruct (Qlt_le_dec y x) as [H|H]; [lra|].
      apply Qle_bool_iff in H. congruence.
Qed.

Lemma py_sorted_sorted (xs : list Q) : Sorted Qle (py_sorted xs).
Proof.
  induction xs as [|x xs IH]; simpl.
  - constructor.
  - apply insert_sorted_sorted, IH.
Qed.

Lemma py_sorted_length (xs : list Q) : length (py_sorted xs) = length xs.
Proof. apply Permutation_length, py_sorted_perm. Qed.

(* int(n * 0.05) is floor(0.05 * n), that is n / 20 *)
Lemma var_index (n : nat) :
  py_int (inject_Z (Z.of_nat n) * (5 # 100)) = Qfloor ((5 # 100) * inject_Z (Z.of_nat n))
  /\ py_int (inject_Z (Z.of_nat n) * (5 # 100)) = (Z.of_nat n / 20)%Z.
Proof.
  unfold py_int, Qfloor, Qmult, inject_Z. simpl Qnum. simpl Qden.
  rewrite Z.quot_div_nonneg by lia.
  split.
  - f_equal. lia.
  - change (Z.pos (1 * 100)) with (20 * 5)%Z.
    apply Z.div_mul_cancel_r; lia.
Qed.

(** C8.  Value-at-Risk sample threshold.  With fewer than 20 daily returns
    both [var_95] and [var_95_dollar] are exactly 0.  With n >= 20 returns,
    [var_95] is the element at index floor(0.05 * n) of the series sorted in
    ascending order (a sorted permutation of the returns), and
    [var_95_dollar] is [var_95] times the portfolio value. *)
Theorem value_at_risk_threshold (daily_returns : list Q) (portfolio_value : Q) :
  let n := length daily_returns in
  ((n < 20)%nat -> value_at_risk daily_returns portfolio_value = Ok (0, 0)) /\
  ((20 <= n)%nat ->
   exists var_95 ascending,
     value_at_risk daily_returns portfolio_value
       = Ok (var_95, var_95 * portfolio_value) /\
     Permutation ascending daily_returns /\
     Sorted Qle ascending /\
     nth_error ascending
       (Z.to_nat (Qfloor ((5 # 100) * inject_Z (Z.of_nat n)))) = Some var_95).
Proof.
  intros n. unfold value_at_risk. fold n. split; intros Hn.
  - destruct (Nat.leb_spec 20 n); [lia | reflexivity].
  - destruct (Nat.leb_spec 20 n); [|lia].
    destruct (var_index n) as [Hfloor Hdiv].
    rewrite <- Hfloor. rewrite Hdiv.
    assert (Hlt : (Z.to_nat (Z.of_nat n / 20) < length (py_sorted daily_returns))%nat).
    { rewrite py_sorted_length. fold n.
      apply Nat2Z.inj_lt. rewrite Z2Nat.id by (apply Z.div_pos; lia).
      apply Z.div_lt_upper_bound; lia. }
    unfold py_index.
    assert ((Z.of_nat n / 20 <? 0)%Z = false) as ->
      by (apply Z.ltb_ge, Z.div_pos; lia).
    assert ((Z.of_nat n / 20 <? 0)%Z = false) as ->
      by (apply Z.ltb_ge, Z.div_pos; lia).
    destruct (nth_error (py_sorted daily_returns) (Z.to_nat (Z.of_nat n / 20)))
      as [v|] eqn:Hnth.
    + exists v, (py_sorted daily_returns). simpl.
      split; [reflexivity|]. split; [apply py_sorted_perm|].
      split; [apply py_sorted_sorted | exact Hnth].
    + apply nth_error_None in Hnth. lia.
Qed.

(** Twenty returns: index 1 of the sorted series, the second worst day. *)
Lemma value_at_risk_threshold_witness :
  exists var_95 ascending,
    value_at_risk twenty_returns 1250
      = Ok (var_95, var_95 * 1250) /\
    Permutation ascending twenty_returns /\
    Sorted Qle ascending /\
    nth_error ascending
      (Z.to_nat (Qfloor ((5 # 100) * inject_Z (Z.of_nat (length twenty_returns)))))
      = Some var_95.
Proof.
  apply (value_at_risk_threshold twenty_returns 1250). simpl. lia.
Defined.

Example value_at_risk_twenty :
  value_at_risk twenty_returns 1250 = Ok (- (3 # 100), - (3 # 100) * 1250).
Proof. reflexivity. Qed.

Example value_at_risk_nineteen :
  value_at_risk (tl twenty_returns) 1250 = Ok (0, 0).
Proof. reflexivity. Qed.

(** ** Price lookups *)

Lemma cache_ok_empty (today : Z) :
  cache_ok {| TODAY := today; price_cache := ∅ |}.
Proof. intros date pd H. simpl in H. rewrite lookup_empty in H. discriminate. Qed.

Lemma truthy_nonzero (x : Q) : truthy (Some x) = true -> ~ x == 0.
Proof.
  simpl. intros H E. apply Qeq_bool_iff in E. rewrite E in H. discriminate.
Qed.

Lemma price_at_ok (e : env) (g : globals) :
  cache_ok g -> prices_ok (price_at e (price_cache g)).
Proof.
  intros Hc date pd. unfold price_at.
  destruct (price_cache g !! date) as [pd'|] eqn:E.
  - intros [= <-]. eapply Hc, E.
  - destruct (history_api e "bitcoin" date) as [b|]; [|discriminate].
    destruct (history_api e "ethereum" date) as [et|]; [|discriminate].
    destruct (truthy (Some b)) eqn:Hb; [|discriminate].
    destruct (truthy (Some et)) eqn:He; [|discriminate].
    intros [= <-]. split; simpl; apply truthy_nonzero; assumption.
Qed.

Lemma get_price_on_date_spec (e : env) (date : Z) (g : globals) :
  exists g',
    get_price_on_date e date g = (Ok (price_at e (price_cache g) date), g') /\
    TODAY g' = TODAY g /\
    (forall d, price_at e (price_cache g') d = price_at e (price_cache g) d) /\
    (cache_ok g -> cache_ok g').
Proof.
  unfold get_price_on_date, price_at at 1, fetch_price.
  destruct (price_cache g !! date) as [pd|] eqn:E.
  { exists g. auto. }
  destruct (history_api e "bitcoin" date) as [b|] eqn:Eb;
    [|exists g; auto].
  destruct (history_api e "ethereum" date) as [et|] eqn:Ee;
    [|exists g; auto].
  destruct (truthy (Some b) && truthy (Some et)) eqn:Et; [|exists g; auto].
  eexists. split; [reflexivity|]. split; [reflexivity|]. simpl. split.
  - intros d. unfold price_at.
    destruct (decide (date = d)) as [<-|Hne].
    + rewrite lookup_insert_eq, E, Eb, Ee, Et. reflexivity.
    + rewrite lookup_insert_ne by assumption. reflexivity.
  - intros Hc d pd. simpl.
    destruct (decide (date = d)) as [<-|Hne].
    + rewrite lookup_insert_eq. intros [= <-].
      apply andb_prop in Et as [Hb He].
      split; simpl; apply truthy_nonzero; assumption.
    + rewrite lookup_insert_ne by assumption. apply Hc.
Qed.

(** ** The simulator as a pure iteration *)

Lemma interval_of_pos (frequency : string) : (0 < interval_of frequency)%Z.
Proof.
  unfold interval_of.
  repeat match goal with |- context [String.eqb ?a ?b] =>
    destruct (String.eqb a b) end; lia.
Qed.

Lemma credit_advances interval ba ea pd st st' :
  credit interval ba ea pd st = Ok st' ->
  current_date st' = (current_date st + interval)%Z /\
  weeks st' = (weeks st + 1)%Z.
Proof.
  unfold credit.
  destruct (py_div ba (bitcoin pd)); [|discriminate]. simpl.
  destruct (weeks st mod 2 =? 0)%Z.
  - destruct (py_div ea (ethereum pd)); [|discriminate]. simpl.
    intros [= <-]. auto.
  - intros [= <-]. auto.
Qed.

Lemma pure_step_advances P interval ba ea st st' :
  pure_step P interval ba ea st = Ok st' ->
  current_date st' = (current_date st + interval)%Z /\
  weeks st' = (weeks st + 1)%Z.
Proof.
  unfold pure_step. destruct (P (current_date st)).
  - apply credit_advances.
  - intros [= <-]. auto.
Qed.

Section Refinement.
Variables (e : env) (interval : Z) (btc_amount eth_amount : Q).
Variable P : Z -> option price_data.

Lemma simulate_step_pure (st : sim_state) (g : globals) :
  agrees e P g ->
  exists g',
    simulate_step e interval btc_amount eth_amount st g
      = (pure_step P interval btc_amount eth_amount st, g') /\
    TODAY g' = TODAY g /\ agrees e P g' /\ (cache_ok g -> cache_ok g').
Proof.
  intros Hag. unfold simulate_step, bind, pure_step.
  destruct (get_price_on_date_spec e (current_date st) g)
    as (g' & -> & Ht & Hp & Hc).
  rewrite Hag.
  exists g'. split.
  - destruct (P (current_date st)); reflexivity.
  - split; [exact Ht|]. split; [|exact Hc].
    intros d. rewrite Hp. apply Hag.
Qed.

Lemma simulate_loop_steps (m : nat) :
  forall fuel st g,
    (m < fuel)%nat ->
    agrees e P g ->
    (TODAY g < current_date st + Z.of_nat m * interval)%Z ->
    (forall j, (0 <= j < Z.of_nat m)%Z ->
               (current_date st + j * interval <= TODAY g)%Z) ->
    exists g',
      simulate_loop fuel e interval btc_amount eth_amount st g
        = (steps P interval btc_amount eth_amount m st, g') /\
      TODAY g' = TODAY g /\ agrees e P g' /\ (cache_ok g -> cache_ok g').
Proof.
  induction m as [|m IH]; intros fuel st g Hfuel Hag Hstop Hrun;
    (destruct fuel as [|fuel]; [lia|]); simpl; unfold bind, get_TODAY.
  - assert ((current_date st <=? TODAY g)%Z = false) as ->
      by (apply Z.leb_gt; lia).
    exists g. auto.
  - assert ((current_date st <=? TODAY g)%Z = true) as ->.
    { apply Z.leb_le. specialize (Hrun 0%Z). lia. }
    destruct (simulate_step_pure st g Hag) as (g1 & -> & Ht1 & Hag1 & Hc1).
    destruct (pure_step P interval btc_amount eth_amount st) as [st1|ex] eqn:E;
      simpl.
    + apply pure_step_advances in E as [Hd _].
      destruct (IH fuel st1 g1) as (g2 & -> & Ht2 & Hag2 & Hc2).
      * lia.
      * exact Hag1.
      * rewrite Ht1, Hd. lia.
      * intros j Hj. rewrite Ht1, Hd.
        specialize (Hrun (j + 1)%Z). lia.
      * exists g2. split; [reflexivity|]. split; [congruence|]. auto.
    + exists g1. auto.
Qed.
End Refinement.

Lemma periods_fuel (today interval : Z) :
  (0 < interval)%Z -> (periods today interval < sim_fuel today)%nat.
Proof.
  intros Hi. unfold periods, sim_fuel.
  destruct (Z.leb_spec START_DATE today); [|lia].
  assert ((today - START_DATE) / interval <= today - START_DATE)%Z.
  { apply Z.div_le_upper_bound; nia. }
  assert (0 <= (today - START_DATE) / interval)%Z by (apply Z.div_pos; lia).
  lia.
Qed.

Lemma periods_stop (today interval : Z) :
  (0 < interval)%Z ->
  (today < START_DATE + Z.of_nat (periods today interval) * interval)%Z.
Proof.
  intros Hi. unfold periods.
  destruct (Z.leb_spec START_DATE today); [|simpl; lia].
  assert (0 <= (today - START_DATE) / interval)%Z by (apply Z.div_pos; lia).
  rewrite Z2Nat.id by lia.
  pose proof (Z.mul_succ_div_gt (today - START_DATE) interval Hi). lia.
Qed.

Lemma periods_run (today interval j : Z) :
  (0 < interval)%Z ->
  (0 <= j < Z.of_nat (periods today interval))%Z ->
  (START_DATE + j * interval <= today)%Z.
Proof.
  intros Hi. unfold periods.
  destruct (Z.leb_spec START_DATE today); [|simpl; lia].
  assert (0 <= (today - START_DATE) / interval)%Z by (apply Z.div_pos; lia).
  rewrite Z2Nat.id by lia. intros Hj.
  pose proof (Z.mul_div_le (today - START_DATE) interval Hi). nia.
Qed.

(* [simulate_investments] is the pure iteration over the lookups of the
   initial state, and leaves lookups and TODAY as they were *)
Lemma simulate_investments_steps (e : env) (frequency : string)
    (btc_amount eth_amount : Q) (g : globals) :
  exists g',
    simulate_investments e frequency btc_amount eth_amount g
      = (dor st <- steps (price_at e (price_cache g)) (interval_of frequency)
                     btc_amount eth_amount
                     (periods (TODAY g) (interval_of frequency)) sim_init;
         Ok (totals st), g') /\
    TODAY g' = TODAY g /\
    (forall d, price_at e (price_cache g') d = price_at e (price_cache g) d) /\
    (cache_ok g -> cache_ok g').
Proof.
  pose proof (interval_of_pos frequency) as Hi.
  unfold simulate_investments, bind, get_TODAY.
  destruct (simulate_loop_steps e (interval_of frequency) btc_amount eth_amount
              (price_at e (price_cache g))
              (periods (TODAY g) (interval_of frequency))
              (sim_fuel (TODAY g)) sim_init g)
    as (g' & -> & Ht & Hag & Hc).
  - apply periods_fuel, Hi.
  - intros d. reflexivity.
  - apply periods_stop, Hi.
  - intros j Hj. apply periods_run; assumption.
  - exists g'. split.
    + destruct (steps _ _ _ _ _ _); reflexivity.
    + auto.
Qed.

(** ** Accumulated totals *)

Lemma evens_closed (m : nat) :
  forall w, evens w m = ((w + Z.of_nat m + 1) / 2 - (w + 1) / 2)%Z.
Proof.
  induction m as [|m IH]; intros w.
  - cbn [evens]. rewrite Nat2Z.inj_0, Z.add_0_r. lia.
  - cbn [evens]. rewrite IH.
    replace (w + 1 + Z.of_nat m + 1)%Z with (w + Z.of_nat (S m) + 1)%Z by lia.
    destruct (Z.eqb_spec (w mod 2) 0) as [E|E];
      Z.div_mod_to_equations; lia.
Qed.

(* ceil(N / 2) *)
Lemma evens_from_zero (m : nat) :
  evens 0 m = Qceiling (inject_Z (Z.of_nat m) / 2).
Proof.
  rewrite evens_closed.
  unfold Qceiling, Qfloor, Qdiv, Qmult, Qinv, Qopp, inject_Z. simpl.
  rewrite Z.mul_1_r. Z.div_mod_to_equations. lia.
Qed.

Lemma credit_ok interval ba ea pd st :
  nonzero pd ->
  credit interval ba ea pd st =
    Ok (if (weeks st mod 2 =? 0)%Z then
          {| btc_total_usd := btc_total_usd st + DEFAULT_BTC_TOTAL;
             eth_total_usd := eth_total_usd st + DEFAULT_ETH_TOTAL;
             btc_held := btc_held st + ba / bitcoin pd;
             eth_held := eth_held st + ea / ethereum pd;
             current_date := (current_date st + interval)%Z;
             weeks := (weeks st + 1)%Z |}
        else
          {| btc_total_usd := btc_total_usd st + DEFAULT_BTC_TOTAL;
             eth_total_usd := eth_total_usd st;
             btc_held := btc_held st + ba / bitcoin pd;
             eth_held := eth_held st;
             current_date := (current_date st + interval)%Z;
             weeks := (weeks st + 1)%Z |}).
Proof.
  intros [Hb He]. unfold credit.
  rewrite (py_div_ok ba _ Hb). simpl.
  destruct (weeks st mod 2 =? 0)%Z; [|reflexivity].
  rewrite (py_div_ok ea _ He). reflexivity.
Qed.

Section Totals.
Variables (P : Z -> option price_data) (interval : Z).
Variables (btc_amount eth_amount : Q).
Hypothesis P_ok : prices_ok P.

(* skipped steps contribute nothing: the totals after [m] steps are the
   purchases of the steps that had data *)
Lemma steps_data (m : nat) :
  forall st, exists st',
    steps P interval btc_amount eth_amount m st = Ok st' /\
    totals st' =
      fold_left (credit_totals btc_amount eth_amount)
        (data_steps P interval m (current_date st) (weeks st)) (totals st).
Proof.
  induction m as [|m IH]; intros st; simpl.
  - eauto.
  - unfold pure_step.
    destruct (P (current_date st)) as [pd|] eqn:E.
    + rewrite (credit_ok _ _ _ _ _ (P_ok _ _ E)). simpl.
      destruct (weeks st mod 2 =? 0)%Z eqn:Ew;
        match goal with |- context [steps _ _ _ _ m ?s] =>
          destruct (IH s) as (st' & -> & Ht) end;
        exists st'; (split; [reflexivity|]);
        rewrite Ht; reflexivity.
    + simpl. destruct (IH (skip interval st)) as (st' & -> & Ht).
      exists st'. split; [reflexivity | exact Ht].
Qed.

(* with no skipped step, every step buys the primary asset and the even
   ones the secondary asset *)
Lemma steps_no_skip (m : nat) :
  forall st,
    (forall j, (0 <= j < Z.of_nat m)%Z ->
               P (current_date st + j * interval)%Z <> None) ->
    exists st',
      steps P interval btc_amount eth_amount m st = Ok st' /\
      btc_total_usd st' ==
        btc_total_usd st + inject_Z (Z.of_nat m) * DEFAULT_BTC_TOTAL /\
      eth_total_usd st' ==
        eth_total_usd st + inject_Z (evens (weeks st) m) * DEFAULT_ETH_TOTAL.
Proof.
  induction m as [|m IH]; intros st Hdata.
  - exists st. split; [reflexivity|]. simpl. split; ring.
  - cbn [steps]. unfold pure_step.
    destruct (P (current_date st)) as [pd|] eqn:E.
    2:{ exfalso. apply (Hdata 0%Z); [lia|].
        rewrite Z.mul_0_l, Z.add_0_r. exact E. }
    rewrite (credit_ok _ _ _ _ _ (P_ok _ _ E)). cbn [rbind].
    match goal with |- context [steps _ _ _ _ m ?s] =>
      destruct (IH s) as (st' & -> & Hb & He) end.
    { intros j Hj. destruct (weeks st mod 2 =? 0)%Z; simpl;
        replace (current_date st + interval + j * interval)%Z
          with (current_date st + (j + 1) * interval)%Z by lia;
        apply Hdata; lia. }
    exists st'. split; [reflexivity|].
    rewrite Hb, He. cbn [evens].
    rewrite Nat2Z.inj_succ. unfold Z.succ. rewrite !inject_Z_plus.
    destruct (weeks st mod 2 =? 0)%Z; simpl; split; ring.
Qed.

(* closed form of holdings and totals when every step sees the same prices *)
Lemma steps_constant (pd : price_data) (m : nat) :
  forall st,
    (forall j, (0 <= j < Z.of_nat m)%Z ->
               P (current_date st + j * interval)%Z = Some pd) ->
    exists st',
      steps P interval btc_amount eth_amount m st = Ok st' /\
      btc_held st' ==
        btc_held st + inject_Z (Z.of_nat m) * (btc_amount / bitcoin pd) /\
      eth_held st' ==
        eth_held st
        + inject_Z (evens (weeks st) m) * (eth_amount / ethereum pd) /\
      btc_total_usd st' ==
        btc_total_usd st + inject_Z (Z.of_nat m) * DEFAULT_BTC_TOTAL /\
      eth_total_usd st' ==
        eth_total_usd st + inject_Z (evens (weeks st) m) * DEFAULT_ETH_TOTAL.
Proof.
  induction m as [|m IH]; intros st Hdata.
  - exists st. split; [reflexivity|]. simpl. repeat split; ring.
  - cbn [steps]. unfold pure_step.
    assert (E : P (current_date st) = Some pd).
    { rewrite <- (Hdata 0%Z) by lia. f_equal. lia. }
    rewrite E, (credit_ok _ _ _ _ _ (P_ok _ _ E)). cbn [rbind].
    match goal with |- context [steps _ _ _ _ m ?s] =>
      destruct (IH s) as (st' & -> & Hbh & Heh & Hb & He) end.
    { intros j Hj. destruct (weeks st mod 2 =? 0)%Z; simpl;
        replace (current_date st + interval + j * interval)%Z
          with (current_date st + (j + 1) * interval)%Z by lia;
        apply Hdata; lia. }
    exists st'. split; [reflexivity|].
    rewrite Hbh, Heh, Hb, He. cbn [evens].
    rewrite Nat2Z.inj_succ. unfold Z.succ. rewrite !inject_Z_plus.
    destruct (weeks st mod 2 =? 0)%Z; simpl; repeat split; ring.
Qed.
End Totals.

Lemma steps_ext (P P' : Z -> option price_data) (interval : Z) (ba ea : Q)
    (m : nat) :
  forall st,
    (forall j, (0 <= j < Z.of_nat m)%Z ->
               P (current_date st + j * interval)%Z
               = P' (current_date st + j * interval)%Z) ->
    steps P interval ba ea m st = steps P' interval ba ea m st.
Proof.
  induction m as [|m IH]; intros st Hagree; [reflexivity|].
  cbn [steps].
  assert (Hstep : pure_step P interval ba ea st = pure_step P' interval ba ea st).
  { unfold pure_step. specialize (Hagree 0%Z).
    rewrite Z.mul_0_l, Z.add_0_r in Hagree. rewrite Hagree by lia.
    reflexivity. }
  rewrite Hstep.
  destruct (pure_step P' interval ba ea st) as [st1|ex] eqn:E; [|reflexivity].
  cbn [rbind]. apply IH. intros j Hj.
  apply pure_step_advances in E as [-> _].
  replace (current_date st + interval + j * interval)%Z
    with (current_date st + (j + 1) * interval)%Z by lia.
  apply Hagree. lia.
Qed.

(** ** Simulator *)

(** C6, as stated, fails for a run that starts from a cache file holding a
    zero price: the file is loaded unchecked, the lookup of that date
    succeeds, and the division by the cached price raises ZeroDivisionError
    instead of returning the four totals. *)
Lemma simulator_skip_and_totality_counterexample :
  simulate_investments env_offline "weekly" 100 50 globals_zero_price
  = (Raise ZeroDivisionError, globals_zero_price) /\
  ~ always_returns env_offline "weekly" 100 50 globals_zero_price.
Proof.
  assert (Hrun : simulate_investments env_offline "weekly" 100 50
                   globals_zero_price
                 = (Raise ZeroDivisionError, globals_zero_price))
    by (vm_compute; reflexivity).
  split; [exact Hrun|].
  intros (totals & g' & H). rewrite Hrun in H. discriminate.
Qed.

(** C6 (amended).  Simulator skip semantics and totality.  A date lookup
    never raises.  A step whose lookup finds no price data leaves the four
    totals untouched, advances the date by the interval and increments the
    period counter.  From any state whose cached prices are non-zero (true
    of the empty cache and kept by every write of the lookup), the
    simulation returns, and what it returns are the purchases accumulated
    over exactly the steps that had price data. *)
Theorem simulator_skip_and_totality (e : env) (frequency : string)
    (btc_amount eth_amount : Q) (g : globals) :
  (forall date g0, exists r g1, get_price_on_date e date g0 = (Ok r, g1)) /\
  (forall st g0 g1,
     get_price_on_date e (current_date st) g0 = (Ok None, g1) ->
     exists st',
       simulate_step e (interval_of frequency) btc_amount eth_amount st g0
         = (Ok st', g1) /\
       btc_total_usd st' = btc_total_usd st /\
       eth_total_usd st' = eth_total_usd st /\
       btc_held st' = btc_held st /\
       eth_held st' = eth_held st /\
       current_date st' = (current_date st + interval_of frequency)%Z /\
       weeks st' = (weeks st + 1)%Z) /\
  (cache_ok g ->
   exists g',
     simulate_investments e frequency btc_amount eth_amount g
       = (Ok (fold_left (credit_totals btc_amount eth_amount)
                (data_steps (price_at e (price_cache g)) (interval_of frequency)
                   (periods (TODAY g) (interval_of frequency)) START_DATE 0)
                (0, 0, 0, 0)),
          g')).
Proof.
  split; [|split; [|intros Hc]].
  - intros date g0.
    destruct (get_price_on_date_spec e date g0) as (g1 & -> & _). eauto.
  - intros st g0 g1 Hlook. unfold simulate_step, bind. rewrite Hlook.
    exists (skip (interval_of frequency) st). repeat split; reflexivity.
  - destruct (simulate_investments_steps e frequency btc_amount eth_amount g)
      as (g' & -> & _).
    destruct (steps_data (price_at e (price_cache g)) (interval_of frequency)
                btc_amount eth_amount (price_at_ok e g Hc)
                (periods (TODAY g) (interval_of frequency)) sim_init)
      as (st' & -> & Ht).
    exists g'. cbn [rbind]. rewrite Ht. reflexivity.
Qed.

(** Three weekly steps with the middle one skipped. *)
Lemma simulator_skip_and_totality_witness :
  exists g',
    simulate_investments env_gap "weekly" 100 50 globals_gap
      = (Ok (fold_left (credit_totals 100 50)
               (data_steps (price_at env_gap (price_cache globals_gap))
                  (interval_of "weekly")
                  (periods (TODAY globals_gap) (interval_of "weekly"))
                  START_DATE 0)
               (0, 0, 0, 0)),
         g').
Proof.
  apply (proj2 (proj2 (simulator_skip_and_totality env_gap "weekly" 100 50
                         globals_gap))).
  apply cache_ok_empty.
Defined.

(** The same run in numbers: two primary and two secondary purchases. *)
Example simulate_gap :
  fst (simulate_investments env_gap "weekly" 100 50 globals_gap)
  = Ok (0 + 102 + 102, 0 + (518 # 10) + (518 # 10),
        0 + 100 / 50000 + 100 / 50000, 0 + 50 / 3000 + 50 / 3000).
Proof. vm_compute. reflexivity. Qed.

(** C3, as stated, fails when a step is skipped: with price data for the
    second of two weekly periods only, there is one primary purchase (on
    period index 1) and no secondary purchase, not ceil(1/2) = 1. *)
Lemma secondary_cadence_counterexample :
  ~ cadence_as_stated env_late "weekly" 100 50 globals_late.
Proof.
  intros H.
  specialize (H (0 + 102) 0 (0 + 100 / 50000) 0
                {| TODAY := (START_DATE + 7)%Z;
                   price_cache :=
                     <[(START_DATE + 7)%Z :=
                         {| bitcoin := 50000; ethereum := 3000 |}]> ∅ |}).
  assert (Hrun : simulate_investments env_late "weekly" 100 50 globals_late
                 = (Ok (0 + 102, 0, 0 + 100 / 50000, 0),
                    {| TODAY := (START_DATE + 7)%Z;
                       price_cache :=
                         <[(START_DATE + 7)%Z :=
                             {| bitcoin := 50000; ethereum := 3000 |}]> ∅ |}))
    by (vm_compute; reflexivity).
  specialize (H Hrun). vm_compute in H. discriminate.
Qed.

(** C3 (amended).  Secondary-asset cadence.  In a run that starts from a
    cache whose prices are non-zero (true of the empty cache and kept by
    every write of the lookup), on every step the period counter is
    incremented, and a secondary purchase is credited exactly when the step
    has price data and its counter k satisfies k % 2 == 0.
    Consequently, over a span of N periods none of which is skipped for
    missing price data, there are N primary purchases and ceil(N/2) secondary
    purchases. *)
Theorem secondary_cadence (e : env) (frequency : string)
    (btc_amount eth_amount : Q) (g : globals) :
  cache_ok g ->
  let interval := interval_of frequency in
  let N := periods (TODAY g) interval in
  (forall st, exists price_data st' g',
     get_price_on_date e (current_date st) g = (Ok price_data, g') /\
     simulate_step e interval btc_amount eth_amount st g = (Ok st', g') /\
     weeks st' = (weeks st + 1)%Z /\
     match price_data with
     | Some pd =>
         if (weeks st mod 2 =? 0)%Z then
           eth_total_usd st' = eth_total_usd st + DEFAULT_ETH_TOTAL /\
           eth_held st' = eth_held st + eth_amount / ethereum pd
         else
           eth_total_usd st' = eth_total_usd st /\ eth_held st' = eth_held st
     | None =>
         eth_total_usd st' = eth_total_usd st /\ eth_held st' = eth_held st
     end) /\
  ((forall j, (0 <= j < Z.of_nat N)%Z ->
      price_at e (price_cache g) (START_DATE + j * interval)%Z <> None) ->
   exists btc_total eth_total btc eth g',
     simulate_investments e frequency btc_amount eth_amount g
       = (Ok (btc_total, eth_total, btc, eth), g') /\
     primary_purchases btc_total == inject_Z (Z.of_nat N) /\
     secondary_purchases eth_total
     == inject_Z (Qceiling (inject_Z (Z.of_nat N) / 2))).
Proof.
  intros Hc interval N. split.
  - intros st. unfold simulate_step, bind.
    destruct (get_price_on_date_spec e (current_date st) g)
      as (g' & Hlook & _).
    rewrite Hlook.
    destruct (price_at e (price_cache g) (current_date st)) as [pd|] eqn:E.
    + unfold lift.
      rewrite (credit_ok _ _ _ _ _ (price_at_ok e g Hc _ _ E)).
      eexists (Some pd), _, g'. split; [reflexivity|]. split; [reflexivity|].
      destruct (weeks st mod 2 =? 0)%Z; simpl; auto.
    + exists None, (skip interval st), g'. simpl. auto.
  - intros Hdata.
    destruct (simulate_investments_steps e frequency btc_amount eth_amount g)
      as (g' & -> & _).
    fold interval. fold N.
    destruct (steps_no_skip (price_at e (price_cache g)) interval
                btc_amount eth_amount (price_at_ok e g Hc) N sim_init Hdata)
      as (st' & -> & Hb & He).
    exists (btc_total_usd st'), (eth_total_usd st'), (btc_held st'),
      (eth_held st'), g'.
    split; [reflexivity|].
    unfold primary_purchases, secondary_purchases.
    rewrite Hb, He. cbn [sim_init btc_total_usd eth_total_usd weeks].
    rewrite evens_from_zero. split; field; discriminate.
Qed.

(** Three weekly periods with data: 3 primary and ceil(3/2) = 2 secondary
    purchases. *)
Lemma secondary_cadence_witness :
  exists btc_total eth_total btc eth g',
    simulate_investments env_full "weekly" 100 50 globals_three_weeks
      = (Ok (btc_total, eth_total, btc, eth), g') /\
    primary_purchases btc_total == inject_Z 3 /\
    secondary_purchases eth_total == inject_Z (Qceiling (inject_Z 3 / 2)).
Proof.
  apply (secondary_cadence env_full "weekly" 100 50 globals_three_weeks).
  - apply cache_ok_empty.
  - intros j Hj. unfold price_at. simpl. discriminate.
Defined.

(* START_DATE is 2025-01-25, day 20113 of the Unix era *)
Example START_DATE_value : START_DATE = 20113%Z.
Proof. reflexivity. Qed.

(** C1.  End-to-end scenario.  Start date 2025-01-25, weekly frequency,
    amounts 100 and 50 (gross costs 102 and 51.8), TODAY such that the loop
    makes 10 weekly steps, each finding prices 50000 and 3000: the simulator
    returns primary_held = 0.02, primary_invested = 1020,
    secondary_held = 5 * (50 / 3000), secondary_invested = 259.  With an empty
    manual ledger and the same spot prices, [portfolio] reports total
    invested 1279, total value 1250, profit_loss -29 and a percent change of
    -2900/1279, which it rounds to -2.27. *)
Theorem end_to_end_scenario (e : env) (g : globals) :
  (START_DATE + 63 <= TODAY g < START_DATE + 70)%Z ->
  (forall j, (0 <= j < 10)%Z ->
     price_at e (price_cache g) (START_DATE + j * 7)%Z = Some scenario_prices) ->
  manual_transactions e = [] ->
  get_current_prices_cached e = scenario_prices ->
  exists btc_invested eth_invested btc eth g1 v g2,
    simulate_investments e "weekly" 100 50 g
      = (Ok (btc_invested, eth_invested, btc, eth), g1) /\
    btc == 2 # 100 /\ btc_invested == 1020 /\
    eth == 5 * (50 / 3000) /\ eth_invested == 259 /\
    portfolio_values btc_invested eth_invested btc eth scenario_prices = Ok v /\
    p_total_invested v == 1279 /\ p_total_value v == 1250 /\
    p_profit_loss v == - 29 /\
    p_total_percent_change v == - (2900 # 1279) /\
    portfolio e "weekly" g = (Ok (Jsonify (portfolio_json v) 200), g2) /\
    p_total_percent_change (portfolio_json v) == - (227 # 100).
Proof.
  intros Htoday Hprices Hledger Hspot.
  destruct (simulate_investments_steps e "weekly" 100 50 g) as (g1 & Hrun & _).
  assert (Hperiods : periods (TODAY g) (interval_of "weekly") = 10%nat).
  { unfold periods. change (interval_of "weekly") with 7%Z.
    destruct (Z.leb_spec START_DATE (TODAY g)); [|lia].
    assert ((TODAY g - START_DATE) / 7 = 9)%Z as ->
      by (Z.div_mod_to_equations; lia).
    reflexivity. }
  rewrite Hperiods in Hrun. change (interval_of "weekly") with 7%Z in Hrun.
  rewrite (steps_ext _ (fun _ => Some scenario_prices)) in Hrun.
  2:{ intros j Hj. apply Hprices. simpl in Hj. lia. }
  set (st := steps (fun _ => Some scenario_prices) 7 100 50 10 sim_init) in Hrun.
  vm_compute in st. subst st. unfold totals in Hrun.
  cbn [rbind btc_total_usd eth_total_usd btc_held eth_held] in Hrun.
  do 4 eexists. exists g1. do 2 eexists.
  split; [exact Hrun|].
  do 4 (split; [reflexivity|]).
  split; [vm_compute; reflexivity|].
  do 4 (split; [reflexivity|]).
  split; [|reflexivity].
  unfold portfolio, catch, portfolio_body, bind.
  change DEFAULT_BTC_INVEST with 100. change DEFAULT_ETH_INVEST with 50.
  rewrite Hrun. unfold apply_manual_transactions. rewrite Hledger, Hspot.
  cbn [fold_left]. unfold lift.
  match goal with |- context [portfolio_values ?a ?b ?c ?d ?p] =>
    let r := eval vm_compute in (portfolio_values a b c d p) in
    change (portfolio_values a b c d p) with r end.
  reflexivity.
Qed.

(** The scenario on 2025-03-31 with the ten weeks cached, CoinGecko
    unreachable and the fallback spot prices. *)
Lemma end_to_end_scenario_witness :
  exists btc_invested eth_invested btc eth g1 v g2,
    simulate_investments env_offline "weekly" 100 50 globals_ten_weeks
      = (Ok (btc_invested, eth_invested, btc, eth), g1) /\
    btc == 2 # 100 /\ btc_invested == 1020 /\
    eth == 5 * (50 / 3000) /\ eth_invested == 259 /\
    portfolio_values btc_invested eth_invested btc eth scenario_prices = Ok v /\
    p_total_invested v == 1279 /\ p_total_value v == 1250 /\
    p_profit_loss v == - 29 /\
    p_total_percent_change v == - (2900 # 1279) /\
    portfolio env_offline "weekly" globals_ten_weeks
      = (Ok (Jsonify (portfolio_json v) 200), g2) /\
    p_total_percent_change (portfolio_json v) == - (227 # 100).
Proof.
  apply (end_to_end_scenario env_offline globals_ten_weeks).
  - vm_compute. split; [discriminate | reflexivity].
  - intros j Hj.
    assert (j = 0 \/ j = 1 \/ j = 2 \/ j = 3 \/ j = 4 \/ j = 5 \/ j = 6
            \/ j = 7 \/ j = 8 \/ j = 9)%Z as Hcases by lia.
    repeat (destruct Hcases as [->|Hcases]; [vm_compute; reflexivity|]).
    subst j. vm_compute. reflexivity.
  - reflexivity.
  - reflexivity.
Defined.

(** ** The analytics endpoints *)

Lemma generate_portfolio_history_unbound :
  existsb (String.eqb "generate_portfolio_history") app_namespace = false.
Proof. reflexivity. Qed.

Lemma load_global_unbound (g : globals) :
  load_global "generate_portfolio_history" g
  = (Raise (NameError "generate_portfolio_history"), g).
Proof. reflexivity. Qed.

(** C10, as stated, fails for /analytics/portfolio-metrics when the spot
    price request fails: [get_current_prices] returns None, and subscripting
    it raises TypeError before [generate_portfolio_history] is looked up. *)
Lemma analytics_endpoints_counterexample :
  ~ raises_name_error env_offline (fun _ => ret []) globals_ten_weeks.
Proof.
  intros [g' H].
  assert (Hrun : fst (get_portfolio_metrics_body env_offline (fun _ => ret [])
                        globals_ten_weeks) = Raise TypeError)
    by (vm_compute; reflexivity).
  rewrite H in Hrun. discriminate.
Qed.

(** C10 (amended).  [generate_portfolio_history] is bound nowhere in app.py.
    For every request, /analytics/benchmarks raises NameError, caught by the
    top-level except and answered with HTTP 500.  For every request,
    /analytics/portfolio-metrics also ends in the top-level except and
    answers HTTP 500: the exception is NameError when the simulation and the
    spot price request before the call succeed, and otherwise the exception
    of the earlier failure (TypeError when the spot price request fails).
    Neither endpoint ever returns a success response, whatever object the
    missing name might have denoted. *)
Theorem analytics_endpoints_always_fail (e : env)
    (generate_portfolio_history : Z -> M (list snapshot)) (g : globals) :
  existsb (String.eqb "generate_portfolio_history") app_namespace = false /\
  get_benchmark_comparison_body generate_portfolio_history g
    = (Raise (NameError "generate_portfolio_history"), g) /\
  get_benchmark_comparison generate_portfolio_history g
    = (Ok (JsonError (Failure "Benchmark calculation failed: "
                        (NameError "generate_portfolio_history")) 500), g) /\
  exists g',
    get_portfolio_metrics_body e generate_portfolio_history g
      = (Raise (portfolio_metrics_failure e g), g') /\
    get_portfolio_metrics e generate_portfolio_history g
      = (Ok (JsonError (Failure "Analytics calculation failed: "
                          (portfolio_metrics_failure e g)) 500), g').
Proof.
  split; [reflexivity|]. split; [reflexivity|]. split; [reflexivity|].
  unfold get_portfolio_metrics, catch, get_portfolio_metrics_body, bind,
    portfolio_metrics_failure.
  destruct (simulate_investments e "weekly" DEFAULT_BTC_INVEST
              DEFAULT_ETH_INVEST g) as [[[[[bi ei] bh] eh]|ex] g1]; simpl.
  2:{ exists g1. split; reflexivity. }
  destruct (apply_manual_transactions e bh eh bi ei) as [[[bh' eh'] bi'] ei'].
  destruct (get_current_prices e) as [cp|].
  2:{ exists g1. split; reflexivity. }
  unfold lift, portfolio_summary_of.
  destruct (percent_of_total
              (bh' * bitcoin cp + eh' * ethereum cp - (bi' + ei')) (bi' + ei'))
    as [q ->].
  simpl. exists g1. split; reflexivity.
Qed.

(** With CoinGecko answering, the exception is the NameError. *)
Example portfolio_metrics_name_error :
  portfolio_metrics_failure
    {| history_api := fun _ _ => None; spot_api := Some scenario_prices;
       cached_spot := None; now := (START_DATE + 65)%Z;
       manual_transactions := []; float_pow := fun x _ => x;
       float_sqrt := fun x => x |}
    globals_ten_weeks
  = NameError "generate_portfolio_history".
Proof. vm_compute. reflexivity. Qed.

(** ** Division safety *)

Lemma rpost_total {A} (r : result A) : (exists a, r = Ok a) -> rpost any r.
Proof. intros [a ->]. exact I. Qed.

Lemma rpost_any {A} (Q : A -> Prop) (r : result A) : rpost Q r -> rpost any r.
Proof. destruct r; simpl; [intros _; exact I | auto]. Qed.

Lemma rpost_bind {A B} (Q : A -> Prop) (R : B -> Prop) (r : result A)
    (f : A -> result B) :
  rpost Q r -> (forall a, Q a -> rpost R (f a)) -> rpost R (rbind r f).
Proof. destruct r; simpl; auto. Qed.

Lemma rpost_no_zero_division {A} (Q : A -> Prop) (r : result A) :
  rpost Q r -> r <> Raise ZeroDivisionError.
Proof. destruct r; simpl; congruence. Qed.

Lemma py_div_safe (a b : Q) : ~ b == 0 -> rpost any (py_div a b).
Proof. intros H. rewrite py_div_ok by assumption. exact I. Qed.

Lemma ratio_of_safe (num den : Q) : rpost any (ratio_of num den).
Proof. apply rpost_total, ratio_of_total. Qed.

Lemma percent_of_safe (num den : Q) : rpost any (percent_of num den).
Proof. apply rpost_total, percent_of_total. Qed.

Lemma mpost_ret {A} (Q : A -> Prop) (a : A) : Q a -> mpost Q (ret a).
Proof. intros H g Hc. split; [exact H | exact Hc]. Qed.

Lemma mpost_raise {A} (Q : A -> Prop) (ex : exn) :
  ex <> ZeroDivisionError -> mpost Q (raise ex).
Proof. intros H g Hc. split; [exact H | exact Hc]. Qed.

Lemma mpost_lift {A} (Q : A -> Prop) (r : result A) : rpost Q r -> mpost Q (lift r).
Proof. intros H g Hc. split; [exact H | exact Hc]. Qed.

Lemma mpost_bind {A B} (Q : A -> Prop) (R : B -> Prop) (m : M A)
    (f : A -> M B) :
  mpost Q m -> (forall a, Q a -> mpost R (f a)) -> mpost R (bind m f).
Proof.
  intros Hm Hf g Hc. unfold bind.
  destruct (Hm g Hc) as [Hr Hc']. destruct (m g) as [[a|ex] g']; simpl in *.
  - apply Hf; assumption.
  - auto.
Qed.

Lemma mpost_catch {A} (Q : A -> Prop) (m : M A) (h : exn -> M A) :
  mpost Q m -> (forall ex, ex <> ZeroDivisionError -> mpost Q (h ex)) ->
  mpost Q (catch m h).
Proof.
  intros Hm Hh g Hc. unfold catch.
  destruct (Hm g Hc) as [Hr Hc']. destruct (m g) as [[a|ex] g']; simpl in *.
  - auto.
  - apply Hh; assumption.
Qed.

Lemma mpost_any {A} (Q : A -> Prop) (m : M A) : mpost Q m -> mpost any m.
Proof.
  intros Hm g Hc. destruct (Hm g Hc) as [Hr Hc'].
  split; [eapply rpost_any, Hr | exact Hc'].
Qed.

Lemma get_TODAY_safe : mpost any get_TODAY.
Proof. intros g Hc. split; [exact I | exact Hc]. Qed.

Lemma set_TODAY_safe (d : Z) : mpost any (set_TODAY d).
Proof. intros g Hc. split; [exact I | exact Hc]. Qed.

Lemma get_price_on_date_safe (e : env) (date : Z) :
  mpost (fun r => forall pd, r = Some pd -> nonzero pd)
        (get_price_on_date e date).
Proof.
  intros g Hc.
  destruct (get_price_on_date_spec e date g) as (g' & -> & _ & _ & Hc').
  split; [|auto]. simpl. intros pd. apply (price_at_ok e g Hc).
Qed.

Lemma simulate_investments_safe (e : env) (frequency : string)
    (btc_amount eth_amount : Q) :
  mpost any (simulate_investments e frequency btc_amount eth_amount).
Proof.
  intros g Hc.
  destruct (simulate_investments_steps e frequency btc_amount eth_amount g)
    as (g' & -> & _ & _ & Hc').
  destruct (steps_data (price_at e (price_cache g)) (interval_of frequency)
              btc_amount eth_amount (price_at_ok e g Hc)
              (periods (TODAY g) (interval_of frequency)) sim_init)
    as (st' & -> & _).
  split; [exact I | auto].
Qed.

Lemma portfolio_body_safe (e : env) (frequency : string) :
  mpost any (portfolio_body e frequency).
Proof.
  unfold portfolio_body.
  eapply mpost_bind; [apply simulate_investments_safe|].
  intros [[[bi ei] bh] eh] _.
  destruct (apply_manual_transactions e bh eh bi ei) as [[[bh' eh'] bi'] ei'].
  eapply mpost_bind with (Q := any).
  - apply mpost_lift, rpost_total.
    destruct (portfolio_values_ok bi' ei' bh' eh' (get_current_prices_cached e))
      as (v & Hv & _). eauto.
  - intros v _. apply mpost_ret. exact I.
Qed.

Lemma fromisoformat_safe (d : date_text) : rpost any (fromisoformat d).
Proof. destruct d; simpl; [exact I | discriminate | discriminate]. Qed.

Lemma buy_transactions_before_safe (transactions : list transaction)
    (coin : string) (sell_date : Z) :
  rpost any (buy_transactions_before transactions coin sell_date).
Proof.
  induction transactions as [|tx rest IH]; [exact I|].
  cbn [buy_transactions_before].
  eapply rpost_bind with (Q := any).
  - unfold is_buy_before.
    destruct (String.eqb (tx_coin tx) coin && String.eqb (tx_kind tx) "buy");
      [|exact I].
    eapply rpost_bind; [apply fromisoformat_safe|]. intros; exact I.
  - intros keep _. eapply rpost_bind; [exact IH|]. intros; exact I.
Qed.

Lemma calculate_transaction_profit_loss_safe (e : env) (sell_tx : transaction) :
  rpost any (calculate_transaction_profit_loss_body e sell_tx).
Proof.
  unfold calculate_transaction_profit_loss_body.
  eapply rpost_bind with (Q := any); [apply fromisoformat_safe|].
  intros sell_date _.
  eapply rpost_bind with (Q := any); [apply buy_transactions_before_safe|].
  intros buy_transactions _.
  destruct (Qeq_bool _ 0) eqn:E; [exact I|].
  eapply rpost_bind with (Q := any).
  - apply py_div_safe. intros H. apply Qeq_bool_iff in H. congruence.
  - intros w _. eapply rpost_bind; [apply percent_of_safe|].
    intros q _. exact I.
Qed.

Lemma weekly_step_safe (e : env) (ws : weekly_state) :
  mpost any (weekly_step e ws).
Proof.
  unfold weekly_step.
  eapply mpost_bind; [apply get_TODAY_safe|]. intros today _.
  eapply mpost_bind; [apply set_TODAY_safe|]. intros _ _.
  eapply mpost_bind; [apply simulate_investments_safe|].
  intros [[[bi ei] bh] eh] _.
  destruct (apply_manual_transactions e bh eh bi ei) as [[[bh' eh'] bi'] ei'].
  eapply mpost_bind; [apply get_price_on_date_safe|].
  intros [pd|] _; [|apply mpost_ret; exact I].
  eapply mpost_bind with (Q := any); [|intros; apply mpost_ret; exact I].
  apply mpost_lift.
  destruct (previous_value ws) as [pv|]; [|exact I].
  destruct (negb (Qeq_bool pv 0)) eqn:Hnz; [|exact I].
  destruct (Qltb 0 pv); [|exact I]. simpl.
  eapply rpost_bind with (Q := any); [|intros; exact I].
  apply py_div_safe. intros H. apply Qeq_bool_iff in H.
  rewrite H in Hnz. discriminate.
Qed.

Lemma weekly_loop_safe (e : env) (fuel : nat) :
  forall ws, mpost any (weekly_loop fuel e ws).
Proof.
  induction fuel as [|fuel IH]; intros ws; simpl.
  - apply mpost_raise. discriminate.
  - destruct (wk_current_date ws <=? now e)%Z.
    + eapply mpost_bind; [apply weekly_step_safe|]. intros ws' _. apply IH.
    + apply mpost_ret. exact I.
Qed.

Lemma calculate_weekly_performance_body_safe (e : env) :
  mpost any (calculate_weekly_performance_body e).
Proof.
  unfold calculate_weekly_performance_body.
  eapply mpost_bind; [apply weekly_loop_safe|]. intros ws _.
  destruct (temp_today ws).
  - eapply mpost_bind; [apply set_TODAY_safe|]. intros. apply mpost_ret. exact I.
  - apply mpost_raise. discriminate.
Qed.

Lemma calculate_weekly_performance_safe (e : env) :
  mpost any (calculate_weekly_performance e).
Proof.
  apply mpost_catch.
  - apply calculate_weekly_performance_body_safe.
  - intros. apply mpost_ret. exact I.
Qed.

Lemma dca_vs_lump_sum_safe (v : performance_locals)
    (start_prices : option price_data) (current_prices : price_data) :
  (forall pd, start_prices = Some pd -> nonzero pd) ->
  rpost any (dca_vs_lump_sum_of v start_prices current_prices).
Proof.
  intros Hnz. unfold dca_vs_lump_sum_of.
  destruct start_prices as [sp|]; [|exact I].
  destruct (Hnz sp eq_refl) as [Hb He].
  eapply rpost_bind; [apply py_div_safe, Hb|]. intros lb _.
  eapply rpost_bind; [apply py_div_safe, He|]. intros le _.
  apply percent_of_safe.
Qed.

Lemma weeks_invested_nonzero (days : Z) : (0 < days)%Z -> ~ inject_Z days / 7 == 0.
Proof.
  intros Hd H.
  assert (0 < inject_Z days).
  { change 0 with (inject_Z 0). rewrite <- Zlt_Qlt. exact Hd. }
  assert (0 < inject_Z days / 7) by (apply Qlt_shift_div_l; lra).
  lra.
Qed.

Lemma performance_dict_safe (v : performance_locals)
    (btc_invested eth_invested btc_held eth_held : Q)
    (current_prices : price_data) (dca : Q) (best worst : option weekly_point) :
  rpost any (performance_dict v btc_invested eth_invested btc_held eth_held
               current_prices dca best worst).
Proof.
  unfold performance_dict.
  eapply rpost_bind with (Q := any).
  { destruct (annualized_return v); simpl; [exact I | discriminate]. }
  intros ann _.
  eapply rpost_bind with (Q := any); [|intros; exact I].
  destruct (Z.ltb_spec 0 (days_invested v)); [|exact I].
  eapply rpost_bind with (Q := any); [|intros; exact I].
  apply py_div_safe, weeks_invested_nonzero. assumption.
Qed.

Lemma calculate_performance_metrics_body_safe (e : env) :
  mpost any (calculate_performance_metrics_body e).
Proof.
  unfold calculate_performance_metrics_body.
  eapply mpost_bind; [apply simulate_investments_safe|].
  intros [[[bi ei] bh] eh] _.
  destruct (apply_manual_transactions e bh eh bi ei) as [[[bh' eh'] bi'] ei'].
  destruct (get_current_prices e) as [cp|]; [|apply mpost_ret; exact I].
  eapply mpost_bind with (Q := any).
  { apply mpost_lift, rpost_total.
    destruct (performance_values_ok e bi' ei' bh' eh' cp) as (w & Hw & _).
    eauto. }
  intros v _.
  eapply mpost_bind; [apply get_price_on_date_safe|]. intros start_prices Hsp.
  eapply mpost_bind with (Q := any).
  { apply mpost_lift, dca_vs_lump_sum_safe, Hsp. }
  intros dca _.
  eapply mpost_bind with (Q := any).
  { apply mpost_catch.
    - eapply mpost_bind; [apply calculate_weekly_performance_safe|].
      intros. apply mpost_ret. exact I.
    - intros. apply mpost_ret. exact I. }
  intros [best worst] _.
  eapply mpost_bind with (Q := any).
  { apply mpost_lift, performance_dict_safe. }
  intros. apply mpost_ret. exact I.
Qed.

Lemma daily_returns_safe (history : list snapshot) :
  rpost any (daily_returns_of history).
Proof.
  induction history as [|prev rest IH]; [exact I|].
  destruct rest as [|curr rest']; [exact I|].
  cbn [daily_returns_of].
  destruct (Qltb 0 (total_value prev)) eqn:E; [|exact IH].
  apply Qltb_lt in E. rewrite py_div_pos by assumption. cbn [rbind].
  eapply rpost_bind; [exact IH|]. intros; exact I.
Qed.

Lemma length_nonzero (n : nat) : (0 < n)%nat -> ~ inject_Z (Z.of_nat n) == 0.
Proof.
  intros Hn H. unfold Qeq in H. simpl in H. lia.
Qed.

Lemma statistics_mean_safe (xs : list Q) : rpost any (statistics_mean xs).
Proof.
  destruct xs as [|x xs]; [simpl; discriminate|].
  unfold statistics_mean. apply py_div_safe, length_nonzero. simpl. lia.
Qed.

Lemma statistics_stdev_safe (e : env) (xs : list Q) :
  rpost any (statistics_stdev e xs).
Proof.
  unfold statistics_stdev.
  destruct (Nat.ltb_spec (length xs) 2); [simpl; discriminate|].
  eapply rpost_bind; [apply statistics_mean_safe|]. intros m _.
  eapply rpost_bind with (Q := any); [|intros; exact I].
  apply py_div_safe. intros E. unfold Qeq in E. simpl in E. lia.
Qed.

Lemma py_index_safe {A} (xs : list A) (i : Z) : rpost any (py_index xs i).
Proof.
  unfold py_index.
  destruct (_ <? 0)%Z; [simpl; discriminate|].
  destruct (nth_error xs _); [exact I | simpl; discriminate].
Qed.

Lemma max_drawdown_safe (history : list snapshot) :
  rpost any (max_drawdown_of history).
Proof.
  unfold max_drawdown_of.
  eapply rpost_bind; [apply py_index_safe|]. intros first _.
  destruct (drawdown_loop_lower_bound history (total_value first) 0)
    as (peak' & md' & -> & _).
  exact I.
Qed.

Lemma value_at_risk_safe (daily_returns : list Q) (portfolio_value : Q) :
  rpost any (value_at_risk daily_returns portfolio_value).
Proof.
  unfold value_at_risk. destruct (20 <=? length daily_returns)%nat; [|exact I].
  eapply rpost_bind; [apply py_index_safe|]. intros; exact I.
Qed.

Lemma risk_analytics_safe (e : env) (portfolio_data : portfolio_summary)
    (history : list snapshot) :
  rpost any (risk_analytics e portfolio_data history).
Proof.
  unfold risk_analytics.
  destruct history as [|h0 history']; [exact I|].
  destruct (length (h0 :: history') <? 2)%nat; [exact I|].
  eapply rpost_bind; [apply daily_returns_safe|]. intros daily_returns _.
  destruct daily_returns as [|r0 rs]; [exact I|].
  eapply rpost_bind with (Q := any).
  { destruct (0 <? length (r0 :: rs))%nat; [apply statistics_mean_safe | exact I]. }
  intros avg _.
  eapply rpost_bind with (Q := any).
  { destruct (1 <? length (r0 :: rs))%nat; [apply statistics_stdev_safe | exact I]. }
  intros vol _.
  eapply rpost_bind; [apply ratio_of_safe|]. intros sharpe _.
  eapply rpost_bind; [apply max_drawdown_safe|]. intros mdd _.
  eapply rpost_bind; [apply ratio_of_safe|]. intros ba _.
  eapply rpost_bind; [apply ratio_of_safe|]. intros ea _.
  eapply rpost_bind; [apply value_at_risk_safe|]. intros [v95 v95d] _.
  exact I.
Qed.

Lemma benchmark_comparison_safe (history : list snapshot) :
  rpost any (benchmark_comparison history).
Proof.
  unfold benchmark_comparison.
  destruct history as [|h0 history']; [exact I|].
  destruct (length (h0 :: history') <? 2)%nat; [exact I|].
  eapply rpost_bind; [apply py_index_safe|]. intros first _.
  eapply rpost_bind; [apply py_index_safe|]. intros last _.
  unfold return_of.
  eapply rpost_bind; [apply ratio_of_safe|]. intros pr _.
  eapply rpost_bind; [apply ratio_of_safe|]. intros br _.
  eapply rpost_bind; [apply ratio_of_safe|]. intros er _.
  exact I.
Qed.

Lemma mpost_no_zero_division {A} (Q : A -> Prop) (m : M A) (g : globals) :
  mpost Q m -> cache_ok g -> no_zero_division m g.
Proof.
  intros Hm Hc. destruct (Hm g Hc) as [Hr Hc'].
  split; [eapply rpost_no_zero_division, Hr | exact Hc'].
Qed.

(** C9.  No division by zero in the analytics computations.  From any state
    whose cached prices are non-zero (a price fetched from the adapter is
    cached and used only when it is non-zero), none of the simulator, the
    valuator, the weekly and overall performance metrics, the risk analytics,
    the benchmark comparison and the realized P&L raises ZeroDivisionError:
    every division in them has a denominator that is a non-zero price or is
    protected by a guard on that denominator.  Each of them also keeps the
    cache free of zero prices, so the property holds for every later call. *)
Theorem no_division_by_zero (e : env) (g : globals) :
  cache_ok g ->
  (forall frequency btc_amount eth_amount,
     no_zero_division (simulate_investments e frequency btc_amount eth_amount) g) /\
  (forall frequency, no_zero_division (portfolio_body e frequency) g) /\
  no_zero_division (calculate_weekly_performance_body e) g /\
  no_zero_division (calculate_performance_metrics_body e) g /\
  (forall portfolio_data history,
     risk_analytics e portfolio_data history <> Raise ZeroDivisionError) /\
  (forall history, benchmark_comparison history <> Raise ZeroDivisionError) /\
  (forall sell_tx,
     calculate_transaction_profit_loss_body e sell_tx <> Raise ZeroDivisionError).
Proof.
  intros Hc.
  split; [intros; eapply mpost_no_zero_division;
          [apply simulate_investments_safe | exact Hc]|].
  split; [intros; eapply mpost_no_zero_division;
          [apply portfolio_body_safe | exact Hc]|].
  split; [eapply mpost_no_zero_division;
          [apply calculate_weekly_performance_body_safe | exact Hc]|].
  split; [eapply mpost_no_zero_division;
          [apply calculate_performance_metrics_body_safe | exact Hc]|].
  split; [intros; eapply rpost_no_zero_division, risk_analytics_safe|].
  split; [intros; eapply rpost_no_zero_division, benchmark_comparison_safe|].
  intros. eapply rpost_no_zero_division, calculate_transaction_profit_loss_safe.
Qed.

(** Without the precondition the division by the cached price does raise. *)
Example simulate_zero_price :
  fst (simulate_investments env_offline "weekly" 100 50 globals_zero_price)
  = Raise ZeroDivisionError.
Proof. vm_compute. reflexivity. Qed.

(** The property on the ten cached weeks of the end-to-end scenario. *)
Lemma no_division_by_zero_witness :
  no_zero_division (calculate_performance_metrics_body env_offline)
    globals_ten_weeks.
Proof.
  apply (no_division_by_zero env_offline globals_ten_weeks).
  intros date pd H.
  assert (pd = scenario_prices) as ->.
  { unfold globals_ten_weeks, price_cache, ten_weeks_cache in H.
    apply elem_of_list_to_map_2 in H.
    cbn [map] in H.
    repeat (apply elem_of_cons in H as [H|H]; [congruence|]).
    apply elem_of_nil in H. contradiction. }
  split; discriminate.
Defined.

(** ** Termination of the loops *)

Lemma py_div_raises (a b : Q) (ex : exn) :
  py_div a b = Raise ex -> ex = ZeroDivisionError.
Proof. unfold py_div. destruct (Qeq_bool b 0); congruence. Qed.

Lemma credit_raises interval ba ea pd st ex :
  credit interval ba ea pd st = Raise ex -> ex = ZeroDivisionError.
Proof.
  unfold credit.
  destruct (py_div ba (bitcoin pd)) eqn:Eb; simpl.
  - destruct (weeks st mod 2 =? 0)%Z; [|discriminate].
    destruct (py_div ea (ethereum pd)) eqn:Ee; simpl; [discriminate|].
    intros [= <-]. eapply py_div_raises, Ee.
  - intros [= <-]. eapply py_div_raises, Eb.
Qed.

Lemma steps_raises P interval ba ea (m : nat) :
  forall st ex,
    steps P interval ba ea m st = Raise ex -> ex = ZeroDivisionError.
Proof.
  induction m as [|m IH]; intros st ex; simpl; [discriminate|].
  destruct (pure_step P interval ba ea st) as [st1|ex1] eqn:E; simpl.
  - apply IH.
  - intros [= <-]. unfold pure_step in E.
    destruct (P (current_date st)); [|discriminate].
    eapply credit_raises, E.
Qed.

(* the simulator loop never runs out of fuel: its only exception is the
   division by a zero price *)
Lemma simulate_investments_raises (e : env) (frequency : string)
    (btc_amount eth_amount : Q) (g : globals) (ex : exn) :
  fst (simulate_investments e frequency btc_amount eth_amount g) = Raise ex ->
  ex = ZeroDivisionError.
Proof.
  destruct (simulate_investments_steps e frequency btc_amount eth_amount g)
    as (g' & -> & _).
  simpl.
  destruct (steps _ _ _ _ _ _) as [st|ex1] eqn:E; simpl; [discriminate|].
  intros [= <-]. eapply steps_raises, E.
Qed.

Lemma weekly_step_outcome (e : env) (ws : weekly_state) (g : globals) :
  match fst (weekly_step e ws g) with
  | Ok ws' => wk_current_date ws' = (wk_current_date ws + 7)%Z
  | Raise ex => ex = ZeroDivisionError
  end.
Proof.
  unfold weekly_step, bind, get_TODAY, set_TODAY.
  pose proof (simulate_investments_raises e "weekly" DEFAULT_BTC_INVEST
                DEFAULT_ETH_INVEST
                {| TODAY := wk_current_date ws; price_cache := price_cache g |})
    as Hsim.
  destruct (simulate_investments e "weekly" DEFAULT_BTC_INVEST
              DEFAULT_ETH_INVEST _) as [[[[[bi ei] bh] eh]|ex] g1];
    [|simpl; apply Hsim; reflexivity].
  destruct (apply_manual_transactions e bh eh bi ei) as [[[bh' eh'] bi'] ei'].
  destruct (get_price_on_date_spec e (wk_current_date ws) g1) as (g2 & -> & _).
  destruct (price_at e (price_cache g1) (wk_current_date ws)) as [pd|];
    [|reflexivity].
  unfold lift.
  destruct (previous_value ws) as [pv|]; [|reflexivity].
  destruct (negb (Qeq_bool pv 0) && Qltb 0 pv); [|reflexivity].
  destruct (py_div _ pv) eqn:E; simpl; [reflexivity|].
  eapply py_div_raises, E.
Qed.

Lemma weekly_loop_fuel (e : env) (fuel : nat) :
  forall ws g,
    (Z.to_nat (now e - wk_current_date ws + 1) < fuel)%nat ->
    fst (weekly_loop fuel e ws g) <> Raise FuelExhausted.
Proof.
  induction fuel as [|fuel IH]; intros ws g Hfuel; [lia|].
  simpl. destruct (Z.leb_spec (wk_current_date ws) (now e)); [|discriminate].
  unfold bind. pose proof (weekly_step_outcome e ws g) as Hstep.
  destruct (weekly_step e ws g) as [[ws'|ex] g']; simpl in Hstep.
  - apply IH. rewrite Hstep. lia.
  - subst ex. discriminate.
Qed.

(* [calculate_weekly_performance] never runs out of fuel either *)
Lemma calculate_weekly_performance_fuel (e : env) (g : globals) :
  fst (calculate_weekly_performance_body e g) <> Raise FuelExhausted.
Proof.
  unfold calculate_weekly_performance_body, bind.
  pose proof (weekly_loop_fuel e (sim_fuel (now e))
                {| performance_data := []; wk_current_date := START_DATE;
                   previous_value := None; temp_today := None |} g) as Hloop.
  destruct (weekly_loop _ _ _ _) as [[ws|ex] g']; simpl in *.
  - destruct (temp_today ws); discriminate.
  - intros [= ->]. apply Hloop; [unfold sim_fuel; lia | reflexivity].
Qed.

(** * Further properties *)

(** ** The price cache *)

Lemma preserves_ret {A} (I : globals -> Prop) (a : A) : preserves I (ret a).
Proof. intros g H. exact H. Qed.

Lemma preserves_lift {A} (I : globals -> Prop) (r : result A) :
  preserves I (lift r).
Proof. intros g H. exact H. Qed.

Lemma preserves_raise {A} (I : globals -> Prop) (ex : exn) :
  preserves I (@raise A ex).
Proof. intros g H. exact H. Qed.

Lemma preserves_bind {A B} (I : globals -> Prop) (m : M A) (f : A -> M B) :
  preserves I m -> (forall a, preserves I (f a)) -> preserves I (bind m f).
Proof.
  intros Hm Hf g H. unfold bind. specialize (Hm g H).
  destruct (m g) as [[a|ex] g']; simpl in *.
  - apply Hf, Hm.
  - exact Hm.
Qed.

Lemma preserves_catch {A} (I : globals -> Prop) (m : M A) (h : exn -> M A) :
  preserves I m -> (forall ex, preserves I (h ex)) -> preserves I (catch m h).
Proof.
  intros Hm Hh g H. unfold catch. specialize (Hm g H).
  destruct (m g) as [[a|ex] g']; simpl in *.
  - exact Hm.
  - apply Hh, Hm.
Qed.

Lemma get_price_on_date_keeps (e : env) (date d : Z) (pd : price_data) :
  preserves (cached d pd) (get_price_on_date e date).
Proof.
  intros g H. unfold cached, get_price_on_date, fetch_price in *.
  destruct (price_cache g !! date) as [pd'|] eqn:E; [exact H|].
  destruct (history_api e "bitcoin" date) as [b|]; [|exact H].
  destruct (history_api e "ethereum" date) as [et|]; [|exact H].
  destruct (truthy (Some b) && truthy (Some et)); [|exact H].
  simpl. rewrite lookup_insert_ne; [exact H|]. intros <-. congruence.
Qed.

Lemma get_TODAY_keeps (I : globals -> Prop) : preserves I get_TODAY.
Proof. intros g H. exact H. Qed.

Lemma simulate_loop_keeps (e : env) (interval : Z) (ba ea : Q) (d : Z)
    (pd : price_data) (fuel : nat) :
  forall st, preserves (cached d pd) (simulate_loop fuel e interval ba ea st).
Proof.
  induction fuel as [|fuel IH]; intros st; simpl.
  - apply preserves_raise.
  - apply preserves_bind; [apply get_TODAY_keeps|]. intros today.
    destruct (current_date st <=? today)%Z; [|apply preserves_ret].
    apply preserves_bind; [|apply IH].
    unfold simulate_step. apply preserves_bind.
    + apply get_price_on_date_keeps.
    + intros [p|]; [apply preserves_lift | apply preserves_ret].
Qed.

Lemma simulate_investments_keeps (e : env) (frequency : string) (ba ea : Q)
    (d : Z) (pd : price_data) :
  preserves (cached d pd) (simulate_investments e frequency ba ea).
Proof.
  unfold simulate_investments.
  apply preserves_bind; [apply get_TODAY_keeps|]. intros today.
  apply preserves_bind; [apply simulate_loop_keeps|]. intros st.
  apply preserves_ret.
Qed.

(** X1.  Cache monotonicity.  Once [get_price_on_date] has returned prices
    for a date, every later lookup of that date returns the same prices and
    leaves the state as it is, whatever the network answers by then and
    whatever lookup or simulation ran in between. *)
Theorem cached_price_is_final (e : env) (date : Z) (g g1 : globals)
    (pd : price_data) :
  get_price_on_date e date g = (Ok (Some pd), g1) ->
  forall (e1 e2 e3 : env) (other : Z) (frequency : string) (ba ea : Q),
    let g2 := snd (get_price_on_date e1 other g1) in
    let g3 := snd (simulate_investments e2 frequency ba ea g2) in
    get_price_on_date e3 date g3 = (Ok (Some pd), g3).
Proof.
  intros Hlook e1 e2 e3 other frequency ba ea g2 g3.
  assert (H1 : cached date pd g1).
  { unfold get_price_on_date, fetch_price in Hlook. unfold cached.
    destruct (price_cache g !! date) as [pd'|] eqn:E.
    - injection Hlook as <- <-. exact E.
    - destruct (history_api e "bitcoin" date) as [b|]; [|discriminate].
      destruct (history_api e "ethereum" date) as [et|]; [|discriminate].
      destruct (truthy (Some b) && truthy (Some et)); [|discriminate].
      injection Hlook as <- <-. simpl. apply lookup_insert_eq. }
  assert (H3 : cached date pd g3).
  { apply simulate_investments_keeps, get_price_on_date_keeps, H1. }
  unfold get_price_on_date. unfold cached in H3. rewrite H3. reflexivity.
Qed.

(** The first week fetched once, then looked up again offline after a
    simulation. *)
Lemma cached_price_is_final_witness :
  let g1 := snd (get_price_on_date env_full START_DATE globals_three_weeks) in
  let g2 := snd (get_price_on_date env_gap (START_DATE + 7) g1) in
  let g3 := snd (simulate_investments env_late "daily" 100 50 g2) in
  get_price_on_date env_offline START_DATE g3 = (Ok (Some scenario_prices), g3).
Proof.
  apply (cached_price_is_final env_full START_DATE globals_three_weeks
           (snd (get_price_on_date env_full START_DATE globals_three_weeks))
           scenario_prices).
  reflexivity.
Defined.

(** X2.  A lookup is all or nothing.  [get_price_on_date] never raises and
    never touches TODAY or the entry of another date.  When it returns None
    (a fetch failed or a fetched price is zero) the whole state is unchanged;
    when it returns prices they are non-zero unless they were cached before,
    and they are what the cache holds for that date afterwards. *)
Theorem lookup_all_or_nothing (e : env) (date : Z) (g : globals) :
  exists r g',
    get_price_on_date e date g = (Ok r, g') /\
    TODAY g' = TODAY g /\
    (forall d, d <> date -> price_cache g' !! d = price_cache g !! d) /\
    (r = None -> g' = g) /\
    (forall pd, r = Some pd ->
       price_cache g' !! date = Some pd /\
       (price_cache g !! date = None -> nonzero pd)).
Proof.
  unfold get_price_on_date, fetch_price.
  destruct (price_cache g !! date) as [pd'|] eqn:E.
  { exists (Some pd'), g. split; [reflexivity|]. split; [reflexivity|].
    split; [reflexivity|]. split; [discriminate|].
    intros pd [= <-]. split; [exact E | discriminate]. }
  assert (Hnone : exists (r : option price_data) g',
            (Ok None, g) = (Ok r, g') /\ TODAY g' = TODAY g /\
            (forall d, d <> date -> price_cache g' !! d = price_cache g !! d) /\
            (r = None -> g' = g) /\
            (forall pd, r = Some pd ->
               price_cache g' !! date = Some pd /\
               (price_cache g !! date = None -> nonzero pd))).
  { exists None, g. split; [reflexivity|]. split; [reflexivity|].
    split; [reflexivity|]. split; [reflexivity|]. discriminate. }
  rewrite E in Hnone.
  destruct (history_api e "bitcoin" date) as [b|]; [|exact Hnone].
  destruct (history_api e "ethereum" date) as [et|]; [|exact Hnone].
  destruct (truthy (Some b) && truthy (Some et)) eqn:Et; [|exact Hnone].
  clear Hnone.
  eexists _, _. split; [reflexivity|]. split; [reflexivity|]. split; [|split].
  - intros d Hd. simpl. apply lookup_insert_ne. congruence.
  - discriminate.
  - intros pd [= <-]. split.
    + simpl. apply lookup_insert_eq.
    + intros _. apply andb_prop in Et as [Hb He].
      split; simpl; apply truthy_nonzero; assumption.
Qed.

(** A first lookup of the start date with every price on offer. *)
Lemma lookup_all_or_nothing_witness :
  exists pd g',
    get_price_on_date env_full START_DATE globals_three_weeks
      = (Ok (Some pd), g') /\
    price_cache g' !! START_DATE = Some pd /\ nonzero pd.
Proof.
  destruct (lookup_all_or_nothing env_full START_DATE globals_three_weeks)
    as (r & g' & Hrun & _ & _ & _ & Hsome).
  destruct r as [pd|]; [|vm_compute in Hrun; discriminate].
  destruct (Hsome pd eq_refl) as [Hc Hnz].
  exists pd, g'. split; [exact Hrun|]. split; [exact Hc|].
  apply Hnz. apply lookup_empty.
Defined.

(** ** More on the simulator *)

Lemma py_div_Ok (a b q : Q) : py_div a b = Ok q -> q = a / b /\ ~ b == 0.
Proof.
  unfold py_div. destruct (Qeq_bool b 0) eqn:E; [discriminate|].
  intros [= <-]. split; [reflexivity|].
  intros H. apply Qeq_bool_iff in H. congruence.
Qed.

Lemma credit_Ok interval ba ea pd st st' :
  credit interval ba ea pd st = Ok st' ->
  btc_total_usd st' = btc_total_usd st + DEFAULT_BTC_TOTAL /\
  btc_held st' = btc_held st + ba / bitcoin pd /\
  (if (weeks st mod 2 =? 0)%Z
   then eth_total_usd st' = eth_total_usd st + DEFAULT_ETH_TOTAL /\
        eth_held st' = eth_held st + ea / ethereum pd
   else eth_total_usd st' = eth_total_usd st /\ eth_held st' = eth_held st).
Proof.
  unfold credit.
  destruct (py_div ba (bitcoin pd)) as [u|] eqn:Eb; [|discriminate].
  apply py_div_Ok in Eb as [-> _]. simpl.
  destruct (weeks st mod 2 =? 0)%Z.
  - destruct (py_div ea (ethereum pd)) as [v|] eqn:Ee; [|discriminate].
    apply py_div_Ok in Ee as [-> _]. simpl. intros [= <-]. simpl. auto.
  - intros [= <-]. simpl. auto.
Qed.

Lemma steps_invariant P interval ba ea (Inv : sim_state -> Prop) :
  (forall st st', Inv st -> pure_step P interval ba ea st = Ok st' -> Inv st') ->
  forall m st st', Inv st -> steps P interval ba ea m st = Ok st' -> Inv st'.
Proof.
  intros Hstep. induction m as [|m IH]; intros st st' Hinv; simpl.
  - intros [= <-]. exact Hinv.
  - destruct (pure_step P interval ba ea st) as [st1|] eqn:E; [|discriminate].
    simpl. apply IH. eapply Hstep; eassumption.
Qed.

Lemma steps_app P interval ba ea (m k : nat) :
  forall st,
    steps P interval ba ea (m + k) st
    = rbind (steps P interval ba ea m st) (steps P interval ba ea k).
Proof.
  induction m as [|m IH]; intros st; simpl; [reflexivity|].
  destruct (pure_step P interval ba ea st); simpl; [apply IH | reflexivity].
Qed.

Lemma periods_mono (today1 today2 interval : Z) :
  (0 < interval)%Z -> (today1 <= today2)%Z ->
  (periods today1 interval <= periods today2 interval)%nat.
Proof.
  intros Hi Hle. unfold periods.
  destruct (Z.leb_spec START_DATE today1); [|lia].
  destruct (Z.leb_spec START_DATE today2); [|lia].
  apply Z2Nat.inj_le.
  - assert (0 <= (today1 - START_DATE) / interval)%Z by (apply Z.div_pos; lia). lia.
  - assert (0 <= (today2 - START_DATE) / interval)%Z by (apply Z.div_pos; lia). lia.
  - assert ((today1 - START_DATE) / interval <= (today2 - START_DATE) / interval)%Z
      by (apply Z.div_le_mono; lia).
    lia.
Qed.

Lemma invested_grows P interval ba ea (st0 : sim_state) (m : nat) :
  forall st st',
    btc_total_usd st0 <= btc_total_usd st /\ eth_total_usd st0 <= eth_total_usd st ->
    steps P interval ba ea m st = Ok st' ->
    btc_total_usd st0 <= btc_total_usd st' /\ eth_total_usd st0 <= eth_total_usd st'.
Proof.
  apply steps_invariant. intros st st' [Hb He]. unfold pure_step.
  destruct (P (current_date st)) as [pd|].
  - intros H. apply credit_Ok in H as (-> & _ & Heth).
    destruct (weeks st mod 2 =? 0)%Z; destruct Heth as [-> _];
      unfold DEFAULT_BTC_TOTAL, DEFAULT_ETH_TOTAL; split; lra.
  - intros [= <-]. simpl. auto.
Qed.

(** X3.  Simulator idempotence.  When the price API answers a second run as
    it answered the first, running the simulation again from the state the
    first run left behind (the cache now holds what the first run fetched)
    returns the same result, and TODAY is untouched.  Whatever else differs
    between the two runs (spot prices, ledger, clock) plays no part. *)
Theorem simulate_twice (e e' : env) (frequency : string) (ba ea : Q)
    (g : globals) :
  (forall coin date, history_api e' coin date = history_api e coin date) ->
  let g1 := snd (simulate_investments e frequency ba ea g) in
  fst (simulate_investments e' frequency ba ea g1)
  = fst (simulate_investments e frequency ba ea g)
  /\ TODAY g1 = TODAY g.
Proof.
  intros Hapi g1. subst g1.
  destruct (simulate_investments_steps e frequency ba ea g)
    as (g1 & Hrun & Ht & Hp & _).
  rewrite Hrun. cbn [fst snd].
  destruct (simulate_investments_steps e' frequency ba ea g1)
    as (g2 & Hrun2 & _).
  rewrite Hrun2. cbn [fst]. rewrite Ht. split; [|reflexivity].
  rewrite (steps_ext (price_at e' (price_cache g1)) (price_at e (price_cache g)));
    [reflexivity|].
  intros j _. rewrite <- Hp. unfold price_at. rewrite !Hapi. reflexivity.
Qed.

(** A second run, with the same price history and the spot prices now
    online, after a first run over twenty days. *)
Lemma simulate_twice_witness :
  fst (simulate_investments env_online "weekly" 100 50
         (snd (simulate_investments env_full "weekly" 100 50
                 globals_three_weeks)))
  = fst (simulate_investments env_full "weekly" 100 50 globals_three_weeks)
  /\ TODAY (snd (simulate_investments env_full "weekly" 100 50
                   globals_three_weeks))
     = TODAY globals_three_weeks.
Proof.
  apply (simulate_twice env_full env_online "weekly" 100 50 globals_three_weeks).
  intros coin date. reflexivity.
Defined.

(** X4.  Invested totals against TODAY.  Before the start date the simulator
    returns four zeros.  With the same cache of non-zero prices, a later
    TODAY never gives smaller invested totals. *)
Theorem invested_monotone_in_today (e : env) (frequency : string) (ba ea : Q)
    (g1 g2 : globals) :
  cache_ok g1 ->
  price_cache g2 = price_cache g1 ->
  (TODAY g1 <= TODAY g2)%Z ->
  ((TODAY g1 < START_DATE)%Z ->
   simulate_investments e frequency ba ea g1 = (Ok (0, 0, 0, 0), g1)) /\
  exists b1 e1 h1 k1 b2 e2 h2 k2,
    fst (simulate_investments e frequency ba ea g1) = Ok (b1, e1, h1, k1) /\
    fst (simulate_investments e frequency ba ea g2) = Ok (b2, e2, h2, k2) /\
    b1 <= b2 /\ e1 <= e2.
Proof.
  intros Hc Hcache Htoday. split.
  - intros Hbefore. unfold simulate_investments, bind, get_TODAY, sim_fuel.
    cbn [simulate_loop]. unfold bind, get_TODAY.
    assert ((current_date sim_init <=? TODAY g1)%Z = false) as ->
      by (apply Z.leb_gt; exact Hbefore).
    reflexivity.
  - pose proof (interval_of_pos frequency) as Hi.
    destruct (simulate_investments_steps e frequency ba ea g1) as (g1' & -> & _).
    destruct (simulate_investments_steps e frequency ba ea g2) as (g2' & -> & _).
    rewrite Hcache. cbn [fst].
    set (P := price_at e (price_cache g1)).
    set (i := interval_of frequency).
    pose proof (periods_mono (TODAY g1) (TODAY g2) i Hi Htoday) as Hm.
    replace (periods (TODAY g2) i)
      with (periods (TODAY g1) i + (periods (TODAY g2) i - periods (TODAY g1) i))%nat
      by lia.
    rewrite steps_app.
    destruct (steps_data P i ba ea (price_at_ok e g1 Hc) (periods (TODAY g1) i)
                sim_init) as (st1 & -> & _).
    cbn [rbind].
    destruct (steps_data P i ba ea (price_at_ok e g1 Hc)
                (periods (TODAY g2) i - periods (TODAY g1) i) st1)
      as (st2 & Hst2 & _).
    rewrite Hst2. cbn [rbind totals].
    do 8 eexists. split; [reflexivity|]. split; [reflexivity|].
    eapply (invested_grows P i ba ea st1); [|exact Hst2]. split; lra.
Qed.

(** Three weeks against two, on the cache of the end-to-end scenario. *)
Lemma invested_monotone_in_today_witness :
  exists b1 e1 h1 k1 b2 e2 h2 k2,
    fst (simulate_investments env_offline "weekly" 100 50
           {| TODAY := (START_DATE + 7)%Z; price_cache := ten_weeks_cache |})
      = Ok (b1, e1, h1, k1) /\
    fst (simulate_investments env_offline "weekly" 100 50
           {| TODAY := (START_DATE + 14)%Z; price_cache := ten_weeks_cache |})
      = Ok (b2, e2, h2, k2) /\
    b1 <= b2 /\ e1 <= e2.
Proof.
  apply (invested_monotone_in_today env_offline "weekly" 100 50
           {| TODAY := (START_DATE + 7)%Z; price_cache := ten_weeks_cache |}
           {| TODAY := (START_DATE + 14)%Z; price_cache := ten_weeks_cache |}).
  - intros date pd H.
    assert (pd = scenario_prices) as ->.
    { unfold price_cache, ten_weeks_cache in H.
      apply elem_of_list_to_map_2 in H. cbn [map] in H.
      repeat (apply elem_of_cons in H as [H|H]; [congruence|]).
      apply elem_of_nil in H. contradiction. }
    split; discriminate.
  - reflexivity.
  - vm_compute. discriminate.
Defined.

Lemma prices_positive_ok (P : Z -> option price_data) :
  prices_positive P -> prices_ok P.
Proof.
  intros HP date pd H. destruct (HP date pd H) as [Hb He].
  split; intros E; rewrite E in *; lra.
Qed.

(** X6.  No negative holdings from the simulator.  When the amounts are not
    negative and every price a lookup returns is positive, the simulator
    returns four non-negative totals. *)
Theorem simulated_holdings_nonnegative (e : env) (frequency : string)
    (ba ea : Q) (g : globals) :
  0 <= ba -> 0 <= ea ->
  prices_positive (price_at e (price_cache g)) ->
  exists btc_total eth_total btc eth g',
    simulate_investments e frequency ba ea g
      = (Ok (btc_total, eth_total, btc, eth), g') /\
    0 <= btc_total /\ 0 <= eth_total /\ 0 <= btc /\ 0 <= eth.
Proof.
  intros Hba Hea Hpos.
  destruct (simulate_investments_steps e frequency ba ea g) as (g' & -> & _).
  set (P := price_at e (price_cache g)) in *.
  destruct (steps_data P (interval_of frequency) ba ea (prices_positive_ok P Hpos)
              (periods (TODAY g) (interval_of frequency)) sim_init)
    as (st' & Hst & _).
  rewrite Hst. cbn [rbind totals]. do 4 eexists. exists g'.
  split; [reflexivity|].
  assert (Hinv : 0 <= btc_total_usd st' /\ 0 <= eth_total_usd st' /\
                 0 <= btc_held st' /\ 0 <= eth_held st').
  { eapply (steps_invariant P (interval_of frequency) ba ea
              (fun st => 0 <= btc_total_usd st /\ 0 <= eth_total_usd st /\
                         0 <= btc_held st /\ 0 <= eth_held st));
      [| |exact Hst].
    - intros st st1 (H1 & H2 & H3 & H4). unfold pure_step.
      destruct (P (current_date st)) as [pd|] eqn:E.
      + destruct (Hpos _ _ E) as [Hb He].
        intros H. apply credit_Ok in H as (-> & -> & Heth).
        assert (0 <= ba / bitcoin pd).
        { apply Qle_shift_div_l; [exact Hb | lra]. }
        assert (0 <= ea / ethereum pd).
        { apply Qle_shift_div_l; [exact He | lra]. }
        destruct (weeks st mod 2 =? 0)%Z; destruct Heth as [-> ->];
          unfold DEFAULT_BTC_TOTAL, DEFAULT_ETH_TOTAL; repeat split; lra.
      + intros [= <-]. simpl. auto.
    - simpl. repeat split; lra. }
  exact Hinv.
Qed.

(** The end-to-end scenario: positive prices throughout. *)
Lemma simulated_holdings_nonnegative_witness :
  exists btc_total eth_total btc eth g',
    simulate_investments env_offline "weekly" 100 50 globals_ten_weeks
      = (Ok (btc_total, eth_total, btc, eth), g') /\
    0 <= btc_total /\ 0 <= eth_total /\ 0 <= btc /\ 0 <= eth.
Proof.
  apply (simulated_holdings_nonnegative env_offline "weekly" 100 50
           globals_ten_weeks).
  - discriminate.
  - discriminate.
  - intros date pd. unfold price_at. cbn [history_api env_offline].
    destruct (price_cache globals_ten_weeks !! date) as [pd'|] eqn:E;
      [|discriminate].
    intros [= <-].
    assert (pd' = scenario_prices) as ->.
    { unfold globals_ten_weeks, price_cache, ten_weeks_cache in E.
      apply elem_of_list_to_map_2 in E. cbn [map] in E.
      repeat (apply elem_of_cons in E as [E|E]; [congruence|]).
      apply elem_of_nil in E. contradiction. }
    split; reflexivity.
Defined.

(** ** What [calculate_weekly_performance] leaves in TODAY *)

Lemma not_zero_division_Ok {A} (r : result A) :
  (forall ex, r = Raise ex -> ex = ZeroDivisionError) ->
  rpost any r -> exists a, r = Ok a.
Proof.
  intros Honly Hsafe. destruct r as [a|ex]; [eauto|].
  simpl in Hsafe. exfalso. apply Hsafe, Honly. reflexivity.
Qed.

(* one iteration: TODAY becomes the date of the iteration, and temp_today
   the value TODAY had when the iteration began *)
Lemma weekly_step_today (e : env) (ws : weekly_state) (g : globals) :
  cache_ok g ->
  exists ws' g',
    weekly_step e ws g = (Ok ws', g') /\
    cache_ok g' /\
    TODAY g' = wk_current_date ws /\
    temp_today ws' = Some (TODAY g) /\
    wk_current_date ws' = (wk_current_date ws + 7)%Z.
Proof.
  intros Hc.
  pose proof (weekly_step_safe e ws g Hc) as [Hsafe Hc'].
  pose proof (weekly_step_outcome e ws g) as Hout.
  unfold weekly_step, bind, get_TODAY, set_TODAY in *.
  set (g0 := {| TODAY := wk_current_date ws; price_cache := price_cache g |}) in *.
  destruct (simulate_investments_steps e "weekly" DEFAULT_BTC_INVEST
              DEFAULT_ETH_INVEST g0) as (g1 & Hsim & Ht1 & _).
  rewrite Hsim in *. cbn [fst snd] in *.
  destruct (rbind _ _) as [[[[bi ei] bh] eh]|ex]; cbn [fst snd] in *;
    [|exfalso; apply Hsafe; exact Hout].
  destruct (apply_manual_transactions e bh eh bi ei) as [[[bh' eh'] bi'] ei'].
  destruct (get_price_on_date_spec e (wk_current_date ws) g1)
    as (g2 & Hlook & Ht2 & _).
  rewrite Hlook in *.
  destruct (price_at e (price_cache g1) (wk_current_date ws)) as [pd|].
  - unfold lift in *.
    destruct (match previous_value ws with
              | Some pv => _
              | None => _
              end) as [pdata|ex]; cbn [fst snd] in *;
      [|exfalso; apply Hsafe; exact Hout].
    unfold ret. eexists _, g2. split; [reflexivity|]. cbn.
    split; [exact Hc'|]. rewrite Ht2, Ht1. auto.
  - unfold ret. eexists _, g2. split; [reflexivity|]. cbn.
    split; [exact Hc'|]. rewrite Ht2, Ht1. auto.
Qed.

Lemma weekly_loop_today (e : env) (m : nat) :
  forall fuel ws g,
    (m < fuel)%nat ->
    cache_ok g ->
    (now e < wk_current_date ws + 7 * Z.of_nat m)%Z ->
    (forall j, (0 <= j < Z.of_nat m)%Z -> (wk_current_date ws + 7 * j <= now e)%Z) ->
    exists ws' g',
      weekly_loop fuel e ws g = (Ok ws', g') /\
      cache_ok g' /\
      match m with
      | O => ws' = ws /\ g' = g
      | S O => TODAY g' = wk_current_date ws /\ temp_today ws' = Some (TODAY g)
      | S (S k) =>
          TODAY g' = (wk_current_date ws + 7 * (Z.of_nat k + 1))%Z /\
          temp_today ws' = Some (wk_current_date ws + 7 * Z.of_nat k)%Z
      end.
Proof.
  induction m as [|m IH]; intros fuel ws g Hfuel Hc Hstop Hrun;
    (destruct fuel as [|fuel]; [lia|]); cbn [weekly_loop].
  - assert ((wk_current_date ws <=? now e)%Z = false) as ->
      by (apply Z.leb_gt; lia).
    exists ws, g. auto.
  - assert ((wk_current_date ws <=? now e)%Z = true) as ->.
    { apply Z.leb_le. specialize (Hrun 0%Z). lia. }
    unfold bind.
    destruct (weekly_step_today e ws g Hc) as (ws1 & g1 & -> & Hc1 & Ht1 & Htmp1 & Hd1).
    destruct (IH fuel ws1 g1) as (ws' & g' & -> & Hc' & Hm).
    + lia.
    + exact Hc1.
    + rewrite Hd1. lia.
    + intros j Hj. rewrite Hd1. specialize (Hrun (j + 1)%Z). lia.
    + exists ws', g'. split; [reflexivity|]. split; [exact Hc'|].
      destruct m as [|[|k]].
      * destruct Hm as [-> ->]. auto.
      * destruct Hm as [-> ->]. rewrite Hd1, Ht1. split; [f_equal; lia|].
        f_equal. lia.
      * destruct Hm as [-> ->]. rewrite Hd1. split; [lia|]. f_equal. lia.
Qed.

(** X7.  TODAY after [calculate_weekly_performance].  From a cache of
    non-zero prices the function returns its list, but it does not put TODAY
    back: temp_today is overwritten in every iteration, so when at least two
    weekly dates lie between START_DATE and now, TODAY is left at the date
    one week before the last of them; with exactly one such date TODAY is
    restored; with none (now before START_DATE) the unbound temp_today makes
    the function return the empty list. *)
Theorem weekly_performance_leaves_today (e : env) (g : globals) :
  cache_ok g ->
  let last := (START_DATE + 7 * ((now e - START_DATE) / 7))%Z in
  exists weekly_performance g',
    calculate_weekly_performance e g = (Ok weekly_performance, g') /\
    ((START_DATE + 7 <= now e)%Z -> TODAY g' = (last - 7)%Z) /\
    ((START_DATE <= now e < START_DATE + 7)%Z -> TODAY g' = TODAY g) /\
    ((now e < START_DATE)%Z -> weekly_performance = [] /\ g' = g).
Proof.
  intros Hc last.
  unfold calculate_weekly_performance, catch, calculate_weekly_performance_body,
    bind.
  set (ws0 := {| performance_data := []; wk_current_date := START_DATE;
                 previous_value := None; temp_today := None |}).
  set (m := periods (now e) 7).
  destruct (weekly_loop_today e m (sim_fuel (now e)) ws0 g)
    as (ws' & g' & -> & Hc' & Hm).
  - apply periods_fuel. lia.
  - exact Hc.
  - pose proof (periods_stop (now e) 7). cbn [wk_current_date ws0]. fold m in H.
    lia.
  - intros j Hj. pose proof (periods_run (now e) 7 j). cbn [wk_current_date ws0].
    fold m in H. lia.
  - unfold m, periods in Hm.
    destruct (Z.leb_spec START_DATE (now e)) as [Hge|Hlt].
    + assert (Hq : (0 <= (now e - START_DATE) / 7)%Z) by (apply Z.div_pos; lia).
      destruct (Z.to_nat ((now e - START_DATE) / 7 + 1)) as [|[|k]] eqn:En; [lia| |].
      * destruct Hm as [Ht Htmp]. rewrite Htmp. unfold set_TODAY, ret. cbn.
        do 2 eexists. split; [reflexivity|]. cbn.
        assert ((now e - START_DATE) / 7 = 0)%Z by lia.
        split; [|split]; [|reflexivity|lia].
        intros H7. exfalso.
        assert (1 <= (now e - START_DATE) / 7)%Z
          by (apply Z.div_le_lower_bound; lia).
        lia.
      * destruct Hm as [Ht Htmp]. rewrite Htmp. unfold set_TODAY, ret. cbn.
        do 2 eexists. split; [reflexivity|]. cbn [TODAY].
        assert ((now e - START_DATE) / 7 = Z.of_nat k + 1)%Z by lia.
        split; [|split].
        -- intros _. unfold last. cbn [wk_current_date ws0]. lia.
        -- intros [_ H7]. exfalso.
           assert ((now e - START_DATE) / 7 < 1)%Z
             by (apply Z.div_lt_upper_bound; lia).
           lia.
        -- lia.
    + destruct Hm as [-> ->]. cbn [temp_today ws0]. unfold raise, ret.
      exists [], g. split; [reflexivity|]. split; [lia|]. split; [lia|]. auto.
Qed.

(** On 2025-03-31, after ten weekly iterations, TODAY is 2025-03-22, one
    week before the last weekly date 2025-03-29. *)
Lemma weekly_performance_leaves_today_witness :
  exists weekly_performance g',
    calculate_weekly_performance env_offline globals_ten_weeks
      = (Ok weekly_performance, g') /\
    TODAY g' = days_from_civil 2025 3 22.
Proof.
  destruct (weekly_performance_leaves_today env_offline globals_ten_weeks)
    as (l & g' & Hrun & Hlate & _).
  - intros date pd H.
    assert (pd = scenario_prices) as ->.
    { unfold globals_ten_weeks, price_cache, ten_weeks_cache in H.
      apply elem_of_list_to_map_2 in H. cbn [map] in H.
      repeat (apply elem_of_cons in H as [H|H]; [congruence|]).
      apply elem_of_nil in H. contradiction. }
    split; discriminate.
  - exists l, g'. split; [exact Hrun|]. rewrite Hlate; [reflexivity|].
    vm_compute. discriminate.
Defined.

(** ** The portfolio endpoint *)

(** X8.  /portfolio always answers.  From a cache of non-zero prices the
    handler returns HTTP 200 with the rounded valuation of the simulated and
    manual holdings, whatever the spot price API does: it uses the cached
    spot prices, else the live ones, else the fallback pair 50000 / 3000. *)
Theorem portfolio_always_answers (e : env) (frequency : string) (g : globals) :
  cache_ok g ->
  exists btc_invested eth_invested btc eth v g',
    fst (simulate_investments e frequency DEFAULT_BTC_INVEST DEFAULT_ETH_INVEST g)
      = Ok (btc_invested, eth_invested, btc, eth) /\
    (let '(btc', eth', btc_invested', eth_invested') :=
       apply_manual_transactions e btc eth btc_invested eth_invested in
     portfolio_values btc_invested' eth_invested' btc' eth'
       (match cached_spot e, spot_api e with
        | Some prices, _ => prices
        | None, Some prices => prices
        | None, None => {| bitcoin := 50000; ethereum := 3000 |}
        end) = Ok v) /\
    portfolio e frequency g = (Ok (Jsonify (portfolio_json v) 200), g').
Proof.
  intros Hc. unfold portfolio, catch, portfolio_body, bind.
  destruct (simulate_investments_steps e frequency DEFAULT_BTC_INVEST
              DEFAULT_ETH_INVEST g) as (g' & -> & _).
  destruct (steps_data (price_at e (price_cache g)) (interval_of frequency)
              DEFAULT_BTC_INVEST DEFAULT_ETH_INVEST (price_at_ok e g Hc)
              (periods (TODAY g) (interval_of frequency)) sim_init)
    as (st' & -> & _).
  cbn [rbind fst totals].
  destruct (apply_manual_transactions e (btc_held st') (eth_held st')
              (btc_total_usd st') (eth_total_usd st'))
    as [[[bh' eh'] bi'] ei'] eqn:Em.
  assert (Hprices : get_current_prices_cached e
                    = match cached_spot e, spot_api e with
                      | Some prices, _ => prices
                      | None, Some prices => prices
                      | None, None => {| bitcoin := 50000; ethereum := 3000 |}
                      end).
  { unfold get_current_prices_cached.
    destruct (cached_spot e); [reflexivity|]. destruct (spot_api e); reflexivity. }
  rewrite Hprices. unfold lift.
  destruct (portfolio_values_ok bi' ei' bh' eh'
              (match cached_spot e, spot_api e with
               | Some prices, _ => prices
               | None, Some prices => prices
               | None, None => {| bitcoin := 50000; ethereum := 3000 |}
               end)) as (v & Hv & _).
  exists (btc_total_usd st'), (eth_total_usd st'), (btc_held st'),
    (eth_held st'), v, g'.
  split; [reflexivity|]. rewrite Em. split; [exact Hv|].
  rewrite Hv. reflexivity.
Qed.

(** CoinGecko unreachable and nothing cached: the fallback prices are used. *)
Lemma portfolio_always_answers_witness :
  exists v g',
    portfolio env_offline "weekly" globals_ten_weeks
    = (Ok (Jsonify (portfolio_json v) 200), g').
Proof.
  destruct (portfolio_always_answers env_offline "weekly" globals_ten_weeks)
    as (bi & ei & bh & eh & v & g' & _ & _ & H).
  - intros date pd H.
    assert (pd = scenario_prices) as ->.
    { unfold globals_ten_weeks, price_cache, ten_weeks_cache in H.
      apply elem_of_list_to_map_2 in H. cbn [map] in H.
      repeat (apply elem_of_cons in H as [H|H]; [congruence|]).
      apply elem_of_nil in H. contradiction. }
    split; discriminate.
  - exists v, g'. exact H.
Defined.

(** ** Transaction analysis *)

Lemma analyse_entry_matches_btc (btc eth : coin_analysis) (entry : ledger_entry)
    (acc : Q * Q * Q * Q) :
  tx_coin (entry_tx entry) = "bitcoin" ->
  analysis_matches btc eth acc ->
  analysis_matches (analyse_entry btc entry) eth (apply_tx acc (entry_tx entry)).
Proof.
  intros Hcoin [H1 H2].
  destruct acc as [[[bh eh] bi] ei]. cbn [fst snd] in *. subst bh eh.
  unfold analysis_matches, analyse_entry, apply_tx. rewrite Hcoin.
  cbn [String.eqb Ascii.eqb Bool.eqb andb].
  destruct (String.eqb (tx_kind (entry_tx entry)) "buy");
    [|destruct (String.eqb (tx_kind (entry_tx entry)) "sell")];
    cbn [fst snd net_amount]; split; reflexivity.
Qed.

Lemma analyse_entry_matches_eth (btc eth : coin_analysis) (entry : ledger_entry)
    (acc : Q * Q * Q * Q) :
  tx_coin (entry_tx entry) = "ethereum" ->
  analysis_matches btc eth acc ->
  analysis_matches btc (analyse_entry eth entry) (apply_tx acc (entry_tx entry)).
Proof.
  intros Hcoin [H1 H2].
  destruct acc as [[[bh eh] bi] ei]. cbn [fst snd] in *. subst bh eh.
  unfold analysis_matches, analyse_entry, apply_tx. rewrite Hcoin.
  cbn [String.eqb Ascii.eqb Bool.eqb andb].
  destruct (String.eqb (tx_kind (entry_tx entry)) "buy");
    [|destruct (String.eqb (tx_kind (entry_tx entry)) "sell")];
    cbn [fst snd net_amount]; split; reflexivity.
Qed.

Lemma analyse_entries_matches (entries : list ledger_entry) :
  forall btc eth acc,
    known_coins entries ->
    analysis_matches btc eth acc ->
    exists btc' eth',
      analyse_entries entries btc eth = inl (btc', eth') /\
      analysis_matches btc' eth' (fold_left apply_tx (map entry_tx entries) acc).
Proof.
  induction entries as [|entry rest IH]; intros btc eth acc Hknown Hm.
  - exists btc, eth. split; [reflexivity | exact Hm].
  - inversion Hknown as [|? ? Hcoin Hrest]; subst.
    cbn [analyse_entries map fold_left].
    destruct Hcoin as [Hcoin|Hcoin]; rewrite Hcoin;
      cbn [String.eqb Ascii.eqb Bool.eqb andb].
    + apply IH; [exact Hrest|]. apply analyse_entry_matches_btc; assumption.
    + apply IH; [exact Hrest|]. apply analyse_entry_matches_eth; assumption.
Qed.

Lemma with_unrealized_net_amount (a : coin_analysis) (p : Q) :
  net_amount (with_unrealized a p) = net_amount a.
Proof. unfold with_unrealized. destruct (Qltb 0 (net_amount a)); reflexivity. Qed.

(** X11.  Transaction analysis against the ledger merge.  For a ledger whose
    entries are all about bitcoin or ethereum, /transaction_analysis answers
    200, and each coin's net_amount is the holding that
    [apply_manual_transactions] computes for the same ledger from zero
    holdings: the two apply the same additions and subtractions in ledger
    order, so the two numbers are the same expression. *)
Theorem analysis_agrees_with_merge (e : env) (entries : list ledger_entry)
    (btc_total eth_total : Q) :
  manual_transactions e = map entry_tx entries ->
  known_coins entries ->
  exists btc eth,
    transaction_analysis e entries = (inl (btc, eth), 200%Z) /\
    analysis_matches btc eth
      (apply_manual_transactions e 0 0 btc_total eth_total).
Proof.
  intros Hledger Hknown. unfold transaction_analysis, apply_manual_transactions.
  rewrite Hledger.
  destruct (analyse_entries_matches entries empty_analysis empty_analysis
              (0, 0, btc_total, eth_total) Hknown) as (btc & eth & -> & Hm).
  { split; reflexivity. }
  eexists _, _. split; [reflexivity|].
  destruct Hm as [H1 H2]. unfold analysis_matches.
  rewrite !with_unrealized_net_amount. split; assumption.
Qed.

(** The three-entry ledger: half a bitcoin and five ether are left. *)
Lemma analysis_agrees_with_merge_witness :
  exists btc eth,
    transaction_analysis (with_ledger (map entry_tx entries_three)) entries_three
      = (inl (btc, eth), 200%Z) /\
    analysis_matches btc eth
      (apply_manual_transactions (with_ledger (map entry_tx entries_three))
         0 0 306 (1036 # 10)).
Proof.
  apply (analysis_agrees_with_merge (with_ledger (map entry_tx entries_three))
           entries_three).
  - reflexivity.
  - unfold known_coins, entries_three.
    repeat (constructor; [first [left; reflexivity | right; reflexivity]|]).
    constructor.
Defined.

Lemma analyse_entries_unknown (entries : list ledger_entry) :
  forall btc eth,
    ~ known_coins entries ->
    exists coin, analyse_entries entries btc eth = inr coin /\
                 coin <> "bitcoin" /\ coin <> "ethereum".
Proof.
  induction entries as [|entry rest IH]; intros btc eth Hunknown.
  - exfalso. apply Hunknown. constructor.
  - cbn [analyse_entries].
    destruct (String.eqb_spec (tx_coin (entry_tx entry)) "bitcoin") as [Hb|Hb].
    { apply IH. intros H. apply Hunknown. constructor; auto. }
    destruct (String.eqb_spec (tx_coin (entry_tx entry)) "ethereum") as [He|He].
    { apply IH. intros H. apply Hunknown. constructor; auto. }
    eauto.
Qed.

(** X12.  An unknown coin breaks the analysis but not the merge.  When some
    ledger entry is about a coin other than bitcoin and ethereum,
    /transaction_analysis fails with HTTP 500 on the missing key, while
    [apply_manual_transactions] skips such entries: the merge of the ledger
    equals the merge of the ledger without them. *)
Theorem unknown_coin_fails_analysis (e e' : env) (entries : list ledger_entry)
    (btc eth btc_total eth_total : Q) :
  ~ known_coins entries ->
  manual_transactions e = map entry_tx entries ->
  manual_transactions e'
    = List.filter (fun tx => String.eqb (tx_coin tx) "bitcoin"
                             || String.eqb (tx_coin tx) "ethereum")
        (map entry_tx entries) ->
  (exists coin, transaction_analysis e entries = (inr coin, 500%Z) /\
                coin <> "bitcoin" /\ coin <> "ethereum") /\
  apply_manual_transactions e btc eth btc_total eth_total
  = apply_manual_transactions e' btc eth btc_total eth_total.
Proof.
  intros Hunknown Hl Hl'. split.
  - unfold transaction_analysis.
    destruct (analyse_entries_unknown entries empty_analysis empty_analysis
                Hunknown) as (coin & -> & Hc).
    eauto.
  - unfold apply_manual_transactions. rewrite Hl, Hl'. clear Hl Hl'.
    generalize (btc, eth, btc_total, eth_total).
    induction (map entry_tx entries) as [|tx l IH]; intros acc; [reflexivity|].
    cbn [List.filter fold_left].
    destruct (String.eqb (tx_coin tx) "bitcoin") eqn:Eb; cbn [orb].
    { cbn [fold_left]. apply IH. }
    destruct (String.eqb (tx_coin tx) "ethereum") eqn:Ee.
    { cbn [fold_left]. apply IH. }
    replace (apply_tx acc tx) with acc; [apply IH|].
    unfold apply_tx. destruct acc as [[[a b] c] d]. rewrite Eb, Ee. reflexivity.
Qed.

(** A dogecoin entry between a bitcoin and an ethereum buy. *)
Lemma unknown_coin_fails_analysis_witness :
  (exists coin,
     transaction_analysis (with_ledger (map entry_tx entries_with_doge))
       entries_with_doge = (inr coin, 500%Z) /\
     coin <> "bitcoin" /\ coin <> "ethereum") /\
  apply_manual_transactions (with_ledger (map entry_tx entries_with_doge))
    0 0 0 0
  = apply_manual_transactions (with_ledger [buy_one_btc; buy_five_eth]) 0 0 0 0.
Proof.
  apply (unknown_coin_fails_analysis
           (with_ledger (map entry_tx entries_with_doge))
           (with_ledger [buy_one_btc; buy_five_eth]) entries_with_doge).
  - intros H. inversion H as [|? ? _ H1]; subst.
    inversion H1 as [|? ? [Hd|Hd] _]; discriminate.
  - reflexivity.
  - reflexivity.
Defined.

(** ** Portfolio history *)

Lemma period_mapping_cases (period : string) :
  In (period_mapping period)
     [(7, 1); (30, 1); (90, 2); (180, 4); (365, 7)]%Z.
Proof.
  unfold period_mapping.
  repeat match goal with |- context [String.eqb ?a ?b] =>
    destruct (String.eqb a b) end; simpl; auto 10.
Qed.

Lemma history_interval_pos (period aggregation : string) :
  (0 < history_interval period aggregation)%Z.
Proof.
  unfold history_interval.
  pose proof (period_mapping_cases period) as H.
  repeat match goal with |- context [String.eqb ?a ?b] =>
    destruct (String.eqb a b) end; try lia.
  simpl in H. intuition (subst; try match goal with
    | E : _ = period_mapping _ |- _ => rewrite <- E end; simpl; lia).
Qed.

Lemma period_days_nonneg (period : string) :
  (0 <= fst (period_mapping period))%Z.
Proof.
  pose proof (period_mapping_cases period) as H. simpl in H.
  intuition (match goal with
    | E : _ = period_mapping _ |- _ => rewrite <- E end; simpl; lia).
Qed.

Lemma history_point_at_spec (e : env) (d : Z) (g : globals) :
  exists r g',
    history_point_at e d g = (r, g') /\
    TODAY g' = TODAY g /\
    (forall d', price_at e (price_cache g') d' = price_at e (price_cache g) d') /\
    (cache_ok g -> cache_ok g') /\
    (forall p, r = Ok (Some p) ->
               hp_date p = d /\ price_at e (price_cache g) d <> None) /\
    (cache_ok g -> price_at e (price_cache g) d <> None ->
     exists p, r = Ok (Some p)).
Proof.
  unfold history_point_at, bind.
  destruct (simulate_investments_steps e "weekly" DEFAULT_BTC_INVEST
              DEFAULT_ETH_INVEST g) as (g1 & -> & Ht1 & Hp1 & Hc1).
  destruct (steps (price_at e (price_cache g)) (interval_of "weekly")
              DEFAULT_BTC_INVEST DEFAULT_ETH_INVEST
              (periods (TODAY g) (interval_of "weekly")) sim_init)
    as [st|ex] eqn:Es; cbn [rbind].
  - unfold totals.
    destruct (apply_manual_transactions e (btc_held st) (eth_held st)
                (btc_total_usd st) (eth_total_usd st))
      as [[[bh eh] bi] ei].
    destruct (get_price_on_date_spec e d g1) as (g2 & -> & Ht2 & Hp2 & Hc2).
    rewrite Hp1.
    destruct (price_at e (price_cache g) d) as [pd|] eqn:Epd.
    + destruct (percent_of_total (bh * bitcoin pd + eh * ethereum pd - (bi + ei))
                  (bi + ei)) as [q Hq].
      unfold lift, ret. rewrite Hq.
      eexists _, g2. split; [reflexivity|].
      split; [congruence|]. split; [intros; rewrite Hp2; apply Hp1|].
      split; [auto|]. split.
      * intros p [= <-]. split; [reflexivity | discriminate].
      * intros _ _. eauto.
    + unfold ret. eexists _, g2. split; [reflexivity|].
      split; [congruence|]. split; [intros; rewrite Hp2; apply Hp1|].
      split; [auto|]. split.
      * intros p [=].
      * intros _ H. congruence.
  - eexists _, g1. split; [reflexivity|].
    split; [exact Ht1|]. split; [exact Hp1|]. split; [exact Hc1|]. split.
    + intros p [=].
    + intros Hc Hd. exfalso.
      destruct (steps_data (price_at e (price_cache g)) (interval_of "weekly")
                  DEFAULT_BTC_INVEST DEFAULT_ETH_INVEST (price_at_ok e g Hc)
                  (periods (TODAY g) (interval_of "weekly")) sim_init)
        as (st' & Hs & _).
      congruence.
Qed.

Lemma history_step_spec (e : env) (interval : Z) (hs : history_state)
    (g : globals) :
  exists (point : list history_point) g',
    history_step e interval hs g
    = (Ok {| hs_history := hs_history hs ++ point;
             hs_current_date := (hs_current_date hs + interval)%Z;
             hs_data_points := (hs_data_points hs + length point)%nat |}, g') /\
    (length point <= 1)%nat /\
    (forall d, price_at e (price_cache g') d = price_at e (price_cache g) d) /\
    (cache_ok g -> cache_ok g') /\
    (forall p, In p point ->
               hp_date p = hs_current_date hs /\
               price_at e (price_cache g) (hs_current_date hs) <> None) /\
    (cache_ok g -> price_at e (price_cache g) (hs_current_date hs) <> None ->
     length point = 1%nat).
Proof.
  unfold history_step, bind, set_TODAY, catch.
  set (g0 := {| TODAY := hs_current_date hs; price_cache := price_cache g |}).
  destruct (history_point_at_spec e (hs_current_date hs) g0)
    as (r & g1 & -> & _ & Hp & Hc & Hsome & Hfull).
  change (price_cache g0) with (price_cache g) in *.
  destruct r as [[p|]|ex]; unfold ret.
  - exists [p], g1. rewrite Nat.add_1_r.
    split; [reflexivity|]. split; [simpl; lia|]. split; [exact Hp|].
    split; [exact Hc|]. split.
    + intros p' [<-|[]]. apply Hsome. reflexivity.
    + reflexivity.
  - exists [], g1. rewrite app_nil_r, Nat.add_0_r.
    split; [reflexivity|]. split; [simpl; lia|]. split; [exact Hp|].
    split; [exact Hc|]. split.
    + intros p' [].
    + intros H1 H2. destruct (Hfull H1 H2) as [p' [=]].
  - exists [], g1. rewrite app_nil_r, Nat.add_0_r.
    split; [reflexivity|]. split; [simpl; lia|]. split; [exact Hp|].
    split; [exact Hc|]. split.
    + intros p' [].
    + intros H1 H2. destruct (Hfull H1 H2) as [p' [=]].
Qed.

Lemma strongly_sorted_snoc {A} (R : A -> A -> Prop) (l : list A) (x : A) :
  StronglySorted R l -> Forall (fun y => R y x) l ->
  StronglySorted R (l ++ [x]).
Proof.
  induction 1 as [|y l Hs IH Hy]; intros Hall; simpl.
  - repeat constructor.
  - inversion Hall as [|? ? Hyx Hall']; subst.
    constructor; [apply IH, Hall'|].
    apply List.Forall_app. split; [exact Hy | repeat constructor; exact Hyx].
Qed.

Lemma seq_snoc_map {A} (f : nat -> A) (n : nat) :
  map f (seq 0 (S n)) = map f (seq 0 n) ++ [f n].
Proof. rewrite seq_S, map_app. reflexivity. Qed.

Lemma history_step_inv (e : env) (interval c0 : Z)
    (P : Z -> option price_data) (full : Prop)
    (hs : history_state) (g : globals) :
  (0 < interval)%Z ->
  (full -> forall k : nat,
     (c0 + Z.of_nat k * interval <= now e)%Z ->
     P (c0 + Z.of_nat k * interval)%Z <> None) ->
  history_inv e interval c0 P full hs g ->
  history_continues e hs = true ->
  exists hs' g',
    history_step e interval hs g = (Ok hs', g') /\
    hs_current_date hs' = (hs_current_date hs + interval)%Z /\
    history_inv e interval c0 P full hs' g'.
Proof.
  intros Hi Hdata (Hag & n & Hcur & Hlast & Hdp & Hmax & Hn & Hall & Hsorted & Hfull)
    Hcont.
  apply andb_prop in Hcont as [Hnow Hcap].
  apply Z.leb_le in Hnow. apply Nat.ltb_lt in Hcap.
  destruct (history_step_spec e interval hs g)
    as (point & g' & -> & Hlen & Hp & Hc & Hpoint & Hone).
  eexists _, g'. split; [reflexivity|]. split; [reflexivity|].
  split; [intros d; rewrite Hp; apply Hag|].
  exists (S n). cbn [hs_history hs_current_date hs_data_points].
  split; [rewrite Hcur; lia|].
  split; [right; replace (Z.of_nat (S n) - 1)%Z with (Z.of_nat n) by lia;
          rewrite <- Hcur; exact Hnow|].
  split; [rewrite length_app; lia|].
  split; [lia|]. split; [lia|].
  assert (Hnew : Forall (fun p => hp_date p = hs_current_date hs /\
                                  P (hp_date p) <> None) point).
  { apply List.Forall_forall. intros p Hin. destruct (Hpoint p Hin) as [Hd Hpr].
    split; [exact Hd|]. rewrite Hd, <- Hag. exact Hpr. }
  split.
  { apply List.Forall_app. split.
    - eapply List.Forall_impl; [|exact Hall]. cbv beta.
      intros p (Hr & Hle & Hm & Hpr). repeat split; try assumption; lia.
    - eapply List.Forall_impl; [|exact Hnew]. cbv beta.
      intros p (Hd & Hpr). rewrite Hd in Hpr |- *.
      split; [lia|]. split; [lia|]. split; [|exact Hpr].
      rewrite Hcur. replace (c0 + Z.of_nat n * interval - c0)%Z
        with (Z.of_nat n * interval)%Z by lia.
      apply Z.mod_mul. lia. }
  split.
  { destruct point as [|p [|p' point]]; [rewrite app_nil_r; exact Hsorted| |simpl in Hlen; lia].
    apply strongly_sorted_snoc; [exact Hsorted|].
    inversion Hnew as [|? ? [Hd _] _]; subst.
    eapply List.Forall_impl; [|exact Hall]. cbv beta.
    intros q (Hr & _). lia. }
  intros Hf. destruct (Hfull Hf) as (Hcok & Hdpn & Hdates).
  assert (Hlen1 : length point = 1%nat).
  { apply Hone; [exact Hcok|]. rewrite Hag, Hcur. apply Hdata; [exact Hf|].
    rewrite <- Hcur. exact Hnow. }
  split; [apply Hc, Hcok|]. split; [lia|].
  destruct point as [|p [|p' point]]; try discriminate.
  inversion Hnew as [|? ? [Hd _] _]; subst.
  rewrite map_app, seq_snoc_map, Hdates. simpl. rewrite Hd, Hcur. reflexivity.
Qed.

Lemma history_loop_inv (e : env) (interval c0 : Z)
    (P : Z -> option price_data) (full : Prop) :
  (0 < interval)%Z ->
  (full -> forall k : nat,
     (c0 + Z.of_nat k * interval <= now e)%Z ->
     P (c0 + Z.of_nat k * interval)%Z <> None) ->
  forall fuel hs g,
    (Z.to_nat (now e - hs_current_date hs + 1) < fuel)%nat ->
    history_inv e interval c0 P full hs g ->
    exists hs' g',
      history_loop fuel e interval hs g = (Ok hs', g') /\
      history_inv e interval c0 P full hs' g' /\
      history_continues e hs' = false.
Proof.
  intros Hi Hdata.
  induction fuel as [|fuel IH]; intros hs g Hfuel Hinv; [lia|].
  cbn [history_loop].
  destruct (history_continues e hs) eqn:Hcont.
  - destruct (history_step_inv e interval c0 P full hs g Hi Hdata Hinv Hcont)
      as (hs1 & g1 & Hstep & Hcur & Hinv1).
    unfold bind. rewrite Hstep.
    apply IH; [|exact Hinv1].
    apply andb_prop in Hcont as [Hnow _]. apply Z.leb_le in Hnow.
    rewrite Hcur. lia.
  - exists hs, g. split; [reflexivity|]. split; assumption.
Qed.

Lemma history_inv_init (e : env) (interval c0 : Z) (full : Prop) (g : globals) :
  (full -> cache_ok g) ->
  history_inv e interval c0 (price_at e (price_cache g)) full
    {| hs_history := []; hs_current_date := c0; hs_data_points := O |} g.
Proof.
  intros Hf. split; [intros d; reflexivity|].
  exists O. cbn [hs_history hs_current_date hs_data_points length].
  split; [lia|]. split; [left; reflexivity|]. split; [reflexivity|].
  split; [unfold max_data_points; lia|]. split; [lia|].
  split; [constructor|]. split; [constructor|].
  intros H. split; [apply Hf, H|]. split; reflexivity.
Qed.

(* what the handler returns, in terms of the final state of the loop *)
Lemma portfolio_history_run (e : env) (period aggregation : string)
    (full : Prop) (g : globals) :
  let days := fst (period_mapping period) in
  let interval := history_interval period aggregation in
  (full -> cache_ok g) ->
  (full -> forall k : nat,
     (now e - days + Z.of_nat k * interval <= now e)%Z ->
     price_at e (price_cache g) (now e - days + Z.of_nat k * interval)%Z
     <> None) ->
  exists hs g1,
    portfolio_history e period aggregation g
    = (Ok (Jsonify
             {| hr_period := period;
                hr_interval := interval;
                hr_data_points := length (hs_history hs);
                hr_start := option_map hp_date (head (hs_history hs));
                hr_end := option_map hp_date (head (rev (hs_history hs)));
                hr_history := hs_history hs |} 200),
       {| TODAY := TODAY g; price_cache := price_cache g1 |}) /\
    history_inv e interval (now e - days) (price_at e (price_cache g)) full
      hs g1 /\
    history_continues e hs = false.
Proof.
  intros days interval Hf Hdata.
  pose proof (history_interval_pos period aggregation) as Hi.
  pose proof (period_days_nonneg period) as Hd.
  destruct (history_loop_inv e interval (now e - days)
              (price_at e (price_cache g)) full Hi Hdata
              (history_fuel days)
              {| hs_history := []; hs_current_date := (now e - days)%Z;
                 hs_data_points := O |} g)
    as (hs & g1 & Hloop & Hinv & Hstop).
  { cbn [hs_current_date]. unfold history_fuel. fold days in Hd. lia. }
  { apply history_inv_init, Hf. }
  exists hs, g1. split; [|split; assumption].
  unfold portfolio_history, bind, get_TODAY, catch. fold days. fold interval.
  rewrite Hloop. reflexivity.
Qed.

(** X14.  The history endpoint always answers 200 and puts the clock back.
    For every period and aggregation and from every state,
    [portfolio_history] returns a 200 response and leaves TODAY as it found
    it; lookups made before the call return the same prices after it.  The
    history has at most 200 entries and at most one per sample date
    now - days + k times interval; the entries are in strictly ascending date
    order, each on a sample date of the period that is not after now and for
    which price data exists, and data_points is the number of entries. *)
Theorem portfolio_history_answers (e : env) (period aggregation : string)
    (g : globals) :
  let days := fst (period_mapping period) in
  let interval := history_interval period aggregation in
  exists resp g',
    portfolio_history e period aggregation g = (Ok (Jsonify resp 200), g') /\
    TODAY g' = TODAY g /\
    (forall d, price_at e (price_cache g') d = price_at e (price_cache g) d) /\
    hr_data_points resp = length (hr_history resp) /\
    (length (hr_history resp) <= 200)%nat /\
    (Z.of_nat (length (hr_history resp)) <= days / interval + 1)%Z /\
    StronglySorted (fun p q => (hp_date p < hp_date q)%Z) (hr_history resp) /\
    Forall (fun p => (now e - days <= hp_date p <= now e)%Z /\
                     ((hp_date p - (now e - days)) mod interval = 0)%Z /\
                     price_at e (price_cache g) (hp_date p) <> None)
           (hr_history resp).
Proof.
  intros days interval.
  pose proof (history_interval_pos period aggregation) as Hi. fold interval in Hi.
  pose proof (period_days_nonneg period) as Hd. fold days in Hd.
  destruct (portfolio_history_run e period aggregation False g)
    as (hs & g1 & Hrun & (Hag & n & Hcur & Hlast & Hdp & Hmax & Hn & Hall
                          & Hsorted & _) & _); [tauto | tauto |].
  fold days in Hrun, Hall, Hcur, Hlast. fold interval in Hrun, Hall, Hcur, Hlast.
  eexists _, _. split; [exact Hrun|].
  cbn [TODAY price_cache hr_data_points hr_history].
  split; [reflexivity|]. split; [exact Hag|]. split; [reflexivity|].
  rewrite <- Hdp. split; [exact Hmax|]. split.
  { destruct Hlast as [->|Hlast]; [apply Nat.le_0_r in Hn; rewrite Hn|].
    - assert (0 <= days / interval)%Z by (apply Z.div_pos; lia). lia.
    - assert (Z.of_nat n - 1 <= days / interval)%Z
        by (apply Z.div_le_lower_bound; nia).
      lia. }
  split; [exact Hsorted|].
  eapply List.Forall_impl; [|exact Hall]. cbv beta.
  intros p (Hr & Hle & Hm & Hpr). repeat split; try assumption; lia.
Qed.

(** X15.  The cap of 200 entries cuts off the most recent dates.  When the
    cached prices are non-zero and price data exists for every sample date
    now - days + k times interval up to now, the history has exactly
    min(200, days / interval + 1) entries, one for each of the first sample
    dates in order: it starts at now - days and ends at
    now - days + (count - 1) times interval.  With more than 200 sample dates
    (a year of daily samples) the entries for the latest dates, today
    included, are the ones left out. *)
Theorem history_cap_drops_recent_dates (e : env) (period aggregation : string)
    (g : globals) :
  let days := fst (period_mapping period) in
  let interval := history_interval period aggregation in
  let count := sample_count period aggregation in
  cache_ok g ->
  (forall k : nat,
     (now e - days + Z.of_nat k * interval <= now e)%Z ->
     price_at e (price_cache g) (now e - days + Z.of_nat k * interval)%Z
     <> None) ->
  exists resp g',
    portfolio_history e period aggregation g = (Ok (Jsonify resp 200), g') /\
    hr_data_points resp = count /\
    map hp_date (hr_history resp) = sample_dates e period aggregation count /\
    hr_start resp = Some (now e - days)%Z /\
    hr_end resp = Some (now e - days + (Z.of_nat count - 1) * interval)%Z.
Proof.
  intros days interval count Hcok Hdata.
  pose proof (history_interval_pos period aggregation) as Hi. fold interval in Hi.
  pose proof (period_days_nonneg period) as Hd. fold days in Hd.
  destruct (portfolio_history_run e period aggregation True g)
    as (hs & g1 & Hrun & (Hag & n & Hcur & Hlast & Hdp & Hmax & Hn & Hall
                          & Hsorted & Hfull) & Hstop); [tauto | auto |].
  fold days in Hrun, Hcur, Hlast, Hfull. fold interval in Hrun, Hcur, Hlast, Hfull.
  destruct (Hfull I) as (_ & Hdpn & Hdates).
  assert (Hdiv : (0 <= days / interval)%Z) by (apply Z.div_pos; lia).
  assert (Hcount : n = count).
  { unfold count, sample_count. fold days. fold interval.
    assert (Hup : (Z.of_nat n <= days / interval + 1)%Z).
    { destruct Hlast as [->|Hlast]; [lia|].
      assert (Z.of_nat n - 1 <= days / interval)%Z
        by (apply Z.div_le_lower_bound; nia).
      lia. }
    unfold history_continues in Hstop. apply andb_false_iff in Hstop.
    destruct Hstop as [Hstop|Hstop].
    - apply Z.leb_gt in Hstop. rewrite Hcur in Hstop.
      assert (days / interval < Z.of_nat n)%Z
        by (apply Z.div_lt_upper_bound; nia).
      unfold max_data_points in *. lia.
    - apply Nat.ltb_ge in Hstop. unfold max_data_points in *. lia. }
  assert (Hpos : (0 < count)%nat).
  { unfold count, sample_count, max_data_points. fold days. fold interval. lia. }
  eexists _, _. split; [exact Hrun|].
  cbn [hr_data_points hr_history hr_start hr_end].
  rewrite <- Hdp, Hdpn.
  split; [exact Hcount|]. split; [rewrite Hdates, Hcount; reflexivity|].
  rewrite <- Hcount in *. clear Hcount.
  destruct n as [|n]; [lia|].
  split.
  - destruct (hs_history hs) as [|p l]; [discriminate|].
    simpl in Hdates. injection Hdates as Hp _. simpl. rewrite Hp. f_equal. lia.
  - rewrite seq_snoc_map in Hdates.
    assert (Hrev : map hp_date (rev (hs_history hs))
                   = (now e - days + Z.of_nat n * interval)%Z
                     :: rev (map (fun k => (now e - days + Z.of_nat k * interval)%Z)
                                 (seq 0 n))).
    { rewrite map_rev, Hdates, rev_app_distr. reflexivity. }
    destruct (rev (hs_history hs)) as [|p l]; [discriminate|].
    simpl in Hrev. injection Hrev as Hp _. simpl. rewrite Hp. f_equal. lia.
Qed.

(** A year of daily samples from a source that has every price: the last of
    the 200 entries is 166 days old. *)
Lemma history_cap_drops_recent_dates_witness :
  exists resp g',
    portfolio_history env_year "1y" "daily" {| TODAY := now env_year; price_cache := ∅ |}
    = (Ok (Jsonify resp 200), g') /\
    hr_data_points resp = 200%nat /\
    map hp_date (hr_history resp) = sample_dates env_year "1y" "daily" 200 /\
    hr_start resp = Some (now env_year - 365)%Z /\
    hr_end resp = Some (now env_year - 166)%Z.
Proof.
  apply (history_cap_drops_recent_dates env_year "1y" "daily"
           {| TODAY := now env_year; price_cache := ∅ |}).
  - apply cache_ok_empty.
  - intros k _. unfold price_at. cbn [price_cache]. rewrite lookup_empty.
    discriminate.
Defined.

(** ** The clock after the weekly analysis *)

Lemma set_TODAY_agrees (e : env) (P : Z -> option price_data) (d : Z) :
  preserves (agrees e P) (set_TODAY d).
Proof. intros g H. exact H. Qed.

Lemma get_price_on_date_agrees (e : env) (P : Z -> option price_data) (d : Z) :
  preserves (agrees e P) (get_price_on_date e d).
Proof.
  intros g H d'.
  destruct (get_price_on_date_spec e d g) as (g' & -> & _ & Hp & _).
  cbn [snd]. rewrite Hp. apply H.
Qed.

Lemma simulate_investments_agrees (e : env) (P : Z -> option price_data)
    (frequency : string) (ba ea : Q) :
  preserves (agrees e P) (simulate_investments e frequency ba ea).
Proof.
  intros g H d.
  destruct (simulate_investments_steps e frequency ba ea g)
    as (g' & -> & _ & Hp & _).
  cbn [snd]. rewrite Hp. apply H.
Qed.

Lemma weekly_step_agrees (e : env) (P : Z -> option price_data)
    (ws : weekly_state) :
  preserves (agrees e P) (weekly_step e ws).
Proof.
  unfold weekly_step.
  apply preserves_bind; [apply get_TODAY_keeps|]. intros t.
  apply preserves_bind; [apply set_TODAY_agrees|]. intros _.
  apply preserves_bind; [apply simulate_investments_agrees|].
  intros [[[bi ei] bh] eh].
  destruct (apply_manual_transactions e bh eh bi ei) as [[[bh' eh'] bi'] ei'].
  apply preserves_bind; [apply get_price_on_date_agrees|].
  intros [pd|]; [|apply preserves_ret].
  apply preserves_bind; [apply preserves_lift|]. intros l. apply preserves_ret.
Qed.

Lemma weekly_loop_agrees (e : env) (P : Z -> option price_data) (fuel : nat) :
  forall ws, preserves (agrees e P) (weekly_loop fuel e ws).
Proof.
  induction fuel as [|fuel IH]; intros ws; cbn [weekly_loop].
  - apply preserves_raise.
  - destruct (wk_current_date ws <=? now e)%Z; [|apply preserves_ret].
    apply preserves_bind; [apply weekly_step_agrees | apply IH].
Qed.

Lemma calculate_weekly_performance_agrees (e : env)
    (P : Z -> option price_data) :
  preserves (agrees e P) (calculate_weekly_performance e).
Proof.
  unfold calculate_weekly_performance, calculate_weekly_performance_body.
  apply preserves_catch; [|intros; apply preserves_ret].
  apply preserves_bind; [apply weekly_loop_agrees|]. intros ws.
  destruct (temp_today ws); [|apply preserves_raise].
  apply preserves_bind; [apply set_TODAY_agrees|]. intros _. apply preserves_ret.
Qed.

(* with two or more weekly dates up to now, TODAY ends one week before the
   last of them *)
Lemma calculate_weekly_performance_today (e : env) (g : globals) :
  cache_ok g ->
  (START_DATE + 7 <= now e)%Z ->
  exists weekly_performance g',
    calculate_weekly_performance e g = (Ok weekly_performance, g') /\
    cache_ok g' /\
    TODAY g' = (START_DATE + 7 * ((now e - START_DATE) / 7 - 1))%Z.
Proof.
  intros Hc H7.
  unfold calculate_weekly_performance, catch, calculate_weekly_performance_body,
    bind.
  set (ws0 := {| performance_data := []; wk_current_date := START_DATE;
                 previous_value := None; temp_today := None |}).
  set (m := periods (now e) 7).
  destruct (weekly_loop_today e m (sim_fuel (now e)) ws0 g)
    as (ws' & g' & -> & Hc' & Hm).
  - apply periods_fuel. lia.
  - exact Hc.
  - pose proof (periods_stop (now e) 7). cbn [wk_current_date ws0]. fold m in H.
    lia.
  - intros j Hj. pose proof (periods_run (now e) 7 j). cbn [wk_current_date ws0].
    fold m in H. lia.
  - unfold m, periods in Hm.
    destruct (Z.leb_spec START_DATE (now e)) as [Hge|Hlt]; [|lia].
    assert (Hq : (1 <= (now e - START_DATE) / 7)%Z)
      by (apply Z.div_le_lower_bound; lia).
    destruct (Z.to_nat ((now e - START_DATE) / 7 + 1)) as [|[|k]] eqn:En;
      [lia | lia |].
    destruct Hm as [Ht Htmp]. rewrite Htmp. unfold set_TODAY, ret.
    do 2 eexists. split; [reflexivity|]. cbn [TODAY price_cache].
    split; [exact Hc'|]. cbn [wk_current_date ws0]. lia.
Qed.

(* the primary total of a weekly simulation over dates that all have data *)
Lemma simulate_weekly_full (e : env) (ba ea : Q) (g : globals) :
  cache_ok g ->
  (forall j, (0 <= j)%Z -> (START_DATE + j * 7 <= TODAY g)%Z ->
             price_at e (price_cache g) (START_DATE + j * 7)%Z <> None) ->
  exists bi ei bh eh g',
    simulate_investments e "weekly" ba ea g = (Ok (bi, ei, bh, eh), g') /\
    bi == inject_Z (Z.of_nat (periods (TODAY g) 7)) * DEFAULT_BTC_TOTAL.
Proof.
  intros Hc Hdata.
  destruct (simulate_investments_steps e "weekly" ba ea g)
    as (g' & Hrun & _).
  change (interval_of "weekly") with 7%Z in Hrun.
  destruct (steps_no_skip (price_at e (price_cache g)) 7 ba ea
              (price_at_ok e g Hc) (periods (TODAY g) 7) sim_init)
    as (st & Hst & Hbtc & _).
  { intros j Hj. cbn [current_date sim_init]. apply Hdata; [lia|].
    apply periods_run; lia. }
  rewrite Hst in Hrun. cbn [rbind] in Hrun. unfold totals in Hrun.
  do 5 eexists. split; [exact Hrun|].
  rewrite Hbtc. cbn [btc_total_usd sim_init]. ring.
Qed.

(** X16.  One call of the weekly analysis costs the simulator a purchase.
    Take a state whose cached prices are all non-zero and whose TODAY is the
    current date, at least a week after START_DATE, with price data for every
    weekly date.  A weekly simulation
    from that state invests 102 in the primary asset for each of the
    (now - START_DATE) / 7 + 1 weekly dates.  After one call of
    [calculate_weekly_performance] the same simulation invests for one
    weekly date fewer, because TODAY was left a week before the last of
    them. *)
Theorem weekly_analysis_costs_a_purchase (e : env) (ba ea : Q) (g : globals) :
  cache_ok g ->
  TODAY g = now e ->
  (START_DATE + 7 <= now e)%Z ->
  (forall j, (0 <= j)%Z -> (START_DATE + j * 7 <= now e)%Z ->
             price_at e (price_cache g) (START_DATE + j * 7)%Z <> None) ->
  let weekly_dates := ((now e - START_DATE) / 7 + 1)%Z in
  exists bi ei bh eh g0 weekly_performance g1 bi' ei' bh' eh' g2,
    simulate_investments e "weekly" ba ea g = (Ok (bi, ei, bh, eh), g0) /\
    calculate_weekly_performance e g = (Ok weekly_performance, g1) /\
    simulate_investments e "weekly" ba ea g1 = (Ok (bi', ei', bh', eh'), g2) /\
    bi == inject_Z weekly_dates * 102 /\
    bi' == inject_Z (weekly_dates - 1) * 102.
Proof.
  intros Hc Htoday H7 Hdata weekly_dates.
  assert (Hq : (1 <= (now e - START_DATE) / 7)%Z)
    by (apply Z.div_le_lower_bound; lia).
  destruct (simulate_weekly_full e ba ea g Hc)
    as (bi & ei & bh & eh & g0 & Hrun & Hbi).
  { rewrite Htoday. exact Hdata. }
  destruct (calculate_weekly_performance_today e g Hc H7)
    as (wp & g1 & Hwp & Hc1 & Ht1).
  pose proof (calculate_weekly_performance_agrees e
                (price_at e (price_cache g)) g (fun d => eq_refl)) as Hag.
  rewrite Hwp in Hag. cbn [snd] in Hag.
  destruct (simulate_weekly_full e ba ea g1 Hc1)
    as (bi' & ei' & bh' & eh' & g2 & Hrun' & Hbi').
  { intros j Hj Hle. rewrite Hag. apply Hdata; [exact Hj|]. rewrite Ht1 in Hle.
    pose proof (Z.mul_div_le (now e - START_DATE) 7). lia. }
  exists bi, ei, bh, eh, g0, wp, g1, bi', ei', bh', eh', g2.
  split; [exact Hrun|]. split; [exact Hwp|]. split; [exact Hrun'|].
  split.
  - rewrite Hbi, Htoday. unfold periods, weekly_dates, DEFAULT_BTC_TOTAL.
    destruct (Z.leb_spec START_DATE (now e)); [|lia].
    rewrite Z2Nat.id by lia. reflexivity.
  - rewrite Hbi', Ht1. unfold periods, weekly_dates, DEFAULT_BTC_TOTAL.
    destruct (Z.leb_spec START_DATE
                (START_DATE + 7 * ((now e - START_DATE) / 7 - 1))); [|lia].
    replace (START_DATE + 7 * ((now e - START_DATE) / 7 - 1) - START_DATE)%Z
      with (((now e - START_DATE) / 7 - 1) * 7)%Z by lia.
    rewrite Z.div_mul by lia. rewrite Z2Nat.id by lia.
    replace ((now e - START_DATE) / 7 - 1 + 1)%Z
      with ((now e - START_DATE) / 7 + 1 - 1)%Z by lia.
    reflexivity.
Qed.

(** Twenty days after the start, with every price on offer: three purchases
    before the weekly analysis, two after it. *)
Lemma weekly_analysis_costs_a_purchase_witness :
  exists bi ei bh eh g0 weekly_performance g1 bi' ei' bh' eh' g2,
    simulate_investments env_full "weekly" 100 50 globals_three_weeks
      = (Ok (bi, ei, bh, eh), g0) /\
    calculate_weekly_performance env_full globals_three_weeks
      = (Ok weekly_performance, g1) /\
    simulate_investments env_full "weekly" 100 50 g1
      = (Ok (bi', ei', bh', eh'), g2) /\
    bi == 306 /\ bi' == 204.
Proof.
  apply (weekly_analysis_costs_a_purchase env_full 100 50 globals_three_weeks).
  - apply cache_ok_empty.
  - reflexivity.
  - vm_compute. discriminate.
  - intros j _ _. unfold price_at, globals_three_weeks. cbn [price_cache].
    rewrite lookup_empty. discriminate.
Defined.

(** ** Best and worst week *)

Lemma max_by_return_spec (xs : list weekly_point) :
  forall best,
    In (max_by_return best xs) (best :: xs) /\
    forall y, In y (best :: xs) ->
              weekly_return y <= weekly_return (max_by_return best xs).
Proof.
  induction xs as [|x xs IH]; intros best; cbn [max_by_return].
  - split; [left; reflexivity|]. intros y [<-|[]]. lra.
  - destruct (Qltb (weekly_return best) (weekly_return x)) eqn:E.
    + apply Qltb_lt in E. destruct (IH x) as [Hin Hmax]. split.
      * right. exact Hin.
      * intros y [<-|Hy]; [|apply Hmax, Hy].
        specialize (Hmax x (or_introl eq_refl)). lra.
    + apply Qltb_ge in E. destruct (IH best) as [Hin Hmax]. split.
      * destruct Hin as [Hin|Hin]; [left; exact Hin | right; right; exact Hin].
      * intros y [<-|[<-|Hy]].
        -- apply Hmax. left. reflexivity.
        -- specialize (Hmax best (or_introl eq_refl)). lra.
        -- apply Hmax. right. exact Hy.
Qed.

Lemma min_by_return_spec (xs : list weekly_point) :
  forall best,
    In (min_by_return best xs) (best :: xs) /\
    forall y, In y (best :: xs) ->
              weekly_return (min_by_return best xs) <= weekly_return y.
Proof.
  induction xs as [|x xs IH]; intros best; cbn [min_by_return].
  - split; [left; reflexivity|]. intros y [<-|[]]. lra.
  - destruct (Qltb (weekly_return x) (weekly_return best)) eqn:E.
    + apply Qltb_lt in E. destruct (IH x) as [Hin Hmin]. split.
      * right. exact Hin.
      * intros y [<-|Hy]; [|apply Hmin, Hy].
        specialize (Hmin x (or_introl eq_refl)). lra.
    + apply Qltb_ge in E. destruct (IH best) as [Hin Hmin]. split.
      * destruct Hin as [Hin|Hin]; [left; exact Hin | right; right; exact Hin].
      * intros y [<-|[<-|Hy]].
        -- apply Hmin. left. reflexivity.
        -- specialize (Hmin best (or_introl eq_refl)). lra.
        -- apply Hmin. right. exact Hy.
Qed.

Lemma calculate_weekly_performance_total (e : env) (g : globals) :
  exists weekly_performance g',
    calculate_weekly_performance e g = (Ok weekly_performance, g').
Proof.
  unfold calculate_weekly_performance, catch.
  destruct (calculate_weekly_performance_body e g) as [[l|ex] g']; unfold ret;
    eauto.
Qed.

Lemma performance_dict_weeks (v : performance_locals) (bi ei bh eh : Q)
    (cp : price_data) (dca : Q) (best worst : option weekly_point)
    (d : performance_metrics_t) :
  performance_dict v bi ei bh eh cp dca best worst = Ok d ->
  best_week d = week_summary_of best /\ worst_week d = week_summary_of worst.
Proof.
  unfold performance_dict.
  destruct (py_round_num (annualized_return v) 2); [|discriminate]. cbn [rbind].
  destruct (if (0 <? days_invested v)%Z then _ else _); [|discriminate].
  cbn [rbind]. intros [= <-]. split; reflexivity.
Qed.

(** X17.  The reported best and worst week are weeks of the weekly analysis.
    Whenever [calculate_performance_metrics] returns metrics, their best and
    worst week are taken from the list [calculate_weekly_performance]
    returned during the call: an entry with the largest and one with the
    smallest weekly return, or no date and a return of 0 when the list is
    empty.  The weekly analysis catches its own exceptions, so the reported
    weeks never come from the [except] clause with its hard-coded pair
    (2025-04-26, 15.64) and (2025-03-01, -8.09). *)
Theorem reported_weeks_are_computed (e : env) (g g' : globals)
    (d : performance_metrics_t) :
  calculate_performance_metrics e g = (Ok (Some d), g') ->
  exists g1 weekly_performance,
    calculate_weekly_performance e g1 = (Ok weekly_performance, g') /\
    TODAY g1 = TODAY g /\
    match weekly_performance with
    | [] =>
        best_week d = week_summary_of None /\
        worst_week d = week_summary_of None
    | _ :: _ =>
        exists best worst,
          In best weekly_performance /\ In worst weekly_performance /\
          (forall y, In y weekly_performance ->
                     weekly_return worst <= weekly_return y
                     /\ weekly_return y <= weekly_return best) /\
          best_week d = week_summary_of (Some best) /\
          worst_week d = week_summary_of (Some worst)
    end.
Proof.
  intros H. unfold calculate_performance_metrics, catch in H.
  destruct (calculate_performance_metrics_body e g) as [[r|ex] g''] eqn:Eb;
    unfold ret in H; [|discriminate].
  injection H as -> ->.
  unfold calculate_performance_metrics_body, bind in Eb.
  destruct (simulate_investments_steps e "weekly" DEFAULT_BTC_INVEST
              DEFAULT_ETH_INVEST g) as (g1 & Hs & Ht1 & _).
  rewrite Hs in Eb.
  destruct (rbind _ _) as [[[[bi ei] bh] eh]|ex]; [|discriminate].
  destruct (apply_manual_transactions e bh eh bi ei) as [[[bh' eh'] bi'] ei'].
  destruct (get_current_prices e) as [cp|]; [|discriminate].
  unfold lift in Eb.
  destruct (performance_values e bi' ei' bh' eh' cp) as [v|]; [|discriminate].
  destruct (get_price_on_date_spec e START_DATE g1) as (g2 & Hg & Ht2 & _).
  rewrite Hg in Eb.
  destruct (dca_vs_lump_sum_of v _ cp) as [dca|]; [|discriminate].
  unfold catch in Eb.
  destruct (calculate_weekly_performance_total e g2) as (l & g3 & Hw).
  rewrite Hw in Eb. unfold ret in Eb.
  exists g2, l.
  destruct l as [|x xs].
  - destruct (performance_dict v bi' ei' bh' eh' cp dca None None)
      as [d'|] eqn:Ed; [|discriminate].
    injection Eb as -> ->.
    apply performance_dict_weeks in Ed as [-> ->].
    split; [exact Hw|]. split; [congruence|]. split; reflexivity.
  - destruct (performance_dict v bi' ei' bh' eh' cp dca
                (Some (max_by_return x xs)) (Some (min_by_return x xs)))
      as [d'|] eqn:Ed; [|discriminate].
    injection Eb as -> ->.
    apply performance_dict_weeks in Ed as [-> ->].
    split; [exact Hw|]. split; [congruence|].
    destruct (max_by_return_spec xs x) as [Hbin Hmax].
    destruct (min_by_return_spec xs x) as [Hwin Hmin].
    exists (max_by_return x xs), (min_by_return x xs).
    split; [exact Hbin|]. split; [exact Hwin|].
    split; [intros y Hy; split; [apply Hmin, Hy | apply Hmax, Hy]|].
    split; reflexivity.
Qed.

(** Twenty days of data and live spot prices. *)
Lemma reported_weeks_are_computed_witness :
  exists d g' g1 weekly_performance,
    calculate_performance_metrics env_online globals_three_weeks
      = (Ok (Some d), g') /\
    calculate_weekly_performance env_online g1 = (Ok weekly_performance, g') /\
    TODAY g1 = TODAY globals_three_weeks.
Proof.
  destruct (calculate_performance_metrics env_online globals_three_weeks)
    as [[[d|]|ex] g'] eqn:E;
    [|vm_compute in E; discriminate | vm_compute in E; discriminate].
  destruct (reported_weeks_are_computed env_online globals_three_weeks g' d E)
    as (g1 & l & Hw & Ht & _).
  exists d, g', g1, l. auto.
Defined.

(** ** Rounding *)

Lemma round_half_even_error (x : Q) :
  - (1 # 2) <= inject_Z (round_half_even x) - x <= 1 # 2.
Proof.
  unfold round_half_even.
  pose proof (Qfloor_le x) as Hlo. pose proof (Qlt_floor x) as Hhi.
  rewrite inject_Z_plus in Hhi. change (inject_Z 1) with 1 in Hhi.
  destruct (Qcompare_spec (x - inject_Z (Qfloor x)) (1 # 2)) as [E|E|E].
  - destruct (Z.even (Qfloor x)).
    + lra.
    + rewrite inject_Z_plus. change (inject_Z 1) with 1. lra.
  - lra.
  - rewrite inject_Z_plus. change (inject_Z 1) with 1. lra.
Qed.

(* round(x, 2) is within half a cent of x *)
Lemma py_round_2_error (x : Q) :
  - (1 # 200) <= py_round x 2 - x <= 1 # 200.
Proof.
  unfold py_round. change (inject_Z (10 ^ Z.of_nat 2)) with 100.
  pose proof (round_half_even_error (x * 100)) as [Hl Hu].
  set (r := inject_Z (round_half_even (x * 100))) in *.
  assert (E : r / 100 - x == (r - x * 100) * (1 # 100)) by field.
  rewrite E. lra.
Qed.

(** X18.  The rounded portfolio figures add up to within two cents.  In the
    body of a /portfolio response every amount is rounded to cents on its
    own.  The reported total value is within 0.015 of the sum of the reported
    asset values, the reported total invested within 0.015 of the sum of the
    reported invested amounts, and the reported profit within 0.015 of the
    reported total value minus the reported total invested: three half-cent
    rounding errors at most. *)
Theorem portfolio_figures_add_up (btc_invested eth_invested btc_held eth_held : Q)
    (current_prices : price_data) :
  exists v,
    portfolio_values btc_invested eth_invested btc_held eth_held current_prices
      = Ok v /\
    let j := portfolio_json v in
    - (3 # 200) <= p_total_value j - (p_btc_value j + p_eth_value j) <= 3 # 200 /\
    - (3 # 200) <= p_total_invested j - (p_btc_invested j + p_eth_invested j)
      <= 3 # 200 /\
    - (3 # 200) <= p_profit_loss j - (p_total_value j - p_total_invested j)
      <= 3 # 200.
Proof.
  unfold portfolio_values.
  destruct (percent_of_total (btc_held * bitcoin current_prices - btc_invested)
              btc_invested) as [pb ->].
  destruct (percent_of_total (eth_held * ethereum current_prices - eth_invested)
              eth_invested) as [pe ->].
  destruct (percent_of_total
              (btc_held * bitcoin current_prices
               + eth_held * ethereum current_prices
               - (btc_invested + eth_invested))
              (btc_invested + eth_invested)) as [pt ->].
  cbn [rbind]. eexists. split; [reflexivity|].
  cbn [portfolio_json p_total_value p_btc_value p_eth_value p_total_invested
       p_btc_invested p_eth_invested p_profit_loss].
  pose proof (py_round_2_error (btc_held * bitcoin current_prices)).
  pose proof (py_round_2_error (eth_held * ethereum current_prices)).
  pose proof (py_round_2_error (btc_held * bitcoin current_prices
                                + eth_held * ethereum current_prices)).
  pose proof (py_round_2_error btc_invested).
  pose proof (py_round_2_error eth_invested).
  pose proof (py_round_2_error (btc_invested + eth_invested)).
  pose proof (py_round_2_error
                (btc_held * bitcoin current_prices
                 + eth_held * ethereum current_prices
                 - (btc_invested + eth_invested))).
  repeat split; lra.
Qed.

(** ** Maximum drawdown as the largest decline *)

Lemma py_max_ge_r (a b : Q) : b <= py_max a b.
Proof.
  unfold py_max. destruct (Qltb a b) eqn:E.
  - lra.
  - apply Qltb_ge in E. exact E.
Qed.

Lemma py_max_cases (a b : Q) : py_max a b = a \/ py_max a b = b.
Proof. unfold py_max. destruct (Qltb a b); auto. Qed.

Lemma decline_mono (a b v : Q) :
  0 < a -> a <= b -> 0 <= v -> decline a v <= decline b v.
Proof.
  intros Ha Hab Hv. unfold decline.
  apply Qle_shift_div_r; [exact Ha|].
  assert (E : (b - v) / b * a == (b - v) * a / b) by (field; lra).
  rewrite E. apply Qle_shift_div_l; [lra|]. nra.
Qed.

Lemma decline_self (a : Q) : 0 < a -> decline a a == 0.
Proof. intros Ha. unfold decline. field. lra. Qed.

Lemma decline_lt_1 (a b : Q) : 0 < a -> 0 < b -> decline a b < 1.
Proof.
  intros Ha Hb. unfold decline. apply Qlt_shift_div_r; [exact Ha|]. lra.
Qed.

Lemma decline_nonpos (a b : Q) : 0 < a -> (decline a b <= 0 <-> a <= b).
Proof.
  intros Ha. unfold decline. split; intros H.
  - destruct (Qlt_le_dec b a) as [Hlt|Hle]; [|exact Hle].
    exfalso. assert (0 < (a - b) / a) by (apply Qlt_shift_div_l; lra). lra.
  - apply Qle_shift_div_r; [exact Ha|]. lra.
Qed.

Lemma value_pair_shift (p : snapshot) (points : list snapshot) (i j : nat)
    (a b : Q) :
  value_pair points i j a b -> value_pair (p :: points) (S i) (S j) a b.
Proof.
  intros (Hij & pi & pj & Hi & Hj & Ha & Hb).
  split; [lia|]. exists pi, pj. auto.
Qed.

(* the loop from a positive peak over positive values: the result bounds
   every decline from the initial peak and between two of the values, and is
   the initial maximum or one of those declines *)
Lemma drawdown_loop_char (points : list snapshot) :
  forall peak md,
    0 < peak -> all_positive points ->
    exists peak' md',
      drawdown_loop points (peak, md) = Ok (peak', md') /\
      md <= md' /\
      (forall j pj, nth_error points j = Some pj ->
                    decline peak (total_value pj) <= md') /\
      (forall i j a b, value_pair points i j a b -> decline a b <= md') /\
      (md' = md \/
       (exists j pj, nth_error points j = Some pj /\
                     md' = decline peak (total_value pj)) \/
       (exists i j a b, value_pair points i j a b /\ md' = decline a b)).
Proof.
  induction points as [|p ps IH]; intros peak md Hpeak Hpos.
  - exists peak, md. split; [reflexivity|]. split; [lra|].
    split; [intros [|j] pj H; discriminate|].
    split; [|left; reflexivity].
    intros i j a b (_ & pi & pj & Hi & _). destruct i; discriminate.
  - inversion Hpos as [|? ? Hp Hps]; subst.
    cbn [drawdown_loop drawdown_step].
    set (pk := if Qltb peak (total_value p) then total_value p else peak).
    assert (Hpk : peak <= pk /\ total_value p <= pk /\
                  (pk = peak \/ pk = total_value p)).
    { unfold pk. destruct (Qltb peak (total_value p)) eqn:E.
      - apply Qltb_lt in E. split; [lra|]. split; [lra|]. right. reflexivity.
      - apply Qltb_ge in E. split; [lra|]. split; [lra|]. left. reflexivity. }
    destruct Hpk as (Hpk1 & Hpk2 & Hpk3).
    assert (Hpk0 : 0 < pk) by lra.
    rewrite (ratio_of_pos _ _ Hpk0). cbn [rbind].
    fold (decline pk (total_value p)).
    destruct (IH pk (py_max md (decline pk (total_value p))) Hpk0 Hps)
      as (peak' & md' & -> & Hle & Hfrom & Hpairs & Hatt).
    exists peak', md'. split; [reflexivity|].
    pose proof (py_max_ge_l md (decline pk (total_value p))) as Hl.
    pose proof (py_max_ge_r md (decline pk (total_value p))) as Hr.
    split; [lra|].
    assert (Hall : forall j pj, nth_error ps j = Some pj -> 0 < total_value pj).
    { intros j pj Hj. apply nth_error_In in Hj.
      unfold all_positive in Hps. rewrite List.Forall_forall in Hps.
      apply Hps, Hj. }
    split; [|split].
    + intros [|j] pj Hj; cbn [nth_error] in Hj.
      * injection Hj as <-.
        pose proof (decline_mono peak pk (total_value p) Hpeak Hpk1). lra.
      * specialize (Hfrom j pj Hj). specialize (Hall j pj Hj).
        pose proof (decline_mono peak pk (total_value pj) Hpeak Hpk1). lra.
    + intros i j a b (Hij & pi & pj & Hi & Hj & -> & ->).
      destruct i as [|i]; cbn [nth_error] in Hi.
      * injection Hi as <-.
        destruct j as [|j]; cbn [nth_error] in Hj.
        -- injection Hj as <-.
           pose proof (decline_mono (total_value p) pk (total_value p) Hp Hpk2).
           lra.
        -- specialize (Hfrom j pj Hj). specialize (Hall j pj Hj).
           pose proof (decline_mono (total_value p) pk (total_value pj) Hp Hpk2).
           lra.
      * destruct j as [|j]; [lia|]. cbn [nth_error] in Hj.
        apply (Hpairs i j). split; [lia|]. exists pi, pj. auto.
    + assert (Hfirst : forall j pj,
                nth_error (p :: ps) j = Some pj ->
                (exists j' pj', nth_error (p :: ps) j' = Some pj' /\
                                decline pk (total_value pj)
                                = decline peak (total_value pj')) \/
                (exists i' j' a b, value_pair (p :: ps) i' j' a b /\
                                   decline pk (total_value pj) = decline a b)).
      { intros j pj Hj. destruct Hpk3 as [->| ->].
        - left. exists j, pj. auto.
        - right. exists O, j, (total_value p), (total_value pj).
          split; [|reflexivity]. split; [lia|]. exists p, pj. auto. }
      destruct Hatt as [->|[(j & pj & Hj & ->)|(i & j & a & b & Hv & ->)]].
      * destruct (py_max_cases md (decline pk (total_value p))) as [->| ->].
        -- left. reflexivity.
        -- right. apply (Hfirst O p). reflexivity.
      * right. apply (Hfirst (S j) pj). exact Hj.
      * right. right. exists (S i), (S j), a, b.
        split; [apply value_pair_shift, Hv | reflexivity].
Qed.

(* the same for the whole computation *)
Lemma max_drawdown_of_char (first : snapshot) (rest : list snapshot) :
  all_positive (first :: rest) ->
  exists d,
    max_drawdown_of (first :: rest) = Ok d /\
    0 <= d /\
    (forall i j a b, value_pair (first :: rest) i j a b -> decline a b <= d) /\
    (exists i j a b, value_pair (first :: rest) i j a b /\ d == decline a b).
Proof.
  intros Hpos. unfold max_drawdown_of.
  change (py_index (first :: rest) 0) with (Ok first). cbn [rbind].
  assert (Hf : 0 < total_value first) by (inversion Hpos; assumption).
  destruct (drawdown_loop_char (first :: rest) (total_value first) 0 Hf Hpos)
    as (peak' & md' & -> & Hle & Hfrom & Hpairs & Hatt).
  exists md'. cbn [snd rbind]. split; [reflexivity|]. split; [exact Hle|].
  split; [exact Hpairs|].
  destruct Hatt as [->|[(j & pj & Hj & ->)|(i & j & a & b & Hv & ->)]].
  - exists O, O, (total_value first), (total_value first).
    split; [|rewrite decline_self by exact Hf; reflexivity].
    split; [lia|]. exists first, first. auto.
  - exists O, j, (total_value first), (total_value pj).
    split; [|reflexivity]. split; [lia|]. exists first, pj. auto.
  - exists i, j, a, b. split; [exact Hv | reflexivity].
Qed.

(** X19.  The maximum drawdown is the largest relative decline.  For a
    history of positive values the computed max_drawdown is the largest of
    the declines (v_i - v_j) / v_i from a value to itself or a later one: it
    bounds every such decline, it is one of them, and it lies in [0, 1). *)
Theorem max_drawdown_is_largest_decline (first : snapshot)
    (rest : list snapshot) :
  all_positive (first :: rest) ->
  exists d,
    max_drawdown_of (first :: rest) = Ok d /\
    0 <= d /\ d < 1 /\
    (forall i j a b, value_pair (first :: rest) i j a b -> decline a b <= d) /\
    (exists i j a b, value_pair (first :: rest) i j a b /\ d == decline a b).
Proof.
  intros Hpos.
  destruct (max_drawdown_of_char first rest Hpos)
    as (d & Hd & H0 & Hpairs & (i & j & a & b & Hv & Hatt)).
  exists d. split; [exact Hd|]. split; [exact H0|]. split.
  - rewrite Hatt.
    destruct Hv as (_ & pi & pj & Hi & Hj & -> & ->).
    apply nth_error_In in Hi, Hj.
    unfold all_positive in Hpos. rewrite List.Forall_forall in Hpos.
    apply decline_lt_1; apply Hpos; assumption.
  - split; [exact Hpairs|]. exists i, j, a, b. auto.
Qed.

(** From 100 up to 200, down to 150 and up to 180: every decline is at most
    the reported drawdown. *)
Lemma max_drawdown_is_largest_decline_witness :
  exists d,
    max_drawdown_of [snap 100; snap 200; snap 150; snap 180] = Ok d /\
    0 <= d /\ d < 1 /\
    (forall i j a b,
       value_pair [snap 100; snap 200; snap 150; snap 180] i j a b ->
       decline a b <= d) /\
    (exists i j a b,
       value_pair [snap 100; snap 200; snap 150; snap 180] i j a b /\
       d == decline a b).
Proof.
  apply (max_drawdown_is_largest_decline (snap 100)
           [snap 200; snap 150; snap 180]).
  repeat constructor.
Defined.

Lemma sorted_of_pairs (history : list snapshot) :
  all_positive history ->
  (forall i j a b, value_pair history i j a b -> a <= b) ->
  nondecreasing history.
Proof.
  unfold nondecreasing.
  induction history as [|p ps IH]; intros Hpos Hpairs; [constructor|].
  inversion Hpos; subst.
  constructor.
  - apply IH; [assumption|]. intros i j a b Hv.
    apply (Hpairs (S i) (S j)), value_pair_shift, Hv.
  - destruct ps as [|q ps]; constructor.
    apply (Hpairs 0%nat 1%nat). split; [lia|]. exists p, q. auto.
Qed.

(** X20.  No drawdown only without a fall.  For a history of positive
    values the computed max_drawdown is 0 exactly when the values never
    fall from one entry to the next. *)
Theorem zero_drawdown_iff_nondecreasing (first : snapshot)
    (rest : list snapshot) :
  all_positive (first :: rest) ->
  exists d,
    max_drawdown_of (first :: rest) = Ok d /\
    (d == 0 <-> nondecreasing (first :: rest)).
Proof.
  intros Hpos.
  destruct (max_drawdown_of_char first rest Hpos)
    as (d & Hd & H0 & Hpairs & (i & j & a & b & Hv & Hatt)).
  exists d. split; [exact Hd|]. split.
  - intros Hz. apply sorted_of_pairs; [exact Hpos|].
    intros i' j' a' b' Hv'. specialize (Hpairs i' j' a' b' Hv').
    apply decline_nonpos; [|lra].
    destruct Hv' as (_ & pi & pj & Hi & _ & -> & _).
    apply nth_error_In in Hi.
    unfold all_positive in Hpos. rewrite List.Forall_forall in Hpos.
    apply Hpos, Hi.
  - intros Hs.
    destruct (drawdown_loop_nondecreasing (first :: rest) (total_value first) Hs)
      as (peak' & Hloop).
    { intros x [= <-]. lra. }
    unfold max_drawdown_of in Hd.
    change (py_index (first :: rest) 0) with (Ok first) in Hd.
    cbn [rbind] in Hd. rewrite Hloop in Hd. cbn [rbind snd] in Hd.
    injection Hd as <-. reflexivity.
Qed.

(** A fall from 200 to 150 shows up as a drawdown. *)
Lemma zero_drawdown_iff_nondecreasing_witness :
  exists d,
    max_drawdown_of [snap 100; snap 200; snap 150] = Ok d /\
    (d == 0 <-> nondecreasing [snap 100; snap 200; snap 150]).
Proof.
  apply (zero_drawdown_iff_nondecreasing (snap 100) [snap 200; snap 150]).
  repeat constructor.
Defined.

(** ** Value at risk as an order statistic *)

Lemma filter_perm {A} (f : A -> bool) (l l' : list A) :
  Permutation l l' -> Permutation (List.filter f l) (List.filter f l').
Proof.
  induction 1 as [|x l l' _ IH|x y l|l1 l2 l3 _ IH1 _ IH2]; simpl.
  - constructor.
  - destruct (f x); [constructor|]; exact IH.
  - destruct (f x), (f y); try reflexivity. apply perm_swap.
  - etransitivity; eassumption.
Qed.

Lemma value_at_risk_nth (daily_returns : list Q) (portfolio_value : Q) :
  (20 <= length daily_returns)%nat ->
  exists var_95,
    value_at_risk daily_returns portfolio_value
      = Ok (var_95, var_95 * portfolio_value) /\
    nth_error (py_sorted daily_returns) (length daily_returns / 20) = Some var_95.
Proof.
  intros Hn. unfold value_at_risk.
  set (n := length daily_returns) in *.
  destruct (Nat.leb_spec 20 n); [|lia].
  destruct (var_index n) as [_ ->].
  assert (Hk : Z.to_nat (Z.of_nat n / 20) = (n / 20)%nat).
  { change 20%Z with (Z.of_nat 20). rewrite <- Nat2Z.inj_div. apply Nat2Z.id. }
  assert (Hlt : (n / 20 < length (py_sorted daily_returns))%nat).
  { rewrite py_sorted_length. fold n. apply Nat.Div0.div_lt_upper_bound. lia. }
  unfold py_index.
  assert ((Z.of_nat n / 20 <? 0)%Z = false) as ->
    by (apply Z.ltb_ge, Z.div_pos; lia).
  assert ((Z.of_nat n / 20 <? 0)%Z = false) as ->
    by (apply Z.ltb_ge, Z.div_pos; lia).
  rewrite Hk.
  destruct (nth_error (py_sorted daily_returns) (n / 20)) as [v|] eqn:Hnth.
  - exists v. split; reflexivity.
  - apply nth_error_None in Hnth. lia.
Qed.

Lemma sorted_count_below (s : list Q) :
  StronglySorted Qle s ->
  forall k v,
    nth_error s k = Some v ->
    (length (List.filter (fun r => Qltb r v) s) <= k)%nat /\
    (k < length (List.filter (fun r => Qle_bool r v) s))%nat.
Proof.
  induction 1 as [|x s Hs IH Hx]; intros k v Hk; [destruct k; discriminate|].
  rewrite List.Forall_forall in Hx.
  destruct k as [|k]; cbn [nth_error] in Hk.
  - injection Hk as <-. cbn [List.filter].
    assert (Qltb x x = false) as -> by (apply Qltb_ge; lra).
    assert (Qle_bool x x = true) as -> by (apply Qle_bool_iff; lra).
    split; [|simpl; lia].
    assert (E : List.filter (fun r => Qltb r x) s = []).
    { clear IH Hs. induction s as [|y s IHs]; [reflexivity|]. cbn [List.filter].
      assert (Qltb y x = false) as ->
        by (apply Qltb_ge, Hx; left; reflexivity).
      apply IHs. intros z Hz. apply Hx. right. exact Hz. }
    rewrite E. simpl. lia.
  - destruct (IH k v Hk) as [Hlt Hle]. cbn [List.filter].
    assert (Hxv : x <= v) by (apply Hx; eapply nth_error_In, Hk).
    assert (Qle_bool x v = true) as -> by (apply Qle_bool_iff, Hxv).
    split; [destruct (Qltb x v)|]; simpl; lia.
Qed.

(** X21.  What the 95 percent value at risk means.  With n >= 20 daily
    returns, var_95 is one of the returns; at most floor(n / 20) of the
    returns, that is at most 5 percent of them, are strictly below it, and
    more than floor(n / 20) of them are at or below it. *)
Theorem value_at_risk_is_order_statistic (daily_returns : list Q)
    (portfolio_value : Q) :
  (20 <= length daily_returns)%nat ->
  exists var_95,
    value_at_risk daily_returns portfolio_value
      = Ok (var_95, var_95 * portfolio_value) /\
    In var_95 daily_returns /\
    (length (List.filter (fun r => Qltb r var_95) daily_returns)
     <= length daily_returns / 20)%nat /\
    (length daily_returns / 20
     < length (List.filter (fun r => Qle_bool r var_95) daily_returns))%nat.
Proof.
  intros Hn.
  destruct (value_at_risk_nth daily_returns portfolio_value Hn)
    as (v & Hv & Hnth).
  exists v. split; [exact Hv|].
  pose proof (py_sorted_perm daily_returns) as Hperm.
  split.
  - eapply Permutation_in; [exact Hperm|]. eapply nth_error_In, Hnth.
  - assert (Hss : StronglySorted Qle (py_sorted daily_returns)).
    { apply Sorted_StronglySorted; [|apply py_sorted_sorted].
      intros x y z. apply Qle_trans. }
    destruct (sorted_count_below _ Hss _ _ Hnth) as [Hlt Hle].
    rewrite <- (Permutation_length
                  (filter_perm (fun r => Qltb r v) _ _ Hperm)).
    rewrite <- (Permutation_length
                  (filter_perm (fun r => Qle_bool r v) _ _ Hperm)).
    split; assumption.
Qed.

(** Twenty returns: exactly one of them is below the reported value. *)
Lemma value_at_risk_is_order_statistic_witness :
  exists var_95,
    value_at_risk twenty_returns 1250 = Ok (var_95, var_95 * 1250) /\
    In var_95 twenty_returns /\
    (length (List.filter (fun r => Qltb r var_95) twenty_returns) <= 1)%nat /\
    (1 < length (List.filter (fun r => Qle_bool r var_95) twenty_returns))%nat.
Proof.
  apply (value_at_risk_is_order_statistic twenty_returns 1250).
  simpl. lia.
Defined.

(** ** Outcomes of the risk analytics *)

Lemma daily_returns_of_total (history : list snapshot) :
  exists l,
    daily_returns_of history = Ok l /\
    length l = length (positive_predecessors history).
Proof.
  unfold positive_predecessors.
  induction history as [|prev rest IH]; [exists []; auto|].
  destruct rest as [|curr rest']; [exists []; auto|].
  change (daily_returns_of (prev :: curr :: rest'))
    with (if Qltb 0 (total_value prev) then
            dor daily_return <-
              py_div (total_value curr - total_value prev) (total_value prev);
            dor tl <- daily_returns_of (curr :: rest');
            Ok (daily_return :: tl)
          else daily_returns_of (curr :: rest')).
  change (removelast (prev :: curr :: rest'))
    with (prev :: removelast (curr :: rest')).
  cbn [List.filter].
  destruct IH as (tl & Htl & Hlen).
  destruct (Qltb 0 (total_value prev)) eqn:E.
  - apply Qltb_lt in E. rewrite py_div_pos by assumption. cbn [rbind].
    rewrite Htl. cbn [rbind]. eexists. split; [reflexivity|].
    cbn [length]. rewrite Hlen. reflexivity.
  - rewrite Htl. exists tl. auto.
Qed.

Lemma statistics_mean_total (x : Q) (xs : list Q) :
  exists m, statistics_mean (x :: xs) = Ok m.
Proof.
  unfold statistics_mean. rewrite py_div_ok; [eauto|].
  apply length_nonzero. simpl. lia.
Qed.

Lemma statistics_stdev_total (e : env) (xs : list Q) :
  (2 <= length xs)%nat -> exists s, statistics_stdev e xs = Ok s.
Proof.
  intros Hn. unfold statistics_stdev.
  destruct (Nat.ltb_spec (length xs) 2); [lia|].
  destruct xs as [|x xs]; [simpl in Hn; lia|].
  destruct (statistics_mean_total x xs) as [m ->]. cbn [rbind].
  rewrite py_div_ok; [cbn [rbind]; eauto|].
  intros E. unfold Qeq in E. simpl in E. simpl in Hn. lia.
Qed.

Lemma value_at_risk_total (daily_returns : list Q) (portfolio_value : Q) :
  exists v d, value_at_risk daily_returns portfolio_value = Ok (v, d).
Proof.
  destruct (Nat.leb_spec 20 (length daily_returns)) as [H|H].
  - destruct (value_at_risk_nth daily_returns portfolio_value H) as (v & -> & _).
    eauto.
  - unfold value_at_risk.
    destruct (Nat.leb_spec 20 (length daily_returns)); [lia | eauto].
Qed.

(** X22.  The risk analytics cannot fail on any history.  Given the
    portfolio summary and whatever list of history entries, the computation
    raises nothing.  It answers 500 for an empty history, 400 for a single
    entry, 400 when no entry but the last has a positive value (no daily
    return can be formed), and otherwise 200 with days_tracked equal to the
    number of entries. *)
Theorem risk_analytics_outcomes (e : env) (portfolio_data : portfolio_summary)
    (history : list snapshot) :
  exists resp,
    risk_analytics e portfolio_data history = Ok resp /\
    (history = [] -> status_of resp = 500%Z) /\
    (length history = 1%nat -> status_of resp = 400%Z) /\
    ((2 <= length history)%nat -> positive_predecessors history = [] ->
     status_of resp = 400%Z) /\
    ((2 <= length history)%nat -> positive_predecessors history <> [] ->
     exists analytics,
       resp = Jsonify analytics 200 /\
       days_tracked analytics = length history).
Proof.
  unfold risk_analytics.
  destruct history as [|h0 history'].
  { eexists. split; [reflexivity|]. cbn [length].
    split; [reflexivity|]. split; [discriminate|]. split; intros; lia. }
  destruct (Nat.ltb_spec (length (h0 :: history')) 2) as [Hlen|Hlen].
  { eexists. split; [reflexivity|].
    split; [discriminate|]. split; [reflexivity|]. split; intros; lia. }
  destruct (daily_returns_of_total (h0 :: history')) as (l & -> & Hl).
  cbn [rbind].
  destruct l as [|r0 rs].
  { eexists. split; [reflexivity|].
    split; [discriminate|]. split; [intros; lia|]. split; [reflexivity|].
    intros _ Hne. exfalso. apply Hne.
    destruct (positive_predecessors (h0 :: history')); [reflexivity|discriminate]. }
  change (0 <? length (r0 :: rs))%nat with true. cbv iota.
  destruct (statistics_mean_total r0 rs) as [avg ->]. cbn [rbind].
  assert (Hvol : exists vol,
            (if (1 <? length (r0 :: rs))%nat
             then statistics_stdev e (r0 :: rs) else Ok 0) = Ok vol).
  { destruct (Nat.ltb_spec 1 (length (r0 :: rs))); [|eauto].
    apply statistics_stdev_total. lia. }
  destruct Hvol as [vol ->]. cbn [rbind].
  destruct (ratio_of_total (avg * 365 - (2 # 100)) (vol * float_sqrt e 365))
    as [sharpe ->]. cbn [rbind].
  assert (Hdd : exists dd, max_drawdown_of (h0 :: history') = Ok dd).
  { unfold max_drawdown_of.
    change (py_index (h0 :: history') 0) with (Ok h0). cbn [rbind].
    destruct (drawdown_loop_lower_bound (h0 :: history') (total_value h0) 0)
      as (peak' & md' & -> & _).
    cbn [rbind]. eauto. }
  destruct Hdd as [dd ->]. cbn [rbind].
  destruct (ratio_of_total (ps_btc_invested portfolio_data)
              (ps_btc_invested portfolio_data + ps_eth_invested portfolio_data))
    as [ba ->]. cbn [rbind].
  destruct (ratio_of_total (ps_eth_invested portfolio_data)
              (ps_btc_invested portfolio_data + ps_eth_invested portfolio_data))
    as [ea ->]. cbn [rbind].
  destruct (value_at_risk_total (r0 :: rs) (ps_total_value portfolio_data))
    as (v & d & ->). cbn [rbind].
  eexists. split; [reflexivity|].
  split; [discriminate|]. split; [intros; lia|]. split.
  - intros _ Hnil. rewrite Hnil in Hl. discriminate.
  - intros _ _. eexists. split; reflexivity.
Qed.

Lemma risk_analytics_outcomes_witness :
  exists analytics,
    risk_analytics env_full
      {| ps_btc_invested := 100; ps_eth_invested := 50; ps_total_value := 105;
         ps_total_profit_loss := - (45); ps_total_profit_loss_percent := - (30) |}
      [snap 100; snap 110; snap 105] = Ok (Jsonify analytics 200) /\
    days_tracked analytics = 3%nat.
Proof.
  destruct (risk_analytics_outcomes env_full
              {| ps_btc_invested := 100; ps_eth_invested := 50;
                 ps_total_value := 105; ps_total_profit_loss := - (45);
                 ps_total_profit_loss_percent := - (30) |}
              [snap 100; snap 110; snap 105])
    as (resp & Hr & _ & _ & _ & H200).
  destruct H200 as (a & -> & Hd); [simpl; lia | vm_compute; discriminate |].
  exists a. split; assumption.
Defined.

(** ** Price alerts *)

Lemma check_alert_loop (m : mailer) (prices : price_data)
    (alerts : list price_alert) :
  forall triggered keep position,
    exists sent kept position',
      fold_left (check_alert m prices) alerts (triggered, keep, position)
      = (triggered ++ sent, keep ++ kept, position') /\
      Permutation (sent ++ kept) alerts /\
      kept `sublist_of` alerts /\
      sent `sublist_of` alerts /\
      Forall (fun x => alert_reached prices x /\ alert_mailed m x) sent /\
      (forall a, In a alerts -> ~ alert_reached prices a -> In a kept) /\
      ((forall i a, send_email_alert m i a = false) -> sent = []).
Proof.
  induction alerts as [|a alerts IH]; intros triggered keep position.
  - exists [], [], position. cbn [fold_left]. rewrite !app_nil_r.
    split; [reflexivity|]. split; [constructor|].
    split; [constructor|]. split; [constructor|]. split; [constructor|].
    split; [intros ? []|]. reflexivity.
  - cbn [fold_left]. unfold check_alert at 2.
    assert (Hkeep :
      exists sent kept position',
        fold_left (check_alert m prices) alerts
          (triggered, keep ++ [a], S position)
        = (triggered ++ sent, keep ++ kept, position') /\
        Permutation (sent ++ kept) (a :: alerts) /\
        kept `sublist_of` (a :: alerts) /\
        sent `sublist_of` (a :: alerts) /\
        Forall (fun x => alert_reached prices x /\ alert_mailed m x) sent /\
        (forall x, In x alerts -> ~ alert_reached prices x -> In x kept) /\
        In a kept /\
        ((forall i x, send_email_alert m i x = false) -> sent = [])).
    { destruct (IH triggered (keep ++ [a]) (S position))
        as (sent & kept & p' & -> & Hperm & Hk & Hs & Hr & Hstay & Hoff).
      exists sent, (a :: kept), p'. rewrite <- app_assoc.
      split; [reflexivity|].
      split; [rewrite <- Permutation_middle; constructor; exact Hperm|].
      split; [apply sublist_skip, Hk|]. split; [apply sublist_cons, Hs|].
      split; [exact Hr|].
      split; [intros x Hx Hn; right; apply Hstay; assumption|].
      split; [left; reflexivity | exact Hoff]. }
    assert (Hdone :
      (exists sent kept position',
         fold_left (check_alert m prices) alerts
           (triggered, keep ++ [a], S position)
         = (triggered ++ sent, keep ++ kept, position') /\
         Permutation (sent ++ kept) (a :: alerts) /\
         kept `sublist_of` (a :: alerts) /\
         sent `sublist_of` (a :: alerts) /\
         Forall (fun x => alert_reached prices x /\ alert_mailed m x) sent /\
         (forall x, In x alerts -> ~ alert_reached prices x -> In x kept) /\
         In a kept /\
         ((forall i x, send_email_alert m i x = false) -> sent = [])) ->
      exists sent kept position',
        fold_left (check_alert m prices) alerts
          (triggered, keep ++ [a], S position)
        = (triggered ++ sent, keep ++ kept, position') /\
        Permutation (sent ++ kept) (a :: alerts) /\
        kept `sublist_of` (a :: alerts) /\
        sent `sublist_of` (a :: alerts) /\
        Forall (fun x => alert_reached prices x /\ alert_mailed m x) sent /\
        (forall x, In x (a :: alerts) -> ~ alert_reached prices x -> In x kept) /\
        ((forall i x, send_email_alert m i x = false) -> sent = [])).
    { intros (sent & kept & p' & H1 & H2 & H3 & H4 & H5 & H6 & H7 & H8).
      exists sent, kept, p'. repeat (split; [assumption|]).
      split; [|exact H8]. intros x [<-|Hx] Hn; [exact H7 | apply H6; assumption]. }
    destruct (alert_target_price a) as [target|] eqn:Et; [|apply Hdone, Hkeep].
    destruct (alert_triggered prices a target) eqn:Etr; [|apply Hdone, Hkeep].
    destruct (send_email_alert m position a) eqn:Es; [|apply Hdone, Hkeep].
    destruct (IH (triggered ++ [a]) keep (S position))
      as (sent & kept & p' & -> & Hperm & Hk & Hs & Hr & Hstay & Hoff).
    exists (a :: sent), kept, p'. rewrite <- app_assoc.
    split; [reflexivity|].
    split; [cbn [app]; constructor; exact Hperm|].
    split; [apply sublist_cons, Hk|]. split; [apply sublist_skip, Hs|].
    split; [constructor; [split; [exists target; auto | exists position; exact Es]
                         | exact Hr]|].
    split.
    + intros x [<-|Hx] Hn; [|apply Hstay; assumption].
      exfalso. apply Hn. exists target. auto.
    + intros Hnever. rewrite Hnever in Es. discriminate.
Qed.

(** X23.  An alert leaves the file only when its mail went out.  One run of
    [check_price_alerts] splits the stored alerts into those it keeps, in
    their order, and those it removes.  Every removed alert had reached its
    target at the current prices and its notification was accepted for
    delivery; an alert that has not reached its target stays.  When mail is
    switched off or no sender is configured, nothing is removed and the file
    is left as it was, so a reached alert is retried at every check. *)
Theorem alert_removed_only_when_mailed (e : env) (m : mailer)
    (alerts : list price_alert) :
  exists stored sent,
    check_price_alerts e m alerts = (stored, sent) /\
    Permutation (sent ++ stored) alerts /\
    stored `sublist_of` alerts /\
    sent `sublist_of` alerts /\
    Forall (fun a => alert_reached (get_current_prices_cached e) a /\
                     alert_mailed m a) sent /\
    (forall a, In a alerts ->
               ~ alert_reached (get_current_prices_cached e) a -> In a stored) /\
    (email_enabled m = false \/ email_user m = "" ->
     stored = alerts /\ sent = []).
Proof.
  unfold check_price_alerts.
  destruct alerts as [|a0 alerts'].
  { exists [], []. split; [reflexivity|]. split; [constructor|].
    split; [constructor|]. split; [constructor|]. split; [constructor|].
    split; [intros ? []|]. auto. }
  set (alerts := a0 :: alerts').
  destruct (check_alert_loop m (get_current_prices_cached e) alerts [] [] O)
    as (sent & kept & p' & -> & Hperm & Hk & Hs & Hr & Hstay & Hoff).
  cbn [app].
  assert (Hmail : email_enabled m = false \/ email_user m = "" -> sent = []).
  { intros Hm. apply Hoff. intros i a. unfold send_email_alert.
    destruct Hm as [-> | ->]; [reflexivity|].
    rewrite orb_true_r. reflexivity. }
  destruct sent as [|s sent].
  - exists alerts, []. split; [reflexivity|]. split; [reflexivity|].
    split; [reflexivity|]. split; [apply sublist_nil_l|].
    split; [constructor|]. split; [auto|]. auto.
  - exists kept, (s :: sent). split; [reflexivity|].
    split; [exact Hperm|]. split; [exact Hk|]. split; [exact Hs|].
    split; [exact Hr|]. split; [exact Hstay|].
    intros Hm. specialize (Hmail Hm). discriminate.
Qed.

(** Mail switched off: a reached alert stays in the file. *)
Lemma alert_removed_only_when_mailed_witness :
  exists stored sent,
    check_price_alerts env_online mail_off [btc_above_55000; eth_below_2000]
      = (stored, sent) /\
    stored = [btc_above_55000; eth_below_2000] /\ sent = [].
Proof.
  destruct (alert_removed_only_when_mailed env_online mail_off
              [btc_above_55000; eth_below_2000])
    as (stored & sent & Hrun & _ & _ & _ & _ & _ & Hoff).
  exists stored, sent. split; [exact Hrun|]. apply Hoff. left. reflexivity.
Defined.

(** ** Performance metrics of an oversold ledger *)

Lemma simulate_investments_Ok (e : env) (frequency : string) (ba ea : Q)
    (g : globals) :
  cache_ok g ->
  exists bi ei bh eh g',
    simulate_investments e frequency ba ea g = (Ok (bi, ei, bh, eh), g') /\
    cache_ok g'.
Proof.
  intros Hc.
  destruct (simulate_investments_steps e frequency ba ea g)
    as (g' & -> & _ & _ & Hc').
  destruct (steps_data (price_at e (price_cache g)) (interval_of frequency)
              ba ea (price_at_ok e g Hc)
              (periods (TODAY g) (interval_of frequency)) sim_init)
    as (st' & -> & _).
  cbn [rbind]. unfold totals. do 5 eexists. split; [reflexivity | auto].
Qed.

(* 1 / years_invested is never a whole number: 365.25 is not a multiple of
   a whole number of days *)
Lemma exponent_not_integer (days : Z) :
  (0 < days)%Z ->
  is_integer (1 / (inject_Z days / (36525 # 100))) = false.
Proof.
  intros Hd. unfold is_integer.
  destruct (Qeq_bool _ _) eqn:E; [|reflexivity]. exfalso.
  apply Qeq_bool_iff in E.
  set (k := Qfloor (1 / (inject_Z days / (36525 # 100)))) in E.
  assert (Hdq : 0 < inject_Z days).
  { change 0 with (inject_Z 0). rewrite <- Zlt_Qlt. exact Hd. }
  assert (E' : (36525 # 100) == inject_Z k * inject_Z days).
  { rewrite <- E. field. lra. }
  rewrite <- inject_Z_mult in E'. unfold Qeq in E'. simpl in E'.
  lia.
Qed.

Lemma years_positive (days : Z) :
  (0 < days)%Z -> 0 < inject_Z days / (36525 # 100).
Proof.
  intros Hd.
  assert (0 < inject_Z days).
  { change 0 with (inject_Z 0). rewrite <- Zlt_Qlt. exact Hd. }
  apply Qlt_shift_div_l; lra.
Qed.

(* a negative value raised to the fractional power gives a complex number *)
Lemma annualized_return_of_negative (e : env) (value invested : Q) (days : Z) :
  value < 0 -> 0 < invested -> (0 < days)%Z ->
  annualized_return_of e value invested (inject_Z days / (36525 # 100))
  = Ok Complex.
Proof.
  intros Hv Hi Hd. unfold annualized_return_of.
  set (years := inject_Z days / (36525 # 100)).
  pose proof (years_positive days Hd) as Hy. fold years in Hy.
  rewrite (proj2 (Qltb_lt 0 years) Hy), (proj2 (Qltb_lt 0 invested) Hi).
  cbn [andb]. rewrite !py_div_pos by assumption. cbn [rbind].
  unfold py_pow.
  assert (Qltb (1 / years) 0 = false) as ->.
  { apply Qltb_ge. apply Qle_shift_div_l; lra. }
  rewrite Bool.andb_false_r.
  assert (Qltb (value / invested) 0 = true) as ->.
  { apply Qltb_lt. apply Qlt_shift_div_r; lra. }
  unfold years. rewrite (exponent_not_integer days Hd). reflexivity.
Qed.

Lemma performance_values_annualized (e : env) (bi ei bh eh : Q)
    (cp : price_data) :
  exists w,
    performance_values e bi ei bh eh cp = Ok w /\
    annualized_return_of e (bh * bitcoin cp + eh * ethereum cp) (bi + ei)
      (inject_Z (now e - START_DATE) / (36525 # 100))
    = Ok (annualized_return w) /\
    days_invested w = (now e - START_DATE)%Z.
Proof.
  unfold performance_values.
  set (total := bh * bitcoin cp + eh * ethereum cp).
  set (invested := bi + ei).
  destruct (percent_of_total (total - invested) invested) as [pt ->].
  destruct (percent_of_total (bh * bitcoin cp - bi) bi) as [pb ->].
  destruct (percent_of_total (eh * ethereum cp - ei) ei) as [pe ->].
  destruct (annualized_return_of_total e total invested
              (inject_Z (now e - START_DATE) / (36525 # 100))) as [ar Har].
  destruct (percent_of_total (bh * bitcoin cp) total) as [ab ->].
  destruct (percent_of_total (eh * ethereum cp) total) as [ae ->].
  destruct (ratio_of_total bi bh) as [vb ->].
  destruct (ratio_of_total ei eh) as [ve ->].
  rewrite Har. cbn [rbind]. eexists. split; [reflexivity|].
  cbn [annualized_return days_invested]. split; reflexivity.
Qed.

Lemma dca_vs_lump_sum_of_total (v : performance_locals)
    (start_prices : option price_data) (cp : price_data) :
  (forall pd, start_prices = Some pd -> nonzero pd) ->
  exists dca, dca_vs_lump_sum_of v start_prices cp = Ok dca.
Proof.
  intros Hnz. unfold dca_vs_lump_sum_of.
  destruct start_prices as [sp|]; [|eauto].
  destruct (Hnz sp eq_refl) as [Hb He].
  rewrite !py_div_ok by assumption. cbn [rbind]. apply percent_of_total.
Qed.

Lemma performance_dict_outcome (v : performance_locals) (bi ei bh eh : Q)
    (cp : price_data) (dca : Q) (best worst : option weekly_point) :
  match annualized_return v with
  | Real _ => exists d, performance_dict v bi ei bh eh cp dca best worst = Ok d
  | Complex => performance_dict v bi ei bh eh cp dca best worst = Raise TypeError
  end.
Proof.
  unfold performance_dict.
  destruct (annualized_return v) as [q|]; [|reflexivity].
  cbn [py_round_num rbind].
  destruct (Z.ltb_spec 0 (days_invested v)) as [Hd|Hd]; cbn [rbind]; [|eauto].
  rewrite py_div_ok by (apply weeks_invested_nonzero, Hd).
  cbn [rbind]. eauto.
Qed.

(* the function runs as far as the returned dictionary *)
Lemma calculate_performance_metrics_run (e : env) (g : globals)
    (cp : price_data) :
  cache_ok g ->
  spot_api e = Some cp ->
  exists bi ei bh eh g1 v dca best worst g',
    simulate_investments e "weekly" DEFAULT_BTC_INVEST DEFAULT_ETH_INVEST g
    = (Ok (bi, ei, bh, eh), g1) /\
    (forall bh' eh' bi' ei',
       apply_manual_transactions e bh eh bi ei = (bh', eh', bi', ei') ->
       annualized_return_of e (bh' * bitcoin cp + eh' * ethereum cp)
         (bi' + ei') (inject_Z (now e - START_DATE) / (36525 # 100))
       = Ok (annualized_return v) /\
       calculate_performance_metrics e g
       = (match performance_dict v bi' ei' bh' eh' cp dca best worst with
          | Ok d => Ok (Some d)
          | Raise _ => Ok None
          end, g')).
Proof.
  intros Hc Hspot.
  destruct (simulate_investments_Ok e "weekly" DEFAULT_BTC_INVEST
              DEFAULT_ETH_INVEST g Hc) as (bi & ei & bh & eh & g1 & Hs & Hc1).
  destruct (apply_manual_transactions e bh eh bi ei) as [[[bh' eh'] bi'] ei']
    eqn:Em.
  destruct (performance_values_annualized e bi' ei' bh' eh' cp)
    as (v & Hv & Han & _).
  destruct (get_price_on_date_spec e START_DATE g1) as (g2 & Hg & _ & _ & Hc2).
  destruct (dca_vs_lump_sum_of_total v (price_at e (price_cache g1) START_DATE) cp)
    as [dca Hdca].
  { intros pd Hpd. eapply price_at_ok; eassumption. }
  destruct (calculate_weekly_performance_total e g2) as (l & g3 & Hw).
  exists bi, ei, bh, eh, g1, v, dca.
  exists (match l with [] => None | x :: xs => Some (max_by_return x xs) end).
  exists (match l with [] => None | x :: xs => Some (min_by_return x xs) end).
  exists g3. split; [exact Hs|].
  intros bh2 eh2 bi2 ei2 Hm. rewrite Em in Hm. injection Hm as <- <- <- <-.
  split; [exact Han|].
  unfold calculate_performance_metrics, calculate_performance_metrics_body,
    catch, bind, get_current_prices.
  rewrite Hs, Em, Hspot. unfold lift. rewrite Hv, Hg, Hdca, Hw. unfold ret.
  destruct l as [|x xs];
    match goal with |- context [performance_dict ?a ?b ?c ?d ?f ?g ?h ?i ?j] =>
      destruct (performance_dict a b c d f g h i j) end; reflexivity.
Qed.

(** X24.  An oversold ledger hides the performance metrics.  From a cache of
    non-zero prices and with live spot prices, when the value of the merged
    holdings is negative while the invested amount is positive and now is
    after START_DATE (a ledger that sells more than it holds produces this),
    the annualized return is a negative number raised to the fractional
    power 365.25 / days, the dictionary cannot be built, and
    [calculate_performance_metrics] returns None. *)
Theorem oversold_ledger_hides_metrics (e : env) (g : globals)
    (cp : price_data) :
  cache_ok g ->
  spot_api e = Some cp ->
  exists bi ei bh eh g1,
    simulate_investments e "weekly" DEFAULT_BTC_INVEST DEFAULT_ETH_INVEST g
    = (Ok (bi, ei, bh, eh), g1) /\
    forall bh' eh' bi' ei',
      apply_manual_transactions e bh eh bi ei = (bh', eh', bi', ei') ->
      bh' * bitcoin cp + eh' * ethereum cp < 0 ->
      0 < bi' + ei' ->
      (START_DATE < now e)%Z ->
      fst (calculate_performance_metrics e g) = Ok None.
Proof.
  intros Hc Hspot.
  destruct (calculate_performance_metrics_run e g cp Hc Hspot)
    as (bi & ei & bh & eh & g1 & v & dca & best & worst & g' & Hs & Hrun).
  exists bi, ei, bh, eh, g1. split; [exact Hs|].
  intros bh' eh' bi' ei' Em Hv Hi Hd.
  destruct (Hrun bh' eh' bi' ei' Em) as [Han ->]. cbn [fst].
  pose proof (performance_dict_outcome v bi' ei' bh' eh' cp dca best worst)
    as Hdict.
  rewrite annualized_return_of_negative in Han by (assumption || lia).
  injection Han as Han. rewrite <- Han in Hdict. rewrite Hdict. reflexivity.
Qed.

(** Ten bitcoin sold that were never bought: no metrics. *)
Lemma oversold_ledger_hides_metrics_witness :
  fst (calculate_performance_metrics env_oversold globals_three_weeks) = Ok None.
Proof.
  destruct (oversold_ledger_hides_metrics env_oversold globals_three_weeks
              {| bitcoin := 60000; ethereum := 3500 |}
              (cache_ok_empty _) eq_refl)
    as (bi & ei & bh & eh & g1 & Hs & H).
  destruct (apply_manual_transactions env_oversold bh eh bi ei)
    as [[[bh' eh'] bi'] ei'] eqn:Em.
  specialize (H bh' eh' bi' ei' eq_refl).
  vm_compute in Hs. injection Hs as <- <- <- <- _.
  vm_compute in Em. injection Em as <- <- <- <-.
  apply H; vm_compute; reflexivity.
Defined.

(** ** Outcomes of the benchmark comparison *)

Lemma py_index_last {A} (x : A) (xs : list A) :
  exists y, py_index (x :: xs) (-1) = Ok y.
Proof.
  unfold py_index. change (-1 <? 0)%Z with true. cbv iota.
  assert ((Z.of_nat (length (x :: xs)) + -1 <? 0)%Z = false) as ->
    by (apply Z.ltb_ge; simpl length; lia).
  destruct (nth_error (x :: xs) (Z.to_nat (Z.of_nat (length (x :: xs)) + -1)))
    as [y|] eqn:E; [eauto|].
  apply nth_error_None in E. simpl length in E. lia.
Qed.

(** X25.  The benchmark comparison cannot fail on any history.  Given
    whatever list of history entries, the computation raises nothing: it
    answers 500 for an empty history, 400 for a single entry and 200
    otherwise, with period_days the number of entries.  In a 200 answer the
    outperformance against the 50/50 benchmark is, to within 0.01, the mean
    of the outperformances against bitcoin and ethereum. *)
Theorem benchmark_comparison_outcomes (history : list snapshot) :
  exists resp,
    benchmark_comparison history = Ok resp /\
    (history = [] -> status_of resp = 500%Z) /\
    (length history = 1%nat -> status_of resp = 400%Z) /\
    ((2 <= length history)%nat ->
     exists b,
       resp = Jsonify b 200 /\
       bm_period_days b = length history /\
       - (1 # 100)
       <= bm_balanced_outperformance b
          - (bm_btc_outperformance b + bm_eth_outperformance b) / 2
       <= 1 # 100).
Proof.
  unfold benchmark_comparison.
  destruct history as [|h0 history'].
  { eexists. split; [reflexivity|]. cbn [length].
    split; [reflexivity|]. split; [discriminate|]. intros; lia. }
  destruct (Nat.ltb_spec (length (h0 :: history')) 2) as [Hlen|Hlen].
  { eexists. split; [reflexivity|].
    split; [discriminate|]. split; [reflexivity|]. intros; lia. }
  change (py_index (h0 :: history') 0) with (Ok h0). cbn [rbind].
  destruct (py_index_last h0 history') as [last ->]. cbn [rbind].
  unfold return_of.
  destruct (ratio_of_total (total_value last - total_value h0) (total_value h0))
    as [pr ->]. cbn [rbind].
  destruct (ratio_of_total (btc_price last - btc_price h0) (btc_price h0))
    as [br ->]. cbn [rbind].
  destruct (ratio_of_total (eth_price last - eth_price h0) (eth_price h0))
    as [er ->]. cbn [rbind].
  eexists. split; [reflexivity|].
  split; [discriminate|]. split; [intros; lia|].
  intros _. eexists. split; [reflexivity|].
  cbn [bm_period_days bm_balanced_outperformance bm_btc_outperformance
       bm_eth_outperformance].
  split; [reflexivity|].
  pose proof (py_round_2_error ((pr - br) * 100)).
  pose proof (py_round_2_error ((pr - er) * 100)).
  pose proof (py_round_2_error ((pr - (br + er) / 2) * 100)).
  set (r1 := py_round ((pr - br) * 100) 2) in *.
  set (r2 := py_round ((pr - er) * 100) 2) in *.
  set (r3 := py_round ((pr - (br + er) / 2) * 100) 2) in *.
  assert (E3 : (pr - (br + er) / 2) * 100
               == ((pr - br) * 100 + (pr - er) * 100) * (1 # 2)) by field.
  assert (E : (r1 + r2) / 2 == (r1 + r2) * (1 # 2)) by field.
  rewrite E. rewrite E3 in *. lra.
Qed.

(** Three entries: a 200 answer over three days. *)
Lemma benchmark_comparison_outcomes_witness :
  exists b,
    benchmark_comparison [snap 100; snap 110; snap 105] = Ok (Jsonify b 200) /\
    bm_period_days b = 3%nat.
Proof.
  destruct (benchmark_comparison_outcomes [snap 100; snap 110; snap 105])
    as (resp & Hr & _ & _ & H200).
  destruct H200 as (b & -> & Hd & _); [simpl; lia|].
  exists b. split; assumption.
Defined.
